(* ===== verification/_CoqProject ===== *)
-Q . S2P
Prelude.v
View.v
Logo.v
ExamTypes.v
History.v
ExamStore.v
Selectors.v
ExamPage.v
ExamView.v
Validation.v
AuthStore.v
Security.v
Ayuda.v
Routing.v
Avatar.v
Cursos.v
Charts.v
ProgresoView.v
LoginPage.v
Dashboard.v
Splash.v
Json.v
AppView.v
