(* ===== verification/Prelude.v ===== *)
(** * A verification of the exam simulator of [capacita-seguros]

    The program ([src/capacita-seguros/src]) is a single-page React
    application for training insurance staff. Its state lives in two zustand
    stores: the exam store ([store/examStore.ts], [useExamStore]) holds one
    timed exam attempt and appends each completed result to a capped history
    under [localStorage['examResults']]; the session store
    ([store/authStore.ts], [useAuthStore]) holds the logged-in user and
    validates and escapes the login input. The exam page
    ([pages/SimuladorExamen.tsx]) drives the exam store from its buttons, a
    one-second interval and an auto-complete effect, and reads the user from
    the session store when it completes an attempt. [utils/security.ts]
    holds further sanitizers and the session-token generator. The other
    pages read the stores: the login form ([pages/Login.tsx]) feeds the
    session store and leaves for the dashboard once a user is logged in;
    the dashboard ([pages/Dashboard.tsx]) logs out and navigates through
    the route table of [App.tsx]; the progress page ([pages/Progreso.tsx])
    draws four canvas charts of constant data; the splash screen
    ([components/SplashScreen.tsx]) covers the application for four
    seconds.

    ** Files, in dependency order
    - [Prelude] (this file): the JavaScript primitives the code uses:
      strict equality [===] as the class [JsStrictEq] with notation in
      [js_scope], [findIndex] ([None] for [-1]), [slice_last] for
      [slice(-k)], [Math.round] of a ratio as [math_round_div] with [NaN]
      and the infinities in [jsnum], [toString] in a radix and [padStart];
      the hint databases [js] and [js_rw] and the tactic [js_simpl].
    - [View] (Module [View]): what a component's JSX evaluates to, a tree
      of elements and text nodes ([vnode], with its induction principle
      over the children), and how a user reads it: [text_of], the elements
      of a class ([by_class], [querySelectorAll]), an attribute ([attr]).
      Each page's render is a function from its state to a [vnode].
    - [Logo] (Module [Logo]): [components/Logo.tsx], the image with its
      default props and class template, which the login card and the
      splash screen render.
    - [ExamTypes]: the records and enums of [types/exam.ts] and
      [types/auth.ts], the built-in [sampleExam] verbatim, and the class
      [Session] through which the exam store reads the current user.
    - [History] (Module [History]): the stored result list and the
      read-append-[slice(-100)]-write of [completeExam], with its caught
      failures (unparseable value, failing [setItem]).
    - [ExamStore] (Module [ExamStore]): [ExamState] and one function per
      action ([startExam], [answerQuestion], [nextQuestion],
      [previousQuestion], [completeExam], [resetExam], [tick], the dots'
      [jumpTo], and a page reload through [persist] ([persist_rehydrate]));
      [World] pairs the store with the stored history; [step] is the
      relation of all actions and [reachable] its closure from the initial
      store.
    - [Selectors] (Module [Selectors]): [useExamProgress] and
      [useFormattedTime].
    - [ExamPage] (Module [ExamPage]): the page as [Page] (the world and the
      [showConfirm] flag), the screen it renders ([screen]), the events each
      screen offers ([enabled]), the handlers ([handle]), and the
      auto-complete effect that runs after each event ([autoComplete]);
      [page_step] is one user or timer event.
    - [ExamView] (Module [ExamView]): the three trees the exam page
      renders (start card, results card, question screen with its
      progress bar, question card, navigation dots and confirmation
      modal) as [View] trees of the page state and the session user, and
      the invariant that a reachable page only holds the built-in exam.
    - [Validation] (Module [Validation]): [EMAIL_REGEX] as the executable
      matcher [email_test] beside the regular language [email_lang],
      [validatePasswordStrength], and the replace chain of [sanitizeInput].
    - [AuthStore] (Module [AuthStore]): [AuthState]; [login] split at its
      [await] into [login_begin] and [login_finish], with a queue of pending
      logins in [System] so that any event may run in between; [logout],
      [clearError], [setLoading] and the reload ([rehydrate]).
    - [Security] (Module [Security]): every function of
      [utils/security.ts], and [generateSecureId].
    - [Ayuda] (Module [Ayuda]): the help chat of [pages/Ayuda.tsx]: its
      state ([Chat]: input box, messages, typing flag, and the queries whose
      one-second reply timers are pending), its escaping [sanitizeInput],
      the FAQ search, the handlers as [chat_step], and the render of the
      conversation ([render_chat]).
    - [Routing] (Module [Routing]): the route table of [App.tsx] and the
      guard of [components/ProtectedRoute.tsx] as the element rendered at
      a path for the session flag, each [<Route path>] matching as React
      Router matches a static path ([route_matches]: ASCII case ignored,
      trailing slashes dropped), and [resolve], which follows the
      redirections (three elements suffice: at most two redirections).
    - [Avatar] (Module [Avatar]): [getDefaultAvatar] of
      [components/UserAvatar.tsx], with [parseInt] and the lookup that reads
      [undefined].
    - [Cursos] (Module [Cursos]): the course data of [pages/Cursos.tsx],
      the expanded-module set (a stdpp [gset]) with [toggleModulo], the
      counters the page shows, and the render ([render_cursos]) for the
      test [has] of the set.
    - [Charts] (Module [Charts]): [pages/Progreso.tsx]: each drawing
      function as the list of canvas calls it makes ([CanvasOp]) over exact
      rationals, [NonFinite] standing for the [NaN] of a division by zero;
      the page data, the mount effect, the tab and view state, the toasts
      of [showNotification] with their timers ([progreso_step]), and
      [adjustColor].
    - [ProgresoView] (Module [ProgresoView]): the render of
      [pages/Progreso.tsx] (lines 304-488) as a tree of the page state,
      [String(n)] of the page's numbers ([js_number_string]), and
      [animateProgressBars], which reads the [.progress-fill] elements of
      that tree.
    - [LoginPage] (Module [LoginPage]): the form of [pages/Login.tsx] on top
      of the session store's event loop [sys_dispatch]: its handlers, the
      navigation effect, and the browser's constraint validation (the
      [required] fields, [type="email"] as the section variable
      [html_email], the [disabled] submit button) as [login_dispatch] and
      [login_step]; the render ([render_login]) with its error banner and
      submit button.
    - [Dashboard] (Module [Dashboard]): the constants and labels of
      [pages/Dashboard.tsx], [handleLogout] and the quick actions as
      navigation events, the page [App] then shows ([shown_page]), and the
      render ([render_dashboard]) of the user and the date.
    - [Splash] (Module [Splash]): the refs, state, effect, cleanup and
      timer of [components/SplashScreen.tsx] over explicit time
      ([splash_step]), and what the component renders ([render_splash]).
    - [Json] (Module [Json]): the JSON values [JSON.stringify] writes for
      results and answers ([NaN] as [null]) and the decoding the
      [ExamResult] type assumes after [JSON.parse], as the classes [Encode]
      and [Decode] with the round-trip law [Codec].
    - [AppView] (Module [AppView]): the document of [App.tsx], the splash
      screen around the routed page, with the state of every mounted part
      and the one session store they read.

    ** What is proved
    - Invariants by rule induction: every reachable world of the exam store
      is well formed ([wf]: index in range, answers unique and consistent
      with the exam, time within the allotment, results bounded); every
      reachable page also has no running attempt at zero seconds; every
      reachable session state is consistent ([sys_ok]); every reachable
      chat state pairs each query with a reply or a pending timer
      ([chat_ok]); in every reachable session state each path ends on the
      login page exactly when no user is logged in; every reachable login
      page keeps the session invariant, logs in users of the eight insurers
      only, and has navigated exactly when authenticated ([page_ok]); every
      reachable splash state hides at most once and never early
      ([splash_ok]).
    - Functional behaviour of each action on each branch, the result
      [completeExam] builds, the clamping of navigation, the timer.
    - Refinement: the answers list implements a finite map (stdpp [gmap])
      from question id to answer; [sanitizeInput] equals the single-pass
      escaping [escape_html]; [email_test] decides [email_lang]. A login
      with a new valid email creates the user named by the text before
      its ['@'], unchanged by the escaping.
    - Liveness: a running attempt is completed by the page after exactly as
      many interval firings as it has seconds left, and saved once; the
      quick demo with a strong password reaches the dashboard; the splash
      screen hides exactly at its start time plus 4000 ms.
    - Composition of pages with the stores and the route table: the
      dashboard's logout always shows the login page and its quick actions
      their pages; a demo button alone never submits.
    - Error behaviour: an address the browser accepts and [EMAIL_REGEX]
      rejects shows the store's message until the next keystroke; the time
      chart of all-zero data draws nothing and reports success.
    - Composition of the whole application: for a reachable splash screen
      and session store the document is the splash screen until it hides,
      then the login page exactly when no user is logged in, and otherwise
      the rendered page of the path.
    - Rendered output: on every reachable exam page the question screen
      agrees with the store (one dot per question, exactly one current dot
      at the index, the answered counter equal to the answered dots, at
      most one selected option, the first and last questions' buttons);
      every reachable login page shows at most one error
      banner, holding one of the store's messages, and disables its button
      exactly while loading; the dashboard greets the user by a non-empty
      first name; the progress page marks exactly the active tab, hides the
      fourth and fifth module rows in the compact view and animates all
      seven bars; the chat shows one bubble per message and the typing
      line, and an FAQ answer as escaped text; the splash screen renders
      its children exactly once hidden. The dashboard render and the JSON
      codec of the stored history ([Json]) are proved as lemmas of their
      files, outside the listed properties.
    - Bounds: on every reachable store the progress selector shows a
      whole percentage in [0, 100] and a question number in range.
    - The charts: the doughnut's arcs are contiguous and make a full turn;
      the line chart stays inside its frame.
    - Round trips: entity decoding of [sanitizeInput], the [MM:SS] clock,
      the hexadecimal tokens.
    - Findings: a second [completeExam] appends a second result (the store
      has no guard; the page never calls it twice); answers stay mutable
      after completion; a logout during the login delay is undone by the
      pending login; [sanitizeString] escapes neither [<] nor [>]; the help
      chat shows entities such as [&quot;] in its messages, sends the old
      box content on a suggestion click, and hides its typing indicator
      while a reply is pending; generated ids that start with a letter get
      no default avatar; the course page shows a constant 25% progress; the
      time chart draws nothing for an all-zero week; a module score of 0
      shows as unevaluated; the progress tabs change no content; a [NaN]
      score is stored as [null]; the dashboard shows two double-quote
      characters, the stray JSX text of line 134, above its content.

    ** Bounds, fuel and what is abstracted
    Integers are [Z]: the values the code stores (indices, seconds, counts)
    stay far below 2^53, so JavaScript numbers are exact on them; the score
    is computed exactly on the rational [c / t], so the rounding of the
    floating-point product is not modelled. [toString] takes as fuel the
    number of bits of its argument, which bounds its number of digits in any
    radix [>= 2]. Strings are Rocq strings of 8-bit characters: an ASCII
    input is the JavaScript string of the same characters, and [trim] and
    [toLowerCase] are modelled on code units below 256. Randomness
    ([crypto.getRandomValues]), the clock ([new Date()]) and the success of
    [localStorage.setItem] are inputs of the steps.

    The charts compute in exact rationals where JavaScript uses floating
    point; on the page's small integer data the exact values are what the
    floating-point ones approximate, and a division by zero is kept as
    [NonFinite]. Time in [Splash] is an integer of milliseconds that only
    grows. The browser's check of [type="email"] is a parameter of the
    login page: its theorems hold for any such check. The decimal
    expansion of [String(n)] takes 20 digits of fuel: the page's numbers
    have at most two decimals. The chat's [toLocaleTimeString] is a
    parameter of its render.

    Not modelled: the percent-decoding of a path by the router, CSS and
    inline styles (the widths of the progress bars
    apart; the styles of the toasts of [Progreso] are reduced to their
    phases), images as files, event listeners other than the handlers
    the steps model, the focus calls of the login page, and the text
    syntax of JSON, which is the platform's. The current date of the
    dashboard's last-access line is a parameter of its render. *)

From stdpp Require Import base list strings.
From Stdlib Require Import ZArith Lia Bool.
From Stdlib Require Ascii String.

Declare Scope js_scope.
Delimit Scope js_scope with js.
#[local] Open Scope Z_scope.

Create HintDb js discriminated.
Create Rewrite HintDb js_rw.

(** ** Strict equality [===] *)

Class JsStrictEq (A : Type) := {
  js_eq : A -> A -> bool;
  js_eq_reflect : forall x y, reflect (x = y) (js_eq x y)
}.

Notation "a === b" := (js_eq a b) (at level 70, no associativity) : js_scope.
Open Scope js_scope.

#[export] Instance js_eq_string : JsStrictEq string :=
  {| js_eq := String.eqb; js_eq_reflect := String.eqb_spec |}.
#[export] Instance js_eq_Z : JsStrictEq Z :=
  {| js_eq := Z.eqb; js_eq_reflect := Z.eqb_spec |}.
#[export] Instance js_eq_bool : JsStrictEq bool :=
  {| js_eq := Bool.eqb; js_eq_reflect := fun x y => iff_reflect _ _ (iff_sym (eqb_true_iff x y)) |}.

(** ** [Array.prototype.findIndex] *)

Fixpoint findIndex {A} (p : A -> bool) (l : list A) : option nat :=
  match l with
  | [] => None
  | x :: l' => if p x then Some 0%nat else S <$> findIndex p l'
  end.

(** ** [Array.prototype.slice(-k)] *)

(** [l.slice(-k)] keeps the last [k] elements (all of them when there are
    fewer than [k]). *)
Definition slice_last {A} (k : nat) (l : list A) : list A :=
  drop (length l - k) l.

(** ** JavaScript numbers produced by a division *)

(** The results of [Math.round(p / q)] that the code can observe: a finite
    integer, [NaN] ([0 / 0]) or an infinity ([p / 0] with [p <> 0]). *)
Inductive jsnum :=
| JNum (z : Z)
| JNaN
| JInfinity
| JNegInfinity.

#[export] Instance jsnum_eq_dec : EqDecision jsnum.
Proof. solve_decision. Defined.

(** [Math.round(p / q)] for integers [p] and [q >= 0]: rounding half up,
    [floor(p / q + 1/2) = floor((2p + q) / 2q)]. *)
Definition math_round_div (p q : Z) : jsnum :=
  if q =? 0 then
    (if p =? 0 then JNaN else if 0 <? p then JInfinity else JNegInfinity)
  else JNum ((2 * p + q) / (2 * q)).

(** The percentage [Math.round((c / t) * 100)], computed exactly on the
    rational [c / t]. *)
Definition percent (c t : Z) : jsnum := math_round_div (c * 100) t.

(** ** [Number.prototype.toString(radix)] and [String.prototype.padStart] *)

(** The digit [d] ([0 <= d < 36]) in the alphabet of [toString]: [0-9], then
    [a-z]. *)
Definition digit_char (d : Z) : Ascii.ascii :=
  Ascii.ascii_of_nat (Z.to_nat (if d <? 10 then 48 + d else 87 + d)).

(** The digits of [n >= 0] in base [radix], most significant first, put in
    front of [acc]; [fuel] bounds the number of digits. *)
Fixpoint radix_digits (fuel : nat) (radix n : Z) (acc : string) : string :=
  match fuel with
  | O => acc
  | S f =>
      let acc' := String (digit_char (n mod radix)) acc in
      if n <? radix then acc' else radix_digits f radix (n / radix) acc'
  end.

(** [n.toString(radix)] for an integer [n] and [2 <= radix <= 36]. A number
    [n >= 0] has at most [log2 n + 1] digits in any base [>= 2]: that is the
    fuel. *)
Definition toString (radix n : Z) : string :=
  if n <? 0
  then String (Ascii.ascii_of_nat 45) (radix_digits (S (Z.to_nat (Z.log2 (- n)))) radix (- n) EmptyString)
  else radix_digits (S (Z.to_nat (Z.log2 n))) radix n EmptyString.

(** [s.padStart(len, fill)] with a one-character [fill]. *)
Definition padStart (s : string) (len : nat) (fill : Ascii.ascii) : string :=
  String.append (String.string_of_list_ascii (replicate (len - String.length s) fill)) s.

(** The value of a digit character, the inverse of [digit_char] (used to
    state round trips, not by the code). *)
Definition digit_value (c : Ascii.ascii) : option Z :=
  let k := Z.of_nat (Ascii.nat_of_ascii c) in
  if (48 <=? k) && (k <=? 57) then Some (k - 48)
  else if (97 <=? k) && (k <=? 122) then Some (k - 87)
  else None.

(** The one-character string of a Latin-1 code unit, for the accented
    letters of the page texts. *)
Definition ch (n : nat) : string := String (Ascii.ascii_of_nat n) EmptyString.

(** * Lemmas *)

Section JsEq.
Context {A : Type} `{JsStrictEq A}.

Lemma js_eq_true (x y : A) : (x === y) = true <-> x = y.
Proof. destruct (js_eq_reflect x y); split; congruence. Qed.

Lemma js_eq_false (x y : A) : (x === y) = false <-> x <> y.
Proof. destruct (js_eq_reflect x y); split; congruence. Qed.

Lemma js_eq_eq (x y : A) : (x === y) = true -> x = y.
Proof. apply js_eq_true. Qed.

Lemma js_eq_neq (x y : A) : (x === y) = false -> x <> y.
Proof. apply js_eq_false. Qed.

Lemma js_eq_refl (x : A) : (x === x) = true.
Proof. by apply js_eq_true. Qed.

Lemma js_eq_sym (x y : A) : (x === y) = (y === x).
Proof.
  destruct (js_eq_reflect x y), (js_eq_reflect y x); congruence.
Qed.
End JsEq.

#[export] Hint Rewrite @js_eq_refl : js_rw.
#[export] Hint Resolve js_eq_refl : js.

Section FindIndex.
Context {A : Type} (p : A -> bool).

Lemma findIndex_Some (l : list A) i :
  findIndex p l = Some i ->
  exists x, l !! i = Some x /\ p x = true /\
    forall j y, (j < i)%nat -> l !! j = Some y -> p y = false.
Proof.
  revert i; induction l as [|x l IH]; intros i Hi; simpl in Hi; [done|].
  destruct (p x) eqn:Hx.
  - injection Hi as <-. exists x. split_and!; [done|done|lia].
  - destruct (findIndex p l) as [k|] eqn:Hk; simpl in Hi; [|done].
    injection Hi as <-. destruct (IH k eq_refl) as (y & Hy & Hpy & Hlt).
    exists y. split_and!; [done|done|].
    intros [|j] z Hj Hz; simpl in Hz; [congruence|]. apply (Hlt j); [lia|done].
Qed.

Lemma findIndex_None (l : list A) :
  findIndex p l = None <-> Forall (fun x => p x = false) l.
Proof.
  induction l as [|x l IH]; simpl; [split; auto|].
  rewrite Forall_cons. destruct (p x) eqn:Hx; [split; [done|naive_solver]|].
  destruct (findIndex p l); simpl; naive_solver.
Qed.

Lemma findIndex_lt (l : list A) i : findIndex p l = Some i -> (i < length l)%nat.
Proof.
  intros Hi. destruct (findIndex_Some l i Hi) as (x & Hx & _).
  by eapply lookup_lt_Some.
Qed.

Lemma find_findIndex_None (l : list A) : find p l = None <-> findIndex p l = None.
Proof.
  induction l as [|x l IH]; simpl; [done|].
  destruct (p x); [done|]. rewrite IH. by destruct (findIndex p l).
Qed.

Lemma find_Some_Exists (l : list A) :
  (exists x, find p l = Some x) <-> Exists (fun x => p x = true) l.
Proof.
  induction l as [|x l IH]; simpl.
  - split; [intros [? ?]; done|inversion 1].
  - rewrite Exists_cons. destruct (p x) eqn:Hx; [naive_solver|].
    rewrite IH. naive_solver.
Qed.
End FindIndex.

Lemma length_slice_last {A} k (l : list A) :
  length (slice_last k l) = Nat.min k (length l).
Proof. unfold slice_last. rewrite length_drop. lia. Qed.

Lemma slice_last_small {A} k (l : list A) :
  (length l <= k)%nat -> slice_last k l = l.
Proof. intros Hl. unfold slice_last. by replace (length l - k)%nat with 0%nat by lia. Qed.

Lemma slice_last_suffix {A} k (l : list A) : suffix (slice_last k l) l.
Proof. unfold slice_last. apply suffix_drop. Qed.

Lemma slice_last_snoc_last {A} k (l : list A) x :
  (0 < k)%nat -> last (slice_last k (l ++ [x])) = Some x.
Proof.
  intros Hk. unfold slice_last. rewrite length_app; simpl.
  rewrite drop_app_le by lia. apply last_snoc.
Qed.

#[export] Hint Resolve slice_last_suffix : js.

Lemma math_round_div_spec p q :
  0 < q -> exists z, math_round_div p q = JNum z /\ 2 * q * z <= 2 * p + q < 2 * q * (z + 1).
Proof.
  intros Hq. unfold math_round_div.
  destruct (Z.eqb_spec q 0); [lia|].
  eexists; split; [reflexivity|].
  pose proof (Z.mul_div_le (2 * p + q) (2 * q)) as H1.
  pose proof (Z.mul_succ_div_gt (2 * p + q) (2 * q)) as H2.
  split; [apply H1; lia | specialize (H2 ltac:(lia)); lia].
Qed.

Lemma percent_bounds c t :
  0 < t -> 0 <= c <= t -> exists s, percent c t = JNum s /\ 0 <= s <= 100.
Proof.
  intros Ht Hc. destruct (math_round_div_spec (c * 100) t Ht) as (z & Hz & Hlo & Hhi).
  exists z. unfold percent. rewrite Hz. split; [done|nia].
Qed.

Lemma percent_zero_total c : c = 0 -> percent c 0 = JNaN.
Proof. intros ->. reflexivity. Qed.


(** ** Strings *)

Lemma str_app_cons (c : Ascii.ascii) (s1 s2 : string) :
  String.append (String c s1) s2 = String c (String.append s1 s2).
Proof. reflexivity. Qed.

Lemma str_app_assoc (s1 s2 s3 : string) :
  String.append (String.append s1 s2) s3 = String.append s1 (String.append s2 s3).
Proof. induction s1 as [|c s1 IH]; [done|]. by rewrite !str_app_cons, IH. Qed.

Lemma str_app_nil_r (s : string) : String.append s EmptyString = s.
Proof. induction s as [|c s IH]; [done|]. by rewrite str_app_cons, IH. Qed.

Lemma str_length_app (s1 s2 : string) :
  String.length (String.append s1 s2) = (String.length s1 + String.length s2)%nat.
Proof. induction s1 as [|c s1 IH]; [done|]. rewrite str_app_cons. simpl. by rewrite IH. Qed.

Lemma str_cons_app (c : Ascii.ascii) (s : string) :
  String c s = String.append (String c EmptyString) s.
Proof. done. Qed.

(** ** Tactics *)

(** Turn the boolean tests of the code into propositions in hypotheses. *)
Ltac js_simpl :=
  repeat match goal with
  | H : (_ =? _) = true |- _ => apply Z.eqb_eq in H
  | H : (_ =? _) = false |- _ => apply Z.eqb_neq in H
  | H : (_ <? _) = true |- _ => apply Z.ltb_lt in H
  | H : (_ <? _) = false |- _ => apply Z.ltb_ge in H
  | H : (_ <=? _) = true |- _ => apply Z.leb_le in H
  | H : (_ <=? _) = false |- _ => apply Z.leb_gt in H
  | H : (_ === _) = true |- _ => apply js_eq_eq in H
  | H : (_ === _) = false |- _ => apply js_eq_neq in H
  | H : _ && _ = true |- _ => apply andb_true_iff in H as [? ?]
  | H : _ || _ = false |- _ => apply orb_false_iff in H as [? ?]
  end.

(** ** Digits *)

Lemma digit_value_char d : 0 <= d < 36 -> digit_value (digit_char d) = Some d.
Proof.
  intros Hd. unfold digit_value, digit_char.
  destruct (d <? 10) eqn:H10; js_simpl;
    rewrite Ascii.nat_ascii_embedding by lia; rewrite Z2Nat.id by lia;
    repeat (case_match; js_simpl); f_equal; lia.
Qed.

Lemma radix_digits_lt f radix n acc :
  0 <= n < radix -> radix_digits (S f) radix n acc = String (digit_char n) acc.
Proof.
  intros Hn. simpl. rewrite Z.mod_small by lia.
  by replace (n <? radix) with true by (symmetry; apply Z.ltb_lt; lia).
Qed.

Lemma toString_lt radix n :
  0 <= n < radix -> toString radix n = String (digit_char n) EmptyString.
Proof.
  intros Hn. unfold toString.
  replace (n <? 0) with false by (symmetry; apply Z.ltb_ge; lia).
  by apply radix_digits_lt.
Qed.

(** Two digits for [radix <= n < radix * radix]. *)
Lemma toString_two_digits radix n :
  2 <= radix -> radix <= n < radix * radix ->
  toString radix n = String (digit_char (n / radix)) (String (digit_char (n mod radix)) EmptyString).
Proof.
  intros Hr Hn. unfold toString.
  replace (n <? 0) with false by (symmetry; apply Z.ltb_ge; lia).
  assert (Hlog : 0 < Z.log2 n) by (apply Z.log2_pos; lia).
  replace (S (Z.to_nat (Z.log2 n))) with (S (S (Z.to_nat (Z.log2 n - 1)))) by lia.
  simpl. replace (n <? radix) with false by (symmetry; apply Z.ltb_ge; lia).
  apply radix_digits_lt. split; [apply Z.div_pos; lia|apply Z.div_lt_upper_bound; lia].
Qed.

(** [n.toString(radix).padStart(2, '0')] is the two digits of [n] for
    [0 <= n < radix * radix]. *)
Lemma padStart_two_digits radix n :
  2 <= radix -> 0 <= n < radix * radix ->
  padStart (toString radix n) 2 (Ascii.ascii_of_nat 48) =
  String (digit_char (n / radix)) (String (digit_char (n mod radix)) EmptyString).
Proof.
  intros Hr Hn. destruct (Z.lt_ge_cases n radix) as [Hlt|Hge].
  - rewrite toString_lt by lia. rewrite Z.div_small, Z.mod_small by lia. reflexivity.
  - rewrite toString_two_digits by lia. reflexivity.
Qed.

(** Dividing by a radix [>= 2] lowers the binary logarithm of a number
    [>= radix]. *)
Lemma log2_div_lt radix n : 2 <= radix -> radix <= n -> Z.log2 (n / radix) < Z.log2 n.
Proof.
  intros Hr Hn.
  assert (Hle : Z.log2 (n / radix) <= Z.log2 (n / 2)).
  { apply Z.log2_le_mono, Z.div_le_compat_l; lia. }
  replace (n / 2) with (Z.shiftr n 1) in Hle by (rewrite Z.shiftr_div_pow2; [reflexivity|lia]).
  rewrite Z.log2_shiftr in Hle by lia.
  assert (0 < Z.log2 n) by (apply Z.log2_pos; lia). lia.
Qed.

(** Any fuel above [log2 n] computes the same digits. *)
Lemma radix_digits_fuel_stable f g radix n acc :
  2 <= radix -> 0 <= n -> (Z.to_nat (Z.log2 n) < f)%nat -> (Z.to_nat (Z.log2 n) < g)%nat ->
  radix_digits f radix n acc = radix_digits g radix n acc.
Proof.
  revert g n acc. induction f as [|f IH]; intros g n acc Hr Hn Hf Hg; [lia|].
  destruct g as [|g]; [lia|]. simpl. destruct (n <? radix) eqn:Hlt; [done|].
  apply Z.ltb_ge in Hlt. pose proof (log2_div_lt radix n Hr Hlt).
  pose proof (Z.log2_nonneg (n / radix)).
  apply IH; [done|apply Z.div_pos; lia|lia|lia].
Qed.

(** The digit loop of [toString] ends within its fuel: for [n >= 0]
    and a radix of at least 2, every fuel larger than [log2 n] gives the
    digits [toString] returns, so the fuel [log2 n + 1] never runs out
    before the loop's exit [n < radix]. *)
Theorem toString_fuel_enough radix n f :
  2 <= radix -> 0 <= n -> (Z.to_nat (Z.log2 n) < f)%nat ->
  toString radix n = radix_digits f radix n EmptyString.
Proof.
  intros Hr Hn Hf. unfold toString.
  replace (n <? 0) with false by (symmetry; apply Z.ltb_ge; lia).
  apply radix_digits_fuel_stable; lia.
Qed.

Lemma toString_fuel_enough_witness :
  (2 <= 16 /\ 0 <= 255 /\ (Z.to_nat (Z.log2 255) < 100)%nat) /\
  toString 16 255 = radix_digits 100 16 255 EmptyString.
Proof.
  split; [split_and!; [lia|lia|vm_compute; lia]|].
  apply toString_fuel_enough; [lia|lia|vm_compute; lia].
Defined.
