(* ===== verification/View.v ===== *)
(** * View: the rendered output of the components

    A component's JSX evaluates to a tree of elements and strings, which
    React turns into the document. [vnode] is that tree: an element has its
    tag, its [className], its other attributes, and its children; a text
    node holds a string, which React writes as text, never as markup (so an
    entity such as [&amp;] in a string is displayed as the five characters).
    [{cond && <X/>}] contributes [X] or nothing, and [{list.map(...)}] the
    elements of the list in order: children are a list. A child component
    (the [Logo]) is the tree it renders. The functions here read a tree the
    way a user does: its text, the elements of a class, an attribute. *)

From stdpp Require Import base list.
From Stdlib Require Import String Ascii Bool.
From S2P Require Import Prelude.

Module View.

#[local] Open Scope string_scope.

(** The elimination scheme of a tree with a list of children is written by
    hand, with [Forall] on the children. *)
Local Unset Elimination Schemes.

Inductive vnode :=
| VText (s : string)
| VElem (tag : string) (cls : string) (attrs : list (string * string)) (children : list vnode).

Section vnode_ind.
Variable P : vnode -> Prop.
Hypothesis P_text : forall s, P (VText s).
Hypothesis P_elem : forall tag cls attrs cs, Forall P cs -> P (VElem tag cls attrs cs).

Fixpoint vnode_ind (v : vnode) : P v :=
  match v with
  | VText s => P_text s
  | VElem tag cls attrs cs =>
      P_elem tag cls attrs cs
        ((fix go (l : list vnode) : Forall P l :=
            match l with
            | [] => @List.Forall_nil _ P
            | c :: l' => @List.Forall_cons _ P c l' (vnode_ind c) (go l')
            end) cs)
  end.
End vnode_ind.

(** An element without attributes besides its class. *)
Definition el (tag cls : string) (children : list vnode) : vnode := VElem tag cls [] children.

(** [{cond && <X/>}] *)
Definition when (b : bool) (v : vnode) : list vnode := if b then [v] else [].

(** The words of a [className], split at spaces. *)
Fixpoint class_words_aux (cur : string) (s : string) : list string :=
  match s with
  | EmptyString => if String.eqb cur "" then [] else [cur]
  | String c s' =>
      if Ascii.eqb c " "%char then List.app (if String.eqb cur "" then [] else [cur]) (class_words_aux "" s')
      else class_words_aux (cur ++ String c EmptyString) s'
  end.

Definition class_words (cls : string) : list string := class_words_aux "" cls.

Definition has_class (c : string) (v : vnode) : bool :=
  match v with VElem _ cls _ _ => existsb (String.eqb c) (class_words cls) | VText _ => false end.

(** The text of a tree, in document order. *)
Fixpoint text_of (v : vnode) : string :=
  match v with
  | VText s => s
  | VElem _ _ _ cs =>
      (fix go (l : list vnode) : string :=
         match l with [] => "" | c :: l' => text_of c ++ go l' end) cs
  end.

(** Every element of a tree, in document order (the tree first). *)
Fixpoint elements (v : vnode) : list vnode :=
  match v with
  | VText _ => []
  | VElem _ _ _ cs =>
      v :: (fix go (l : list vnode) : list vnode :=
              match l with [] => [] | c :: l' => List.app (elements c) (go l') end) cs
  end.

(** [document.querySelectorAll('.c')] *)
Definition by_class (c : string) (v : vnode) : list vnode := filter (fun e => has_class c e = true) (elements v).

(** The value of an attribute of an element. *)
Definition attr (k : string) (v : vnode) : option string :=
  match v with
  | VElem _ _ attrs _ => snd <$> find (fun kv => String.eqb (fst kv) k) attrs
  | VText _ => None
  end.

(** * Lemmas *)

Lemma elements_elem tag cls attrs cs :
  elements (VElem tag cls attrs cs) = VElem tag cls attrs cs :: (cs ≫= elements).
Proof. reflexivity. Qed.

Lemma text_of_elem tag cls attrs cs :
  text_of (VElem tag cls attrs cs) = foldr String.append "" (text_of <$> cs).
Proof. simpl. induction cs as [|c cs IH]; [done|]. simpl. by rewrite IH. Qed.

Lemma by_class_elem c tag cls attrs cs :
  by_class c (VElem tag cls attrs cs) =
    ((if has_class c (VElem tag cls attrs cs) then [VElem tag cls attrs cs] else []) ++
     (cs ≫= by_class c))%list.
Proof.
  unfold by_class. rewrite elements_elem, filter_cons.
  destruct (has_class c _) eqn:E;
    [rewrite decide_True by done|rewrite decide_False by congruence]; simpl; [f_equal|];
    clear E; induction cs as [|x cs IH]; try done; csimpl; by rewrite filter_app, IH.
Qed.

Lemma by_class_text c s : by_class c (VText s) = [].
Proof. reflexivity. Qed.

(** The class test on a class that is a single word. *)
Lemma has_class_single c tag w attrs cs :
  class_words w = [w] -> has_class c (VElem tag w attrs cs) = String.eqb c w.
Proof. intros Hw. unfold has_class. rewrite Hw. simpl. by rewrite orb_false_r. Qed.

(** An element without children is selected by itself or not at all. *)
Lemma by_class_leaf c tag cls attrs :
  by_class c (VElem tag cls attrs []) =
    if has_class c (VElem tag cls attrs []) then [VElem tag cls attrs []] else [].
Proof. rewrite by_class_elem. simpl. by rewrite app_nil_r. Qed.

(** Over elements without children, selecting in each is filtering. *)
Lemma bind_by_class_leaves c l :
  Forall (fun v => exists tag cls attrs, v = VElem tag cls attrs []) l ->
  l ≫= by_class c = filter (fun v => has_class c v = true) l.
Proof.
  induction 1 as [|v l (tag & cls & attrs & ->) _ IH]; [done|].
  csimpl. rewrite by_class_leaf, filter_cons, IH.
  destruct (has_class c _) eqn:E; [rewrite decide_True by done|rewrite decide_False by congruence]; done.
Qed.

(** Unfolds [by_class] along the concrete part of a tree. *)
Ltac view_simpl := unfold el, when; repeat progress (rewrite ?by_class_elem, ?by_class_text; simpl).

End View.
