(* ===== verification/Logo.v ===== *)
(** * Logo: the image component of [components/Logo.tsx]

    [Logo] renders one [<img>] of the bundled [logo.png] whose class is
    the template [logo logo-${size} ${className}], with the defaults
    [size = 'medium'] and [className = '']. The login card and the splash
    screen render it at sizes [medium] and [large]. *)

From stdpp Require Import base list.
From Stdlib Require Import String Ascii.
From S2P Require Import Prelude View.

Import View.

Module Logo.

#[local] Open Scope string_scope.

(** [size?: 'small' | 'medium' | 'large'] *)
Inductive LogoSize := Small | Medium | Large.

Definition size_name (s : LogoSize) : string :=
  match s with Small => "small" | Medium => "medium" | Large => "large" end.

(** [LogoProps]: both props optional. *)
Record LogoProps := mkLogoProps { size : option LogoSize; className : option string }.

(** The imported asset. *)
Definition logo : string := "logo.png".

Definition Logo (p : LogoProps) : vnode :=
  let size := default Medium (size p) in
  let className := default "" (className p) in
  VElem "img" ("logo logo-" ++ size_name size ++ " " ++ className) [("src", logo); ("alt", "GProA Logo")] [].

(** * Lemmas *)

(** The classes of the image: [logo], [logo-<size>] for the size given or
    [medium], then the words of [className]. *)
Lemma Logo_classes p :
  class_words (match Logo p with VElem _ cls _ _ => cls | VText s => s end) =
    "logo" :: ("logo-" ++ size_name (default Medium (size p))) :: class_words (default "" (className p)).
Proof. destruct p as [[[]|] cn]; reflexivity. Qed.

End Logo.
