(* ===== verification/ExamTypes.v ===== *)
(** * ExamTypes: the data of [types/exam.ts] and [types/auth.ts]

    Records for [Question], [Exam], [UserAnswer], [ExamResult] and [User],
    the enumerations of their string-literal union types, the built-in
    [sampleQuestions] and [sampleExam], and the class [Session] through which
    the exam store reads the acting user from the session store
    ([useAuthStore.getState().user] in [examStore.ts]). Numbers are [Z]. *)

From stdpp Require Import base list strings.
From Stdlib Require Import ZArith.
From S2P Require Import Prelude.

#[local] Open Scope Z_scope.
#[local] Open Scope string_scope.

(** [difficulty: 'easy' | 'medium' | 'hard'] *)
Inductive Difficulty := Easy | Medium | Hard.

Record Question := mkQuestion {
  q_id : string;
  q_question : string;
  q_options : list string;
  q_correctAnswer : Z;
  q_category : string;
  q_difficulty : Difficulty
}.

Record UserAnswer := mkUserAnswer {
  questionId : string;
  selectedAnswer : Z;
  isCorrect : bool
}.

Record Exam := mkExam {
  exam_id : string;
  title : string;
  description : string;
  category : string;
  questions : list Question;
  timeLimit : Z;
  passingScore : Z
}.

(** [score] is the value of [Math.round(...)], which is [NaN] when the exam
    has no question. *)
Record ExamResult := mkExamResult {
  result_id : string;
  examId : string;
  userId : string;
  score : jsnum;
  totalQuestions : Z;
  correctAnswers : Z;
  wrongAnswers : Z;
  timeSpent : Z;
  result_answers : list UserAnswer;
  completedAt : string
}.

(** [role: 'admin' | 'agent' | 'supervisor'] *)
Inductive Role := Admin | Agent | Supervisor.

Record User := mkUser {
  user_id : string;
  name : string;
  email : string;
  company : string;
  role : Role;
  avatar : option string
}.

(** Decidable equality on the data, for [decide] and [simplify_eq]. *)
#[export] Instance Difficulty_eq_dec : EqDecision Difficulty.
Proof. solve_decision. Defined.
#[export] Instance Question_eq_dec : EqDecision Question.
Proof. solve_decision. Defined.
#[export] Instance UserAnswer_eq_dec : EqDecision UserAnswer.
Proof. solve_decision. Defined.
#[export] Instance Exam_eq_dec : EqDecision Exam.
Proof. solve_decision. Defined.
#[export] Instance ExamResult_eq_dec : EqDecision ExamResult.
Proof. solve_decision. Defined.
#[export] Instance Role_eq_dec : EqDecision Role.
Proof. solve_decision. Defined.
#[export] Instance User_eq_dec : EqDecision User.
Proof. solve_decision. Defined.

(** What the exam store needs of the session store: the current user, read
    synchronously when an attempt completes. *)
Class Session (S : Type) := session_user : S -> option User.

(** A snapshot of the session store's [user] field is a session. *)
#[export] Instance session_snapshot : Session (option User) := fun u => u.

(** ** The built-in exam template *)

Definition sampleQuestions : list Question := [
  mkQuestion "1" "Según la LISF, ¿cuál es el objeto de la regulación de las instituciones de seguros?"
    ["Proteger los intereses del público asegurado"; "Maximizar las ganancias de las aseguradoras";
     "Facilitar la venta de seguros"; "Reducir la competencia entre aseguradoras"]
    0 "Regulación" Easy;
  mkQuestion "2" "¿Qué tipo de seguros son los que cubren riesgos provenientes de fuerzas naturales?"
    ["Seguros de vida"; "Seguros de daños"; "Seguros de gastos médicos"; "Seguros de automóviles"]
    1 "Seguros de Daños" Easy;
  mkQuestion "3" "La Comisión Nacional de Seguros y Fianzas (CNSF) depende de:"
    ["La Secretaría de Hacienda y Crédito Público"; "El Banco de México";
     "La Secretaría de Economía"; "El Congreso de la Unión"]
    0 "Regulación" Medium;
  mkQuestion "4" "¿Cuál es el plazo máximo para que una aseguradora deba pronunciarse sobre el pago de un siniestro?"
    ["30 días naturales"; "60 días naturales"; "90 días naturales"; "180 días naturales"]
    2 "Siniestros" Medium;
  mkQuestion "5" "El contrato de seguros debe contener de forma obligatoria:"
    ["Solo el nombre del agente que vende el seguro"; "La cantidad de asegurados en la póliza";
     "Los derechos y obligaciones de las partes"; "El historial de reclamaciones del asegurado"]
    2 "Contratos" Medium;
  mkQuestion "6" "¿Qué es la prima en un contrato de seguros?"
    ["El monto que paga la aseguradora al asegurado"; "El precio del seguro que paga el contratante";
     "El deducible del seguro"; "La comisión del agente"]
    1 "Conceptos Básicos" Easy;
  mkQuestion "7" "La reserva técnica de una aseguradora se refiere a:"
    ["Las oficinas físicas de la empresa"; "Los recursos destinados a cumplir compromisos con asegurados";
     "El capital social de la compañía"; "Los activos fijos de la institución"]
    1 "Finanzas" Hard;
  mkQuestion "8" "¿Qué documento acredita la existencia de un contrato de seguros?"
    ["La cotización"; "La póliza"; "El recibo de pago"; "La solicitud de seguro"]
    1 "Contratos" Easy;
  mkQuestion "9" "El aseguramiento de riesgos implica que:"
    ["El riesgo desaparece completamente"; "El riesgo se transfiere a la aseguradora";
     "El riesgo se comparte con el gobierno"; "El riesgo se reduce a cero"]
    1 "Conceptos Básicos" Easy;
  mkQuestion "10" "La inspección del riesgo por parte de la aseguradora se realiza:"
    ["Después de ocurrido un siniestro"; "Antes de emitir la póliza";
     "Solo cuando hay un incremento en la prima"; "Una vez al año obligatoriamente"]
    1 "Underwriting" Medium
].

Definition sampleExam : Exam := {|
  exam_id := "examen-cnsf-2.1";
  title := "Simulador Examen CNSF 2.1";
  description := "Examen de práctica sobre la Ley de Instituciones de Seguros y Fianzas";
  category := "Regulación";
  questions := sampleQuestions;
  timeLimit := 15;
  passingScore := 70
|}.

(** ** Facts about the template used by the scenario theorems *)

Lemma sampleExam_question_ids :
  map q_id (questions sampleExam) = ["1"; "2"; "3"; "4"; "5"; "6"; "7"; "8"; "9"; "10"].
Proof. reflexivity. Qed.

Lemma sampleExam_ids_NoDup : NoDup (map q_id (questions sampleExam)).
Proof. rewrite sampleExam_question_ids. apply (bool_decide_unpack _). by vm_compute. Qed.
