(* ===== verification/History.v ===== *)
(** * History: the capped result history in [localStorage['examResults']]

    [completeExam] in [store/examStore.ts] (lines 129-137) appends each
    result to the JSON array under the key ['examResults'] and keeps the last
    100 entries; a failing [JSON.parse] or [setItem] is caught and logged,
    leaving the stored value as it was. The stored value is [StoredResults]:
    absent, a parsed array of results, or text that does not parse as one.
    Whether [setItem] succeeds (quota) is a boolean chosen by the
    environment. *)

From stdpp Require Import base list strings.
From Stdlib Require Import ZArith Lia.
From S2P Require Import Prelude ExamTypes.

Module History.

Inductive StoredResults :=
| Absent
| Stored (results : list ExamResult)
| Unparseable.

#[export] Instance StoredResults_eq_dec : EqDecision StoredResults.
Proof. solve_decision. Defined.

(** [const limitedResults = [...existingResults, result].slice(-100)] *)
Definition MAX_RESULTS : nat := 100.

(** [JSON.parse(localStorage.getItem('examResults') || '[]')]: [None] when
    the parse (or the spread of a non-array) throws. *)
Definition readResults (s : StoredResults) : option (list ExamResult) :=
  match s with
  | Absent => Some []
  | Stored l => Some l
  | Unparseable => None
  end.

(** The [try] block of [completeExam]; [writeOk] is whether [setItem]
    returns normally. Either failure lands in the [catch], which only logs. *)
Definition saveResult (writeOk : bool) (r : ExamResult) (s : StoredResults) : StoredResults :=
  match readResults s with
  | None => s
  | Some existingResults =>
      if writeOk then Stored (slice_last MAX_RESULTS (existingResults ++ [r])) else s
  end.

(** The stored list, empty when there is none or it cannot be read. *)
Definition history (s : StoredResults) : list ExamResult := default [] (readResults s).

(** A stored value that the code can have written: absent, or an array of at
    most [MAX_RESULTS] results. *)
Definition history_ok (s : StoredResults) : Prop :=
  match s with
  | Absent => True
  | Stored l => (length l <= MAX_RESULTS)%nat
  | Unparseable => True
  end.

Lemma saveResult_ok w r s : history_ok s -> history_ok (saveResult w r s).
Proof.
  intros Hs. unfold saveResult.
  destruct (readResults s) as [l|]; [|done]. destruct w; [|done].
  unfold history_ok. rewrite length_slice_last. lia.
Qed.

Lemma saveResult_written r s l :
  readResults s = Some l ->
  saveResult true r s = Stored (slice_last MAX_RESULTS (l ++ [r])).
Proof. unfold saveResult. by intros ->. Qed.

Lemma saveResult_failed r s : saveResult false r s = s.
Proof. unfold saveResult. by destruct (readResults s). Qed.

Lemma saveResult_unparseable w r : saveResult w r Unparseable = Unparseable.
Proof. reflexivity. Qed.

(** Appending to a list already within the cap: the old entries and then
    the new one, with the oldest dropped when the cap is exceeded. *)
Lemma history_save_written r s :
  readResults s <> None ->
  history (saveResult true r s) = slice_last MAX_RESULTS (history s ++ [r]).
Proof. destruct s; simpl; done. Qed.

Lemma history_save_small r s :
  readResults s <> None ->
  (length (history s) < MAX_RESULTS)%nat ->
  history (saveResult true r s) = history s ++ [r].
Proof.
  intros Hr Hlen. rewrite history_save_written by done.
  apply slice_last_small. rewrite length_app; simpl. lia.
Qed.

End History.
