(* ===== verification/ExamStore.v ===== *)
(** * ExamStore: the zustand store [useExamStore] of [store/examStore.ts]

    [ExamState] is the store's state ([interface ExamState], lines 13-20);
    each action is a function on it, written as the action's [set] calls
    with its guards and early returns. [completeExam] also reads the session
    store through the [Session] class and writes the result history
    ([History.saveResult]); the pair of the store and that storage key is a
    [World]. [jumpTo] is the [useExamStore.setState({currentQuestionIndex})]
    of the question dots of [pages/SimuladorExamen.tsx]; [persist_rehydrate]
    is a page reload, after which only [results] survives.

    The theorems: the well-formedness invariant [wf] and that every action
    preserves it, hence that every reachable world is well formed; the
    behaviour of each action on each branch; the answers list as a refinement
    of a finite map from question id to answer; the bounds of a completed
    result; and the scenarios of the specification on [sampleExam]. *)

From stdpp Require Import base list strings gmap.
From Stdlib Require Import ZArith Lia.
From S2P Require Import Prelude ExamTypes History.

Import History.

Module ExamStore.

#[local] Open Scope Z_scope.

Record ExamState := mkExamState {
  currentExam : option Exam;
  currentQuestionIndex : Z;
  answers : list UserAnswer;
  timeRemaining : Z;
  isExamStarted : bool;
  isExamCompleted : bool;
  results : option ExamResult
}.

(** The initial state of [create] (lines 35-41). *)
Definition initialState : ExamState := {|
  currentExam := None;
  currentQuestionIndex := 0;
  answers := [];
  timeRemaining := 0;
  isExamStarted := false;
  isExamCompleted := false;
  results := None
|}.

(** Partial [set] calls: only the named field changes. *)
Definition set_answers (l : list UserAnswer) (s : ExamState) : ExamState :=
  mkExamState (currentExam s) (currentQuestionIndex s) l (timeRemaining s)
    (isExamStarted s) (isExamCompleted s) (results s).

Definition set_index (i : Z) (s : ExamState) : ExamState :=
  mkExamState (currentExam s) i (answers s) (timeRemaining s)
    (isExamStarted s) (isExamCompleted s) (results s).

Definition set_time (t : Z) (s : ExamState) : ExamState :=
  mkExamState (currentExam s) (currentQuestionIndex s) (answers s) t
    (isExamStarted s) (isExamCompleted s) (results s).

Definition set_completed (r : ExamResult) (s : ExamState) : ExamState :=
  mkExamState (currentExam s) (currentQuestionIndex s) (answers s) (timeRemaining s)
    (isExamStarted s) true (Some r).

(** [startExam(exam?)]: [exam || sampleExam], then a full [set]. *)
Definition startExam (exam : option Exam) (s : ExamState) : ExamState :=
  let selectedExam := default sampleExam exam in
  {| currentExam := Some selectedExam;
     currentQuestionIndex := 0;
     answers := [];
     timeRemaining := timeLimit selectedExam * 60;
     isExamStarted := true;
     isExamCompleted := false;
     results := None |}.

(** [answerQuestion(questionId, selectedAnswer)]: upsert by question id. *)
Definition answerQuestion (qid : string) (selected : Z) (s : ExamState) : ExamState :=
  match currentExam s with
  | None => s
  | Some e =>
      match find (fun q => q_id q === qid) (questions e) with
      | None => s
      | Some question =>
          let newAnswer := mkUserAnswer qid selected (q_correctAnswer question === selected) in
          match findIndex (fun a => questionId a === qid) (answers s) with
          | Some existingIndex => set_answers (<[existingIndex := newAnswer]> (answers s)) s
          | None => set_answers (answers s ++ [newAnswer]) s
          end
      end
  end.

(** [nextQuestion()] *)
Definition nextQuestion (s : ExamState) : ExamState :=
  match currentExam s with
  | None => s
  | Some e =>
      if currentQuestionIndex s <? Z.of_nat (length (questions e)) - 1
      then set_index (currentQuestionIndex s + 1) s
      else s
  end.

(** [previousQuestion()]: no check of [currentExam]. *)
Definition previousQuestion (s : ExamState) : ExamState :=
  if 0 <? currentQuestionIndex s then set_index (currentQuestionIndex s - 1) s else s.

(** [user?.id || 'anonymous']: the empty id is falsy too. *)
Definition userIdOf (user : option User) : string :=
  match user with
  | Some u => if String.eqb (user_id u) "" then "anonymous" else user_id u
  | None => "anonymous"
  end.

(** The [ExamResult] literal of [completeExam] (lines 106-122); [id] is the
    value of [generateSecureId()] and [now] of [new Date().toISOString()]. *)
Definition buildResult (e : Exam) (ans : list UserAnswer) (remaining : Z)
    (uid id now : string) : ExamResult :=
  let correct := Z.of_nat (length (List.filter isCorrect ans)) in
  let total := Z.of_nat (length (questions e)) in
  {| result_id := id;
     examId := exam_id e;
     userId := uid;
     score := percent correct total;
     totalQuestions := total;
     correctAnswers := correct;
     wrongAnswers := total - correct;
     timeSpent := timeLimit e * 60 - remaining;
     result_answers := ans;
     completedAt := now |}.

(** [resetExam()] *)
Definition resetExam (s : ExamState) : ExamState := initialState.

(** [tick()] *)
Definition tick (s : ExamState) : ExamState :=
  if isExamCompleted s || (timeRemaining s <=? 0) then s
  else set_time (timeRemaining s - 1) s.

(** The dot buttons: [useExamStore.setState({ currentQuestionIndex: index })]. *)
Definition jumpTo (index : Z) (s : ExamState) : ExamState := set_index index s.

(** A page reload: the [persist] middleware stores only [results]
    ([partialize], lines 158-164) and merges it into the initial state when
    the store is created again. *)
Definition persist_rehydrate (s : ExamState) : ExamState :=
  mkExamState None 0 [] 0 false false (results s).

(** ** The store together with the result history *)

Record World := mkWorld { exam : ExamState; storage : StoredResults }.

(** What [completeExam] takes from outside the store: the fresh id, the
    timestamp, and whether [localStorage.setItem] succeeds. *)
Record CompleteEnv := mkCompleteEnv { env_id : string; env_now : string; env_writeOk : bool }.

(** [completeExam()]: no-op without an exam; otherwise it reads the session,
    builds the result, sets [isExamCompleted] and [results], then appends the
    result to the history. *)
Definition completeExam {Sn : Type} `{!Session Sn} (sess : Sn) (env : CompleteEnv) (w : World) : World :=
  let s := exam w in
  match currentExam s with
  | None => w
  | Some e =>
      let result := buildResult e (answers s) (timeRemaining s)
                      (userIdOf (session_user sess)) (env_id env) (env_now env) in
      mkWorld (set_completed result s) (saveResult (env_writeOk env) result (storage w))
  end.

(** Lift an action of the store alone to a world. *)
Definition on_exam (f : ExamState -> ExamState) (w : World) : World :=
  mkWorld (f (exam w)) (storage w).

(** ** The actions, as the UI layer calls them *)

Inductive Action (Sn : Type) :=
| AStart (exam : option Exam)
| AAnswer (qid : string) (selected : Z)
| ANext
| APrevious
| AComplete (sess : Sn) (env : CompleteEnv)
| AReset
| ATick
| AJump (index : Z)
| AReload.

Arguments AStart {Sn}. Arguments AAnswer {Sn}. Arguments ANext {Sn}.
Arguments APrevious {Sn}. Arguments AComplete {Sn}. Arguments AReset {Sn}.
Arguments ATick {Sn}. Arguments AJump {Sn}. Arguments AReload {Sn}.

Definition dispatch {Sn : Type} `{!Session Sn} (a : Action Sn) (w : World) : World :=
  match a with
  | AStart ex => on_exam (startExam ex) w
  | AAnswer qid sel => on_exam (answerQuestion qid sel) w
  | ANext => on_exam nextQuestion w
  | APrevious => on_exam previousQuestion w
  | AComplete sess env => completeExam sess env w
  | AReset => on_exam resetExam w
  | ATick => on_exam tick w
  | AJump i => on_exam (jumpTo i) w
  | AReload => on_exam persist_rehydrate w
  end.

(** The dots are rendered from [currentExam?.questions.map((q, index) => ...)]:
    a jump only happens with an exam bound, to the index of one of its
    questions. Every other action may be called in any state. *)
Definition allowed {Sn : Type} `{!Session Sn} (a : Action Sn) (w : World) : Prop :=
  match a with
  | AJump i =>
      exists e, currentExam (exam w) = Some e /\ 0 <= i < Z.of_nat (length (questions e))
  | _ => True
  end.

Inductive step {Sn : Type} `{!Session Sn} : World -> World -> Prop :=
| step_dispatch (a : Action Sn) w : allowed a w -> step w (dispatch a w).

Definition initialWorld (st : StoredResults) : World := mkWorld initialState st.

Definition reachable {Sn : Type} `{!Session Sn} (w : World) : Prop :=
  exists st, history_ok st /\ rtc step (initialWorld st) w.

(** ** Well-formedness of the store *)

(** The question index: within the exam, or 0 for an exam with no question. *)
Definition index_ok (e : Exam) (i : Z) : Prop :=
  0 <= i /\ (i < Z.of_nat (length (questions e)) \/ i = 0).

(** An answer names a question of the exam, and its [isCorrect] is the
    comparison with the first question of that id. *)
Definition answer_ok (e : Exam) (a : UserAnswer) : Prop :=
  exists q, find (fun q => q_id q === questionId a) (questions e) = Some q /\
            isCorrect a = (q_correctAnswer q === selectedAnswer a).

(** At most one answer per question id, each well formed. *)
Definition answers_ok (e : Exam) (l : list UserAnswer) : Prop :=
  NoDup (questionId <$> l) /\ Forall (answer_ok e) l.

(** The remaining time lies between 0 and the allotment (or equals a
    negative allotment, which [tick] never changes). *)
Definition time_ok (e : Exam) (t : Z) : Prop :=
  Z.min 0 (timeLimit e * 60) <= t <= timeLimit e * 60.

Definition score_ok (total : Z) (sc : jsnum) : Prop :=
  if total =? 0 then sc = JNaN else exists z, sc = JNum z /\ 0 <= z <= 100.

Definition result_ok (e : Exam) (r : ExamResult) : Prop :=
  examId r = exam_id e /\
  totalQuestions r = Z.of_nat (length (questions e)) /\
  0 <= correctAnswers r <= totalQuestions r /\
  wrongAnswers r = totalQuestions r - correctAnswers r /\
  0 <= timeSpent r <= Z.max 0 (timeLimit e * 60) /\
  score_ok (totalQuestions r) (score r) /\
  answers_ok e (result_answers r).

Definition wf (s : ExamState) : Prop :=
  match currentExam s with
  | None =>
      currentQuestionIndex s = 0 /\ answers s = [] /\ timeRemaining s = 0 /\
      isExamStarted s = false /\ isExamCompleted s = false
  | Some e =>
      index_ok e (currentQuestionIndex s) /\ answers_ok e (answers s) /\
      time_ok e (timeRemaining s) /\ isExamStarted s = true /\
      (isExamCompleted s = true -> is_Some (results s)) /\
      (forall r, results s = Some r -> result_ok e r)
  end.

Definition world_ok (w : World) : Prop := wf (exam w) /\ history_ok (storage w).

(** ** The answers as a finite map *)

(** The abstract view of the answers list: question id to the selected
    option and its correctness, later entries overriding earlier ones. *)
Definition answers_map (l : list UserAnswer) : gmap string (Z * bool) :=
  foldl (fun m a => <[questionId a := (selectedAnswer a, isCorrect a)]> m) ∅ l.

(** ** Concrete runs *)

(** Dispatch a sequence of actions, first to last. *)
Definition run {Sn : Type} `{!Session Sn} (acts : list (Action Sn)) (w : World) : World :=
  foldl (fun w a => dispatch a w) w acts.

(** The results screen: [results.score >= sampleExam.passingScore]
    ([pages/SimuladorExamen.tsx], line 136); [NaN >= 70] is false. *)
Definition passed (r : ExamResult) : bool :=
  match score r with
  | JNum z => passingScore sampleExam <=? z
  | JInfinity => true
  | JNaN | JNegInfinity => false
  end.

Definition demo_env : CompleteEnv :=
  mkCompleteEnv "00112233445566778899aabbccddeeff" "2026-11-09T00:00:00.000Z" true.

(** Answer each listed question with the given option. *)
Definition answer_all (picks : list Question) (pick : Question -> Z) : list (Action (option User)) :=
  (fun q => AAnswer (q_id q) (pick q)) <$> picks.

Definition start_and_answer (picks : list Question) (pick : Question -> Z) : World :=
  run (AStart (Some sampleExam) :: answer_all picks pick) (initialWorld Absent).

(** Actions other than a jump are allowed in every state. *)
Definition no_jump {Sn : Type} (a : Action Sn) : bool :=
  match a with AJump _ => false | _ => true end.

(** ** Lemmas on the answers list *)

Lemma find_question_In (e : Exam) qid q :
  find (fun q => q_id q === qid) (questions e) = Some q -> q ∈ questions e /\ q_id q = qid.
Proof.
  intros H. apply find_some in H as [Hin Hid]. apply js_eq_eq in Hid.
  split; [by apply list_elem_of_In|done].
Qed.

Lemma answer_ok_question_id e a : answer_ok e a -> questionId a ∈ q_id <$> questions e.
Proof.
  intros (q & Hq & _). apply find_question_In in Hq as [Hin <-].
  by apply list_elem_of_fmap_2.
Qed.

(** At most one answer per question: never more answers than questions. *)
Lemma answers_ok_length e l : answers_ok e l -> (length l <= length (questions e))%nat.
Proof.
  intros [Hnd Hall].
  rewrite <- (length_fmap questionId l), <- (length_fmap q_id (questions e)).
  apply NoDup_incl_length; [by apply NoDup_ListNoDup|].
  intros x Hx. apply list_elem_of_In. apply list_elem_of_In in Hx.
  apply list_elem_of_fmap in Hx as (a & -> & Ha).
  apply answer_ok_question_id. by eapply Forall_forall.
Qed.

Lemma correct_count_le e l :
  answers_ok e l -> (length (List.filter isCorrect l) <= length (questions e))%nat.
Proof.
  intros Hok. etransitivity; [apply filter_length_le|]. by apply answers_ok_length.
Qed.

(** The answer [answerQuestion] records is well formed. *)
Lemma new_answer_ok e qid sel q :
  find (fun q => q_id q === qid) (questions e) = Some q ->
  answer_ok e (mkUserAnswer qid sel (q_correctAnswer q === sel)).
Proof. intros Hq. by exists q. Qed.

(** Replacing the answer at the index [findIndex] found keeps the ids. *)
Lemma upsert_replace_ids (l : list UserAnswer) i qid a :
  findIndex (fun a => questionId a === qid) l = Some i -> questionId a = qid ->
  questionId <$> <[i:=a]> l = questionId <$> l.
Proof.
  intros Hi Ha. destruct (findIndex_Some _ l i Hi) as (b & Hb & Hqb & _).
  apply js_eq_eq in Hqb. rewrite list_fmap_insert, Ha, <- Hqb.
  apply list_insert_id. by rewrite list_lookup_fmap, Hb.
Qed.

Lemma upsert_append_nodup (l : list UserAnswer) qid a :
  findIndex (fun a => questionId a === qid) l = None -> questionId a = qid ->
  NoDup (questionId <$> l) -> NoDup (questionId <$> l ++ [a]).
Proof.
  intros Hnone Ha Hnd. apply findIndex_None in Hnone.
  rewrite fmap_app. apply NoDup_app. split_and!; [done| |by apply NoDup_singleton].
  intros x Hx. rewrite list_fmap_singleton, list_elem_of_singleton, Ha. intros ->.
  apply list_elem_of_fmap in Hx as (b & Hb & Hin).
  rewrite Forall_forall in Hnone. specialize (Hnone b Hin).
  apply js_eq_neq in Hnone. congruence.
Qed.

Lemma answers_ok_replace e (l : list UserAnswer) i qid a :
  findIndex (fun a => questionId a === qid) l = Some i -> questionId a = qid ->
  answer_ok e a -> answers_ok e l -> answers_ok e (<[i:=a]> l).
Proof.
  intros Hi Ha Hok [Hnd Hall]. split.
  - by rewrite (upsert_replace_ids l i qid a Hi Ha).
  - by apply Forall_insert.
Qed.

Lemma answers_ok_append e (l : list UserAnswer) qid a :
  findIndex (fun a => questionId a === qid) l = None -> questionId a = qid ->
  answer_ok e a -> answers_ok e l -> answers_ok e (l ++ [a]).
Proof.
  intros Hn Ha Hok [Hnd Hall]. split.
  - by apply (upsert_append_nodup l qid).
  - apply Forall_app. auto.
Qed.

(** ** Each action preserves [wf] *)

Lemma buildResult_ok e ans rem uid id now :
  answers_ok e ans -> time_ok e rem -> result_ok e (buildResult e ans rem uid id now).
Proof.
  intros Hans Htime. pose proof (correct_count_le e ans Hans) as Hc.
  unfold result_ok, time_ok, score_ok in *; cbn [buildResult score totalQuestions
    correctAnswers wrongAnswers timeSpent result_answers examId].
  split_and!; try done; try lia.
  destruct (Z.eqb_spec (Z.of_nat (length (questions e))) 0) as [H0|H0].
  - rewrite H0. apply percent_zero_total. lia.
  - apply percent_bounds; lia.
Qed.

Lemma wf_initialState : wf initialState.
Proof. unfold wf. simpl. auto. Qed.

Lemma wf_startExam ex s : wf (startExam ex s).
Proof.
  unfold wf, startExam; simpl. unfold index_ok, answers_ok, time_ok.
  split_and!; try lia; try done; try (intros ? ?; discriminate); by apply NoDup_nil_2.
Qed.

Lemma wf_answerQuestion qid sel s : wf s -> wf (answerQuestion qid sel s).
Proof.
  unfold answerQuestion. destruct (currentExam s) as [e|] eqn:He; [|done].
  destruct (find _ (questions e)) as [q|] eqn:Hq; [|done].
  unfold wf; rewrite He; intros (Hi & Ha & Ht & Hst & Hc & Hr).
  pose proof (new_answer_ok e qid sel q Hq) as Hn.
  destruct (findIndex _ (answers s)) as [i|] eqn:Hfi; unfold set_answers; simpl; rewrite He.
  - split_and!; try done. by eapply answers_ok_replace.
  - split_and!; try done. by eapply answers_ok_append.
Qed.

Lemma wf_nextQuestion s : wf s -> wf (nextQuestion s).
Proof.
  unfold nextQuestion. destruct (currentExam s) as [e|] eqn:He; [|done].
  destruct (Z.ltb_spec (currentQuestionIndex s) (Z.of_nat (length (questions e)) - 1)); [|done].
  unfold wf, set_index, index_ok; simpl; rewrite He. intros (Hi & Hrest). split; [lia|done].
Qed.

Lemma wf_previousQuestion s : wf s -> wf (previousQuestion s).
Proof.
  unfold previousQuestion. destruct (Z.ltb_spec 0 (currentQuestionIndex s)); [|done].
  unfold wf, set_index, index_ok; simpl.
  destruct (currentExam s); intros (Hi & Hrest); [split; [lia|done]|lia].
Qed.

Lemma wf_tick s : wf s -> wf (tick s).
Proof.
  unfold tick. destruct (isExamCompleted s || (timeRemaining s <=? 0)) eqn:Hg; [done|].
  apply orb_false_iff in Hg as [_ Hpos]. apply Z.leb_gt in Hpos.
  unfold wf, set_time, time_ok; simpl.
  destruct (currentExam s).
  - intros (Hi & Ha & Ht & Hst & Hc & Hr). split_and!; try done; lia.
  - intros (Hi & Ha & Ht & Hrest). lia.
Qed.

Lemma wf_resetExam s : wf (resetExam s).
Proof. apply wf_initialState. Qed.

Lemma wf_jumpTo i s e :
  currentExam s = Some e -> 0 <= i < Z.of_nat (length (questions e)) ->
  wf s -> wf (jumpTo i s).
Proof.
  intros He Hrange. unfold wf, jumpTo, set_index, index_ok; simpl; rewrite He.
  intros (_ & Hrest). split; [lia|done].
Qed.

Lemma world_ok_completeExam {Sn : Type} `{!Session Sn} (sess : Sn) env w :
  world_ok w -> world_ok (completeExam sess env w).
Proof.
  unfold completeExam. destruct w as [s st]; simpl.
  destruct (currentExam s) as [e|] eqn:He; [|done].
  unfold world_ok, wf, set_completed; simpl; rewrite He.
  intros [(Hi & Ha & Ht & Hst & Hc & Hr) Hh].
  split; [|by apply saveResult_ok].
  split_and!; try done. intros r [= <-]. by apply buildResult_ok.
Qed.

Lemma wf_persist_rehydrate s : wf (persist_rehydrate s).
Proof. done. Qed.

Lemma world_ok_step {Sn : Type} `{!Session Sn} (w w' : World) :
  step w w' -> world_ok w -> world_ok w'.
Proof.
  intros [a w0 Hallowed] [Hwf Hh].
  destruct a; simpl; try (split; [|done]).
  - apply wf_startExam.
  - by apply wf_answerQuestion.
  - by apply wf_nextQuestion.
  - by apply wf_previousQuestion.
  - by apply world_ok_completeExam.
  - apply wf_resetExam.
  - by apply wf_tick.
  - destruct Hallowed as (e & He & Hrange). by apply (wf_jumpTo _ _ e).
  - apply wf_persist_rehydrate.
Qed.

(** ** Theorems *)

(** C1. Every world reachable from the initial store by the actions the UI
    can call is well formed: the question index stays within the exam, there
    is at most one answer per question and each one records the comparison
    with its question's correct option, the remaining time lies within the
    allotment, a completed attempt has a result whose counts and score are
    in range, and the stored history holds at most 100 results. *)
Theorem reachable_world_ok {Sn : Type} `{!Session Sn} (w : World) :
  reachable w -> world_ok w.
Proof.
  intros (st & Hst & Hrtc).
  assert (Hinit : world_ok (initialWorld st)) by (split; [apply wf_initialState|done]).
  induction Hrtc as [w0|w0 w1 w2 Hstep _ IH]; [done|].
  apply IH. by apply (world_ok_step w0 w1).
Qed.

(** ** The answers map *)

Lemma answers_map_snoc l a :
  answers_map (l ++ [a]) = <[questionId a := (selectedAnswer a, isCorrect a)]> (answers_map l).
Proof. unfold answers_map. by rewrite foldl_snoc. Qed.

Lemma foldl_answers_insert_notin (l : list UserAnswer) k v (m : gmap string (Z * bool)) :
  k ∉ questionId <$> l ->
  foldl (fun m a => <[questionId a := (selectedAnswer a, isCorrect a)]> m) (<[k:=v]> m) l =
  <[k:=v]> (foldl (fun m a => <[questionId a := (selectedAnswer a, isCorrect a)]> m) m l).
Proof.
  revert m; induction l as [|b l IH]; intros m Hk; simpl; [done|].
  rewrite fmap_cons, not_elem_of_cons in Hk. destruct Hk as [Hb Hl].
  rewrite insert_insert_ne by congruence. by apply IH.
Qed.

Lemma answers_map_insert (l : list UserAnswer) i a b :
  NoDup (questionId <$> l) -> l !! i = Some b -> questionId a = questionId b ->
  answers_map (<[i:=a]> l) = <[questionId a := (selectedAnswer a, isCorrect a)]> (answers_map l).
Proof.
  intros Hnd Hb Hab.
  assert (Hi : (i < length l)%nat) by (by eapply lookup_lt_Some).
  pose proof (take_drop_middle l i b Hb) as Hl.
  rewrite <- Hl in Hnd. rewrite fmap_app, fmap_cons in Hnd.
  apply NoDup_app in Hnd as (_ & _ & Hnd). apply NoDup_cons in Hnd as [Hnot _].
  unfold answers_map. rewrite (insert_take_drop l i a Hi). rewrite <- Hl at 3.
  rewrite !foldl_app. simpl. rewrite Hab.
  rewrite !foldl_answers_insert_notin by done. by rewrite insert_insert_eq.
Qed.

Lemma answers_keys_insert (l : list UserAnswer) i a b :
  l !! i = Some b -> questionId a = questionId b -> questionId <$> <[i:=a]> l = questionId <$> l.
Proof.
  intros Hb Hab. rewrite list_fmap_insert. apply list_insert_id.
  by rewrite list_lookup_fmap, Hb, Hab.
Qed.

Lemma existsb_findIndex {A} (p : A -> bool) (l : list A) :
  existsb p l = match findIndex p l with Some _ => true | None => false end.
Proof.
  induction l as [|x l IH]; simpl; [done|]. destruct (p x); simpl; [done|].
  rewrite IH. by destruct (findIndex p l).
Qed.

(** C3. Refinement: seen as a finite map from question id to the selected
    option and its correctness, [answerQuestion qid sel] is a map insert at
    [qid] when the exam has a question [qid], and leaves the map unchanged
    when there is no exam or no such question; and the list it implements
    the map with keeps one answer per question: re-answering replaces the
    answer in place (same length), a first answer adds exactly one. *)
Theorem answerQuestion_refines (s : ExamState) qid sel :
  NoDup (questionId <$> answers s) ->
  let s' := answerQuestion qid sel s in
  answers_map (answers s') =
    match currentExam s ≫= (fun e => find (fun q => q_id q === qid) (questions e)) with
    | Some q => <[qid := (sel, q_correctAnswer q === sel)]> (answers_map (answers s))
    | None => answers_map (answers s)
    end /\
  NoDup (questionId <$> answers s') /\
  List.length (answers s') =
    (List.length (answers s) +
     match currentExam s ≫= (fun e => find (fun q => q_id q === qid) (questions e)) with
     | Some _ => if existsb (fun a => questionId a === qid) (answers s) then 0 else 1
     | None => 0
     end)%nat.
Proof.
  intros Hnd s'. subst s'. unfold answerQuestion.
  destruct (currentExam s) as [e|]; simpl; [|split_and!; [done|done|lia]].
  destruct (find _ (questions e)) as [q|]; [|split_and!; [done|done|lia]].
  rewrite existsb_findIndex. destruct (findIndex _ (answers s)) as [i|] eqn:Hfi; simpl.
  - destruct (findIndex_Some _ _ _ Hfi) as (b & Hb & Hqb & _). apply String.eqb_eq in Hqb.
    split_and!.
    + by rewrite (answers_map_insert _ i _ b Hnd Hb).
    + by rewrite (answers_keys_insert _ i _ b Hb).
    + rewrite length_insert. lia.
  - apply findIndex_None in Hfi. split_and!.
    + by rewrite answers_map_snoc.
    + rewrite fmap_app. apply NoDup_app. split_and!; [done| |by apply NoDup_singleton].
      intros x (a & -> & Ha)%list_elem_of_fmap Hq%list_elem_of_singleton.
      rewrite Forall_forall in Hfi. specialize (Hfi a Ha). simpl in Hfi.
      by rewrite Hq, String.eqb_refl in Hfi.
    + rewrite length_app. simpl. lia.
Qed.

(** C2. Completing an attempt of a well-formed store: the state is marked
    completed with a result whose id, user and answers are the generated id,
    the session's user id (or ['anonymous']) and the current answers; whose
    correct count is the number of correct answers, never more than the
    number of questions, with [correct + wrong = total]; whose score is the
    rounded percentage, in [0, 100] ([NaN] for an exam with no question);
    whose time spent is the allotment minus the remaining time, never
    negative; and that result is the one appended to the history. *)
Theorem completeExam_result {Sn : Type} `{!Session Sn} (sess : Sn) env w e :
  world_ok w -> currentExam (exam w) = Some e ->
  exists r,
    exam (completeExam sess env w) = set_completed r (exam w) /\
    storage (completeExam sess env w) = saveResult (env_writeOk env) r (storage w) /\
    result_id r = env_id env /\ userId r = userIdOf (session_user sess) /\
    result_answers r = answers (exam w) /\
    correctAnswers r = Z.of_nat (length (List.filter isCorrect (answers (exam w)))) /\
    totalQuestions r = Z.of_nat (length (questions e)) /\
    correctAnswers r + wrongAnswers r = totalQuestions r /\
    0 <= correctAnswers r <= totalQuestions r /\
    score r = percent (correctAnswers r) (totalQuestions r) /\
    score_ok (totalQuestions r) (score r) /\
    timeSpent r = timeLimit e * 60 - timeRemaining (exam w) /\ 0 <= timeSpent r.
Proof.
  intros [Hwf _] He. unfold wf in Hwf. rewrite He in Hwf.
  destruct Hwf as (_ & Ha & Ht & _).
  unfold completeExam. rewrite He. eexists; split_and!; try reflexivity.
  all: pose proof (buildResult_ok e (answers (exam w)) (timeRemaining (exam w))
         (userIdOf (session_user sess)) (env_id env) (env_now env) Ha Ht) as (_ & Htot & Hc & Hwr & Hts & Hsc & _).
  all: cbn [totalQuestions correctAnswers wrongAnswers timeSpent score buildResult] in *; try lia; done.
Qed.

Lemma completeExam_result_witness :
  world_ok (start_and_answer (take 1 sampleQuestions) q_correctAnswer) /\
  exists r, exam (completeExam (None : option User) demo_env
                    (start_and_answer (take 1 sampleQuestions) q_correctAnswer)) =
            set_completed r (exam (start_and_answer (take 1 sampleQuestions) q_correctAnswer)) /\
            correctAnswers r = 1 /\ userId r = "anonymous"%string.
Proof.
  assert (Hok : world_ok (start_and_answer (take 1 sampleQuestions) q_correctAnswer)).
  { split; [|done]. apply wf_answerQuestion, wf_startExam. }
  split; [exact Hok|].
  destruct (completeExam_result (None : option User) demo_env _ sampleExam Hok eq_refl)
    as (r & Hr & _ & _ & Huid & _ & Hc & _).
  exists r. split; [exact Hr|]. split; [rewrite Hc; reflexivity|exact Huid].
Defined.

Lemma answerQuestion_refines_witness :
  NoDup (questionId <$> answers (startExam None initialState)) /\
  answers_map (answers (answerQuestion "3" 0 (startExam None initialState))) =
    <["3" := (0, true)]> (∅ : gmap string (Z * bool)).
Proof.
  assert (Hnd : NoDup (questionId <$> answers (startExam None initialState))) by apply NoDup_nil_2.
  split; [exact Hnd|]. rewrite (proj1 (answerQuestion_refines _ "3" 0 Hnd)). reflexivity.
Defined.

(** ** Runs *)

Lemma rtc_run {Sn : Type} `{!Session Sn} (acts : list (Action Sn)) w :
  Forall (fun a => no_jump a = true) acts -> rtc step w (run acts w).
Proof.
  revert w; induction acts as [|a acts IH]; intros w Hall; simpl; [done|].
  apply Forall_cons in Hall as [Ha Hall].
  eapply rtc_l; [|by apply IH]. apply step_dispatch. by destruct a.
Qed.

Lemma start_and_answer_reachable picks pick :
  reachable (start_and_answer picks pick).
Proof.
  exists Absent. split; [done|]. apply rtc_run. constructor; [done|].
  unfold answer_all. apply Forall_fmap, Forall_true. done.
Qed.

Lemma reachable_world_ok_witness :
  reachable (start_and_answer sampleQuestions q_correctAnswer) /\
  world_ok (start_and_answer sampleQuestions q_correctAnswer).
Proof.
  split; [apply start_and_answer_reachable|].
  apply (reachable_world_ok (Sn:=option User)), start_and_answer_reachable.
Defined.

(** ** Navigation *)

Lemma nextQuestion_exam s : currentExam (nextQuestion s) = currentExam s.
Proof. unfold nextQuestion. destruct (currentExam s) eqn:He; [case_match|]; simpl; congruence. Qed.

Lemma previousQuestion_exam s : currentExam (previousQuestion s) = currentExam s.
Proof. unfold previousQuestion. by case_match. Qed.

(** C4. Navigation is clamped, never wraps: from an index [i] within the
    exam, [n] calls of [nextQuestion] reach [min (i + n) (N - 1)] and [n]
    calls of [previousQuestion] reach [max (i - n) 0], where [N] is the
    number of questions (so [N] calls of [nextQuestion] from 0 stop at
    [N - 1], not [N]). *)
Theorem navigation_clamped s e n :
  currentExam s = Some e -> index_ok e (currentQuestionIndex s) ->
  currentQuestionIndex (Nat.iter n nextQuestion s) =
    Z.min (currentQuestionIndex s + Z.of_nat n) (Z.max 0 (Z.of_nat (length (questions e)) - 1)) /\
  currentQuestionIndex (Nat.iter n previousQuestion s) =
    Z.max (currentQuestionIndex s - Z.of_nat n) 0.
Proof.
  intros He [Hlo Hhi]. split; induction n as [|n IH]; simpl; try lia.
  - assert (Hn : currentExam (Nat.iter n nextQuestion s) = Some e).
    { clear IH. induction n; simpl; [done|]. by rewrite nextQuestion_exam. }
    unfold nextQuestion at 1. rewrite Hn.
    destruct (Z.ltb_spec (currentQuestionIndex (Nat.iter n nextQuestion s))
                (Z.of_nat (length (questions e)) - 1)); simpl; lia.
  - unfold previousQuestion at 1.
    destruct (Z.ltb_spec 0 (currentQuestionIndex (Nat.iter n previousQuestion s))); simpl; lia.
Qed.

Lemma navigation_clamped_witness :
  currentQuestionIndex (Nat.iter 12 nextQuestion (startExam None initialState)) = 9 /\
  currentQuestionIndex (Nat.iter 12 previousQuestion (startExam None initialState)) = 0.
Proof.
  destruct (navigation_clamped (startExam None initialState) sampleExam 12 eq_refl
              ltac:(unfold index_ok; simpl; lia)) as [H1 H2].
  rewrite H1, H2. split; reflexivity.
Defined.

(** ** The timer *)

Lemma tick_completed s : isExamCompleted (tick s) = isExamCompleted s.
Proof. unfold tick. by case_match. Qed.

(** C5. The timer: [n] calls of [tick] leave the remaining time unchanged
    when the attempt is completed or no time remains, and otherwise count it
    down by one per call and stop at 0, never below. *)
Theorem tick_iter s n :
  timeRemaining (Nat.iter n tick s) =
    if isExamCompleted s || (timeRemaining s <=? 0) then timeRemaining s
    else Z.max 0 (timeRemaining s - Z.of_nat n).
Proof.
  induction n as [|n IH]; simpl.
  - case_match; js_simpl; lia.
  - assert (Hc : isExamCompleted (Nat.iter n tick s) = isExamCompleted s).
    { clear IH. induction n; simpl; [done|]. by rewrite tick_completed. }
    unfold tick at 1. rewrite Hc, IH.
    destruct (isExamCompleted s); simpl; [done|].
    destruct (Z.leb_spec (timeRemaining s) 0) as [Hle|Hgt]; simpl.
    + apply Z.leb_le in Hle as Hb. rewrite Hb. done.
    + destruct (Z.leb_spec (Z.max 0 (timeRemaining s - Z.of_nat n)) 0); simpl;
        simpl in IH; rewrite ?IH; lia.
Qed.


(** ** Scenarios of the specification on [sampleExam] *)

(** The three scenarios of the specification. Start the built-in
    exam (10 questions, 15 minutes, 70%): answering every question with its
    correct option and completing gives score 100, 10 correct, 0 wrong,
    passed; answering only questions 1-7, correctly, gives 7 correct, 3
    wrong (the unanswered ones count as wrong) and score 70, exactly the
    passing score, which passes; letting the timer tick leaves one second
    after 899 ticks, none after 900 (15 x 60), and further ticks keep it
    at 0. *)
Theorem spec_scenarios :
  (exists r,
    results (exam (completeExam (None : option User) demo_env
                     (start_and_answer sampleQuestions q_correctAnswer))) = Some r /\
    score r = JNum 100 /\ correctAnswers r = 10 /\ wrongAnswers r = 0 /\ passed r = true) /\
  (exists r,
    results (exam (completeExam (None : option User) demo_env
                     (start_and_answer (take 7 sampleQuestions) q_correctAnswer))) = Some r /\
    score r = JNum 70 /\ correctAnswers r = 7 /\ wrongAnswers r = 3 /\ passed r = true) /\
  timeRemaining (Nat.iter 899 tick (startExam None initialState)) = 1 /\
  timeRemaining (Nat.iter 900 tick (startExam None initialState)) = 0 /\
  timeRemaining (Nat.iter 1000 tick (startExam None initialState)) = 0.
Proof.
  split_and!; vm_compute; try (eexists; split; [reflexivity|]); auto.
Qed.

(** ** What the store does not guard *)

Lemma completeExam_on_completed {Sn : Type} `{!Session Sn} (sess : Sn) env w e :
  currentExam (exam w) = Some e ->
  completeExam sess env w =
    mkWorld (set_completed (buildResult e (answers (exam w)) (timeRemaining (exam w))
                              (userIdOf (session_user sess)) (env_id env) (env_now env)) (exam w))
            (saveResult (env_writeOk env)
               (buildResult e (answers (exam w)) (timeRemaining (exam w))
                  (userIdOf (session_user sess)) (env_id env) (env_now env)) (storage w)).
Proof. intros He. unfold completeExam. by rewrite He. Qed.

(** C15. [completeExam] has no guard on [isExamCompleted]: calling it twice
    appends two results to the history, built from the same answers and
    time and differing only in their generated id and timestamp. *)
Theorem completeExam_twice_appends_twice {Sn : Type} `{!Session Sn} (sess : Sn) env1 env2 w e :
  currentExam (exam w) = Some e -> readResults (storage w) <> None ->
  (length (history (storage w)) + 2 <= MAX_RESULTS)%nat ->
  env_writeOk env1 = true -> env_writeOk env2 = true ->
  history (storage (completeExam sess env2 (completeExam sess env1 w))) =
    history (storage w) ++
      [buildResult e (answers (exam w)) (timeRemaining (exam w))
         (userIdOf (session_user sess)) (env_id env1) (env_now env1);
       buildResult e (answers (exam w)) (timeRemaining (exam w))
         (userIdOf (session_user sess)) (env_id env2) (env_now env2)].
Proof.
  intros He Hread Hlen Hw1 Hw2.
  rewrite (completeExam_on_completed sess env1 w e He).
  rewrite (completeExam_on_completed sess env2 _ e) by done. simpl.
  rewrite Hw1, Hw2.
  rewrite history_save_small; [rewrite history_save_small by (done || lia)| |].
  - by rewrite <- app_assoc.
  - by destruct (storage w).
  - rewrite history_save_small by (done || lia). rewrite length_app. simpl. lia.
Qed.

Lemma completeExam_twice_appends_twice_witness :
  length (history (storage (completeExam (None : option User) demo_env
     (completeExam (None : option User) demo_env
        (start_and_answer (take 1 sampleQuestions) q_correctAnswer))))) = 2%nat.
Proof.
  rewrite (completeExam_twice_appends_twice (None : option User) demo_env demo_env _ sampleExam);
    [reflexivity|reflexivity|discriminate|apply Nat.leb_le; vm_compute; reflexivity|reflexivity|reflexivity].
Defined.

(** C16. A completed attempt is not terminal in the store: on any state
    whose attempt is completed, [answerQuestion] on a question of the exam
    still records the answer, and [nextQuestion] before the last question
    still moves the index, while the attempt stays completed and the
    [results] keep the answers of the moment of completion. *)
Theorem completed_attempt_still_mutable s e q sel :
  currentExam s = Some e -> isExamCompleted s = true ->
  find (fun q' => q_id q' === q_id q) (questions e) = Some q ->
  let s1 := answerQuestion (q_id q) sel s in
  isExamCompleted s1 = true /\ results s1 = results s /\
  (exists a, a ∈ answers s1 /\ questionId a = q_id q /\ selectedAnswer a = sel /\
             isCorrect a = (q_correctAnswer q === sel)) /\
  (currentQuestionIndex s < Z.of_nat (length (questions e)) - 1 ->
   currentQuestionIndex (nextQuestion s) = currentQuestionIndex s + 1 /\
   isExamCompleted (nextQuestion s) = true /\ results (nextQuestion s) = results s).
Proof.
  intros He Hc Hq s1. subst s1. unfold answerQuestion, nextQuestion. rewrite He, Hq.
  set (a := mkUserAnswer (q_id q) sel (q_correctAnswer q === sel)).
  split_and!.
  - by destruct (findIndex _ _).
  - by destruct (findIndex _ _).
  - exists a. split_and!; try done.
    destruct (findIndex _ _) as [i|] eqn:Hfi; simpl.
    + apply list_elem_of_lookup_2 with i. apply list_lookup_insert_eq. by eapply findIndex_lt.
    + apply elem_of_app. right. by apply list_elem_of_singleton.
  - intros Hi. apply Z.ltb_lt in Hi. rewrite Hi. done.
Qed.

(** The completed attempt of the demo run, re-answered and moved on. *)
Lemma completed_attempt_still_mutable_witness :
  let s := exam (completeExam (None : option User) demo_env (start_and_answer [] q_correctAnswer)) in
  isExamCompleted s = true /\ results (answerQuestion "1" 0 s) = results s.
Proof.
  intros s. assert (Hc : isExamCompleted s = true) by (vm_compute; reflexivity).
  split; [exact Hc|].
  destruct (completed_attempt_still_mutable s sampleExam (hd (mkQuestion "" "" [] 0 "" Easy) sampleQuestions) 0)
    as (_ & Hr & _); [vm_compute; reflexivity|exact Hc|vm_compute; reflexivity|exact Hr].
Defined.

End ExamStore.
