(* ===== verification/Selectors.v ===== *)
(** * Selectors: [useExamProgress] and [useFormattedTime] of [store/examStore.ts]

    The two hooks (lines 169-180 and 183-190) derive what the exam header of
    [pages/SimuladorExamen.tsx] shows from the store: the progress
    percentage with the answered and total counts, and the remaining time as
    [MM:SS]. Each is a function of [ExamState]. The theorems: the clock reads
    back as the remaining seconds below 100 minutes, and on every reachable
    store the progress is a whole percentage with the counts in range. *)

From stdpp Require Import base list strings relations.
From Stdlib Require Import ZArith Lia Ascii.
From S2P Require Import Prelude ExamTypes History ExamStore.

Import History ExamStore.

Module Selectors.

#[local] Open Scope Z_scope.

(** The object [useExamProgress] returns; [questionNumber] is its
    [currentQuestion] field, absent in the object returned without an exam. *)
Record ExamProgress := mkExamProgress {
  progress : jsnum;
  answered : Z;
  total : Z;
  questionNumber : option Z
}.

Definition useExamProgress (s : ExamState) : ExamProgress :=
  match currentExam s with
  | None => mkExamProgress (JNum 0) 0 0 None
  | Some e =>
      mkExamProgress
        (percent (Z.of_nat (length (answers s))) (Z.of_nat (length (questions e))))
        (Z.of_nat (length (answers s)))
        (Z.of_nat (length (questions e)))
        (Some (currentQuestionIndex s + 1))
  end.

(** [Math.floor(timeRemaining / 60)] is [Z.div]; [timeRemaining % 60] is
    the truncated remainder [Z.rem]. *)
Definition useFormattedTime (s : ExamState) : string :=
  let minutes := timeRemaining s / 60 in
  let seconds := Z.rem (timeRemaining s) 60 in
  String.append (padStart (toString 10 minutes) 2 "0"%char)
    (String ":"%char (padStart (toString 10 seconds) 2 "0"%char)).

(** Reading a clock [MM:SS] back as seconds (used to state the round
    trip). *)
Definition dec_digit (c : ascii) : option Z :=
  match digit_value c with
  | Some d => if d <? 10 then Some d else None
  | None => None
  end.

Definition parse_clock (s : string) : option Z :=
  match s with
  | String m1 (String m2 (String sep (String s1 (String s2 EmptyString)))) =>
      if Ascii.eqb sep ":" then
        match dec_digit m1, dec_digit m2, dec_digit s1, dec_digit s2 with
        | Some a, Some b, Some x, Some y => Some (60 * (10 * a + b) + (10 * x + y))
        | _, _, _, _ => None
        end
      else None
  | _ => None
  end.

(** * Lemmas *)

Lemma dec_digit_char d : 0 <= d < 10 -> dec_digit (digit_char d) = Some d.
Proof.
  intros Hd. unfold dec_digit. rewrite digit_value_char by lia.
  by replace (d <? 10) with true by (symmetry; apply Z.ltb_lt; lia).
Qed.

(** Two decimal digits of [0 <= n < 100], read back. *)
Lemma two_digits_value n :
  0 <= n < 100 ->
  exists a b, padStart (toString 10 n) 2 "0"%char =
    String (digit_char a) (String (digit_char b) EmptyString) /\
    dec_digit (digit_char a) = Some a /\ dec_digit (digit_char b) = Some b /\
    n = 10 * a + b.
Proof.
  intros Hn. exists (n / 10), (n mod 10).
  rewrite padStart_two_digits by lia.
  assert (0 <= n / 10 < 10) by (split; [apply Z.div_pos|apply Z.div_lt_upper_bound]; lia).
  assert (0 <= n mod 10 < 10) by (apply Z.mod_pos_bound; lia).
  rewrite !dec_digit_char by lia. split_and!; try done. pose proof (Z.div_mod n 10). lia.
Qed.

(** Every reachable store is well formed (the rule induction of the
    exam store). *)
Lemma reachable_wf {Sn : Type} `{!Session Sn} w : reachable w -> wf (exam w).
Proof.
  intros (st & Hst & Hrtc).
  assert (Hinit : world_ok (initialWorld st)) by (split; [apply wf_initialState|done]).
  induction Hrtc as [w0|w0 w1 w2 Hstep _ IH]; [apply Hinit|].
  by apply IH, (world_ok_step w0 w1).
Qed.

(** * Theorems *)

(** Round trip of the clock: with [0 <= timeRemaining < 6000] (under 100
    minutes) [useFormattedTime] is five characters [MM:SS] that read back
    as the remaining seconds. *)
Theorem useFormattedTime_roundtrip s :
  0 <= timeRemaining s < 6000 ->
  String.length (useFormattedTime s) = 5%nat /\
  parse_clock (useFormattedTime s) = Some (timeRemaining s).
Proof.
  intros Ht. unfold useFormattedTime.
  rewrite Z.rem_mod_nonneg by lia.
  destruct (two_digits_value (timeRemaining s / 60)) as (a & b & -> & Ha & Hb & Hab).
  { split; [apply Z.div_pos|apply Z.div_lt_upper_bound]; lia. }
  destruct (two_digits_value (timeRemaining s mod 60)) as (x & y & -> & Hx & Hy & Hxy).
  { pose proof (Z.mod_pos_bound (timeRemaining s) 60). lia. }
  split; [reflexivity|]. simpl. rewrite Ha, Hb, Hx, Hy. f_equal.
  pose proof (Z.div_mod (timeRemaining s) 60). lia.
Qed.

Lemma useFormattedTime_roundtrip_witness :
  (0 <= timeRemaining (exam (start_and_answer [] q_correctAnswer)) < 6000) /\
  parse_clock (useFormattedTime (exam (start_and_answer [] q_correctAnswer))) = Some 900.
Proof.
  assert (E : timeRemaining (exam (start_and_answer [] q_correctAnswer)) = 900)
    by (vm_compute; reflexivity).
  assert (Ht : 0 <= timeRemaining (exam (start_and_answer [] q_correctAnswer)) < 6000)
    by (rewrite E; lia).
  split; [exact Ht|].
  destruct (useFormattedTime_roundtrip _ Ht) as [_ ->]. exact (f_equal Some E).
Defined.

(** C6. On every reachable store with an exam that has questions, the
    progress shown is a whole percentage in [0, 100], the answered count is
    at most the total, and the question number lies in [1, total]. *)
Theorem useExamProgress_reachable {Sn : Type} `{!Session Sn} w e :
  reachable w -> currentExam (exam w) = Some e -> questions e <> [] ->
  let p := useExamProgress (exam w) in
  (exists z, progress p = JNum z /\ 0 <= z <= 100) /\
  0 <= answered p <= total p /\
  exists n, questionNumber p = Some n /\ 1 <= n <= total p.
Proof.
  intros Hr He Hq. pose proof (reachable_wf w Hr) as Hwf.
  unfold wf in Hwf. rewrite He in Hwf. destruct Hwf as ([Hi0 Hi] & Ha & _).
  apply answers_ok_length in Ha.
  assert (0 < length (questions e))%nat by (destruct (questions e); [done|simpl; lia]).
  cbv zeta. unfold useExamProgress. rewrite He. simpl.
  split_and!; [apply percent_bounds; lia|lia|lia|].
  eexists. split; [reflexivity|]. lia.
Qed.

Lemma useExamProgress_reachable_witness :
  useExamProgress (exam (start_and_answer (take 3 sampleQuestions) q_correctAnswer)) =
  mkExamProgress (JNum 30) 3 10 (Some 1) /\
  exists z, progress (useExamProgress (exam (start_and_answer (take 3 sampleQuestions) q_correctAnswer))) = JNum z /\ 0 <= z <= 100.
Proof.
  split; [vm_compute; reflexivity|].
  destruct (useExamProgress_reachable (Sn:=option User)
    (start_and_answer (take 3 sampleQuestions) q_correctAnswer) sampleExam)
    as [Hp _].
  - apply start_and_answer_reachable.
  - vm_compute. reflexivity.
  - discriminate.
  - exact Hp.
Defined.

End Selectors.
