(* ===== verification/ExamPage.v ===== *)
(** * ExamPage: the exam simulator page [pages/SimuladorExamen.tsx]

    The page renders one of three screens from the store ([screen]): the
    start screen before [startExam], the results screen once the attempt is
    completed with a result, and otherwise the current question (nothing if
    the index names no question). Each button is an event enabled on its
    screen ([enabled]); its handler calls the store. Two effects react to the
    store: an interval that calls [tick] every second while the attempt runs
    ([timer_active]), and the auto-completion that calls [completeExam] when
    the remaining time is 0 ([autoComplete]). React runs the effects after
    the render that follows each event and before the next event, so a page
    step is an event followed by the auto-completion check. The session the
    page reads is a Section variable: the page offers no login or logout. *)

From stdpp Require Import base list strings relations.
From Stdlib Require Import ZArith Lia.
From S2P Require Import Prelude ExamTypes History ExamStore.

Import History ExamStore.

Module ExamPage.

#[local] Open Scope Z_scope.

Inductive Screen :=
| StartScreen
| ResultsScreen (r : ExamResult)
| QuestionScreen (q : Question)
| Blank.

(** [currentExam?.questions[currentQuestionIndex]] *)
Definition currentQuestion (s : ExamState) : option Question :=
  match currentExam s with
  | None => None
  | Some e => if currentQuestionIndex s <? 0 then None
              else questions e !! Z.to_nat (currentQuestionIndex s)
  end.

(** The three [return]s of the component (lines 85, 135, 187-188). *)
Definition screen (s : ExamState) : Screen :=
  if negb (isExamStarted s) then StartScreen
  else match isExamCompleted s, results s with
       | true, Some r => ResultsScreen r
       | _, _ => match currentQuestion s with
                 | Some q => QuestionScreen q
                 | None => Blank
                 end
       end.

(** [(currentExam?.questions.length || 0)] *)
Definition question_count (s : ExamState) : Z :=
  match currentExam s with Some e => Z.of_nat (length (questions e)) | None => 0 end.

Inductive UIEvent :=
| UStart                 (** the start button: [handleStartExam] *)
| UOption (index : Z)    (** an option of the current question: [handleAnswer] *)
| UPrevious              (** [handlePrevious] *)
| UNext                  (** [handleNext] *)
| UDot (index : Z)       (** a question dot *)
| UFinish                (** the [Finalizar] button: [handleComplete] *)
| UCancel                (** the modal's [Revisar respuestas] *)
| UConfirm               (** the modal's [Terminar examen]: [completeExam] *)
| URetry                 (** the results screen's [Repetir Examen]: [handleReset] *)
| UTimer.                (** the interval of the timer effect *)

#[export] Instance UIEvent_eq_dec : EqDecision UIEvent.
Proof. solve_decision. Defined.

Record Page := mkPage { world : World; showConfirm : bool }.

Definition initialPage (st : StoredResults) : Page := mkPage (initialWorld st) false.

(** The timer effect (lines 33-41): an interval runs while the attempt is
    started and not completed. *)
Definition timer_active (s : ExamState) : bool := isExamStarted s && negb (isExamCompleted s).

(** Which events the rendered page offers. *)
Definition enabled (ev : UIEvent) (p : Page) : Prop :=
  let s := exam (world p) in
  match ev, screen s with
  | UStart, StartScreen => True
  | UOption i, QuestionScreen q => 0 <= i < Z.of_nat (length (q_options q))
  | UPrevious, QuestionScreen _ => currentQuestionIndex s <> 0
  | UNext, QuestionScreen _ => currentQuestionIndex s <> question_count s - 1
  | UDot i, QuestionScreen _ => 0 <= i < question_count s
  | UFinish, QuestionScreen _ => currentQuestionIndex s = question_count s - 1
  | (UCancel | UConfirm), QuestionScreen _ => showConfirm p = true
  | URetry, ResultsScreen _ => True
  | UTimer, _ => timer_active s = true
  | _, _ => False
  end.

Section WithSession.
Context {Sn : Type} `{!Session Sn} (sess : Sn).

(** The handlers (lines 50-79), given the values a completion needs. *)
Definition handle (ev : UIEvent) (env : CompleteEnv) (p : Page) : Page :=
  let w := world p in
  let s := exam w in
  match ev with
  | UStart => mkPage (on_exam (startExam (Some sampleExam)) w) (showConfirm p)
  | UOption i =>
      match currentQuestion s with
      | Some q => mkPage (on_exam (answerQuestion (q_id q) i) w) (showConfirm p)
      | None => p
      end
  | UPrevious => mkPage (on_exam previousQuestion w) (showConfirm p)
  | UNext =>
      if currentQuestionIndex s <? question_count s - 1
      then mkPage (on_exam nextQuestion w) (showConfirm p) else p
  | UDot i => mkPage (on_exam (jumpTo i) w) (showConfirm p)
  | UFinish =>
      if Z.of_nat (length (answers s)) <? question_count s then mkPage w true
      else mkPage (completeExam sess env w) (showConfirm p)
  | UCancel => mkPage w false
  | UConfirm => mkPage (completeExam sess env w) (showConfirm p)
  | URetry => mkPage (on_exam resetExam w) false
  | UTimer => mkPage (on_exam tick w) (showConfirm p)
  end.

(** The auto-completion effect (lines 44-48). *)
Definition autoComplete (env : CompleteEnv) (p : Page) : Page :=
  let s := exam (world p) in
  if (timeRemaining s =? 0) && isExamStarted s && negb (isExamCompleted s)
  then mkPage (completeExam sess env (world p)) (showConfirm p)
  else p.

Definition page_dispatch (ev : UIEvent) (env : CompleteEnv) (p : Page) : Page :=
  autoComplete env (handle ev env p).

Inductive page_step : Page -> Page -> Prop :=
| page_step_event ev env p : enabled ev p -> page_step p (page_dispatch ev env p).

Definition page_reachable (p : Page) : Prop :=
  exists st, history_ok st /\ rtc page_step (initialPage st) p.

(** [n] firings of the interval with nothing else happening. *)
Fixpoint run_timer (n : nat) (env : CompleteEnv) (p : Page) : Page :=
  match n with
  | O => p
  | S n' => run_timer n' env (page_dispatch UTimer env p)
  end.

End WithSession.

(** The page after pressing the start button, on an empty history. *)
Definition started_page (sess_env : CompleteEnv) : Page :=
  page_dispatch (None : option User) UStart sess_env (initialPage Absent).

(** * Lemmas *)

Section Lemmas.
Context {Sn : Type} `{!Session Sn} (sess : Sn).

(** One firing of the interval on a running attempt with [t > 0] seconds
    left: [t - 1] remain, and the auto-completion fires when that is 0. *)
Lemma timer_dispatch env p e :
  currentExam (exam (world p)) = Some e -> isExamStarted (exam (world p)) = true ->
  isExamCompleted (exam (world p)) = false -> 0 < timeRemaining (exam (world p)) ->
  let p1 := mkPage (on_exam tick (world p)) (showConfirm p) in
  page_dispatch sess UTimer env p =
    if timeRemaining (exam (world p)) - 1 =? 0
    then mkPage (completeExam sess env (world p1)) (showConfirm p) else p1.
Proof.
  intros He Hst Hc Hpos p1. subst p1. destruct p as [[s st] sc]; simpl in *.
  unfold page_dispatch, handle, autoComplete, on_exam, tick. simpl. rewrite Hc. simpl.
  destruct (Z.leb_spec (timeRemaining s) 0); [lia|]. simpl.
  rewrite ?Hst, ?Hc. simpl. by destruct (_ =? 0).
Qed.

Lemma run_timer_S n env p : run_timer sess (S n) env p = run_timer sess n env (page_dispatch sess UTimer env p).
Proof. reflexivity. Qed.

Lemma world_ok_on_exam f w : wf (f (exam w)) -> history_ok (storage w) -> world_ok (on_exam f w).
Proof. by split. Qed.

Lemma world_ok_handle ev env p : enabled ev p -> world_ok (world p) -> world_ok (world (handle sess ev env p)).
Proof.
  intros Hen Hok. pose proof Hok as [Hwf Hh]. unfold enabled, handle in *.
  destruct ev; simpl.
  - apply world_ok_on_exam; [apply wf_startExam|done].
  - destruct (currentQuestion _); [|done]. apply world_ok_on_exam; [by apply wf_answerQuestion|done].
  - apply world_ok_on_exam; [by apply wf_previousQuestion|done].
  - destruct (_ <? _); [|done]. apply world_ok_on_exam; [by apply wf_nextQuestion|done].
  - apply world_ok_on_exam; [|done].
    destruct (screen (exam (world p))) eqn:Hs; try done.
    unfold screen in Hs. destruct (isExamStarted _); [|done]. simpl in Hs.
    unfold currentQuestion in Hs. destruct (currentExam (exam (world p))) as [e|] eqn:He;
      [|by repeat case_match].
    apply (wf_jumpTo _ _ e He); [|done]. unfold question_count in Hen. rewrite He in Hen. lia.
  - destruct (_ <? _); [done|]. by apply world_ok_completeExam.
  - done.
  - by apply world_ok_completeExam.
  - apply world_ok_on_exam; [apply wf_resetExam|done].
  - apply world_ok_on_exam; [by apply wf_tick|done].
Qed.

Lemma world_ok_autoComplete env p : world_ok (world p) -> world_ok (world (autoComplete sess env p)).
Proof. intros Hok. unfold autoComplete. case_match; [by apply world_ok_completeExam|done]. Qed.

Lemma completeExam_storage_changed env w :
  storage (completeExam sess env w) <> storage w -> isExamCompleted (exam (completeExam sess env w)) = true.
Proof. unfold completeExam. by case_match. Qed.

Lemma autoComplete_settles env p :
  world_ok (world p) ->
  timer_active (exam (world (autoComplete sess env p))) = true ->
  timeRemaining (exam (world (autoComplete sess env p))) <> 0.
Proof.
  intros [Hwf _]. unfold autoComplete, timer_active.
  destruct (timeRemaining (exam (world p)) =? 0) eqn:Ht;
    [|intros _; by apply Z.eqb_neq].
  destruct (isExamStarted (exam (world p))) eqn:Hst;
    [|simpl; rewrite Hst; intros H; discriminate H].
  destruct (isExamCompleted (exam (world p))) eqn:Hc;
    [simpl; rewrite Hc, andb_false_r; intros H; discriminate H|].
  simpl. unfold wf in Hwf. unfold completeExam.
  destruct (currentExam (exam (world p))); [simpl; rewrite andb_false_r; intros H; discriminate H|].
  destruct Hwf as (_ & _ & _ & Hst' & _). congruence.
Qed.

(** The events offered on a question screen or by the running timer come
    from an attempt that is not completed. *)
Lemma enabled_not_completed ev p :
  wf (exam (world p)) -> enabled ev p -> ev <> URetry -> ev <> UStart ->
  isExamCompleted (exam (world p)) = false.
Proof.
  intros Hwf Hen Hr Hs. unfold enabled in Hen.
  destruct (isExamCompleted (exam (world p))) eqn:Hc; [|done]. exfalso.
  assert (Hres : is_Some (results (exam (world p)))).
  { unfold wf in Hwf. destruct (currentExam _); [by apply Hwf|]. destruct Hwf as (_ & _ & _ & _ & Hc'). congruence. }
  destruct Hres as [r Hr'].
  unfold screen in Hen. rewrite Hc, Hr' in Hen.
  destruct (isExamStarted _); destruct ev; simpl in Hen; try done.
  all: unfold timer_active in Hen; rewrite Hc, andb_false_r in Hen; discriminate Hen.
Qed.

Lemma start_screen_not_completed p :
  wf (exam (world p)) -> enabled UStart p -> isExamCompleted (exam (world p)) = false.
Proof.
  intros Hwf Hen. unfold enabled, screen in Hen.
  destruct (isExamStarted (exam (world p))) eqn:Hst; [by repeat case_match|].
  unfold wf in Hwf. destruct (currentExam _); [destruct Hwf as (_ & _ & _ & Hst' & _); congruence|].
  by destruct Hwf as (_ & _ & _ & _ & Hc).
Qed.

Lemma handle_storage ev env p :
  storage (world (handle sess ev env p)) <> storage (world p) ->
  (ev = UFinish \/ ev = UConfirm) /\ isExamCompleted (exam (world (handle sess ev env p))) = true.
Proof.
  unfold handle. destruct ev; simpl; try (intros []; reflexivity).
  - destruct (currentQuestion _); simpl; intros []; reflexivity.
  - destruct (_ <? _); simpl; intros []; reflexivity.
  - destruct (_ <? _); simpl; [intros []; reflexivity|].
    intros H. split; [by left|]. by apply completeExam_storage_changed.
  - intros H. split; [by right|]. by apply completeExam_storage_changed.
Qed.

Lemma autoComplete_storage env p :
  storage (world (autoComplete sess env p)) <> storage (world p) ->
  isExamStarted (exam (world p)) = true /\ isExamCompleted (exam (world p)) = false /\
  isExamCompleted (exam (world (autoComplete sess env p))) = true.
Proof.
  unfold autoComplete. destruct (timeRemaining _ =? 0), (isExamStarted _) eqn:Hst,
    (isExamCompleted _) eqn:Hc; simpl; try (intros []; reflexivity).
  intros H. split_and!; [done|done|]. by apply completeExam_storage_changed.
Qed.

Lemma tick_running s :
  isExamCompleted s = false -> 0 < timeRemaining s -> tick s = set_time (timeRemaining s - 1) s.
Proof.
  intros Hc Hpos. unfold tick. rewrite Hc. simpl.
  by destruct (Z.leb_spec (timeRemaining s) 0); [lia|].
Qed.

Lemma timer_enabled p :
  isExamStarted (exam (world p)) = true -> isExamCompleted (exam (world p)) = false -> enabled UTimer p.
Proof.
  intros Hst Hc. unfold enabled, timer_active. rewrite Hst, Hc.
  by destruct (screen (exam (world p))).
Qed.

Lemma autoComplete_completed env p :
  isExamCompleted (exam (world p)) = true -> autoComplete sess env p = p.
Proof. intros Hc. unfold autoComplete. by rewrite Hc, andb_false_r. Qed.

End Lemmas.

(** * Theorems *)

Section Reachable.
Context {Sn : Type} `{!Session Sn} (sess : Sn).

Lemma page_step_world_ok p q : page_step sess p q -> world_ok (world p) -> world_ok (world q).
Proof. intros [ev env p0 Hen] Hok. apply world_ok_autoComplete, world_ok_handle; done. Qed.

(** The store of a reachable page is well formed. *)
Lemma page_reachable_world_ok p : page_reachable sess p -> world_ok (world p).
Proof.
  intros (st & Hst & Hrtc). assert (world_ok (world (initialPage st))) as H0 by (split; [apply wf_initialState|done]).
  induction Hrtc as [|x y z Hxy _ IH]; [done|]. eauto using page_step_world_ok.
Qed.

End Reachable.

Section Theorems.
Context {Sn : Type} `{!Session Sn} (sess : Sn).

(** C7. Every page state reachable through the buttons the page renders,
    the timer and the auto-completion keeps the store well formed, and no
    attempt is left running with no time remaining: the auto-completion has
    completed it. *)
Theorem page_reachable_ok p :
  page_reachable sess p ->
  world_ok (world p) /\
  (timer_active (exam (world p)) = true -> timeRemaining (exam (world p)) <> 0).
Proof.
  intros (st & Hst & Hrtc).
  assert (Hinit : world_ok (world (initialPage st)) /\
    (timer_active (exam (world (initialPage st))) = true -> timeRemaining (exam (world (initialPage st))) <> 0)).
  { split; [split; [apply wf_initialState|done]|discriminate]. }
  induction Hrtc as [p0|p0 p1 p2 Hstep _ IH]; [done|]. apply IH.
  destruct Hstep as [ev env q Hen]. destruct Hinit as [Hok _].
  pose proof (world_ok_handle sess ev env q Hen Hok) as Hh.
  split; [by apply world_ok_autoComplete|by apply autoComplete_settles].
Qed.

(** C8. Liveness of the timer: an attempt running with [n + 1] seconds
    left is completed by the page after exactly [n + 1] firings of the
    interval, through steps the page offers, not after [n], and the history
    receives exactly one result. *)
Theorem timer_completes_attempt n env p e :
  currentExam (exam (world p)) = Some e -> isExamStarted (exam (world p)) = true ->
  isExamCompleted (exam (world p)) = false ->
  timeRemaining (exam (world p)) = Z.of_nat (S n) ->
  rtc (page_step sess) p (run_timer sess (S n) env p) /\
  isExamCompleted (exam (world (run_timer sess n env p))) = false /\
  isExamCompleted (exam (world (run_timer sess (S n) env p))) = true /\
  exists r, storage (world (run_timer sess (S n) env p)) =
              saveResult (env_writeOk env) r (storage (world p)).
Proof.
  revert p. induction n as [|n IH]; intros p He Hst Hc Ht;
    pose proof (timer_enabled p Hst Hc) as Hen;
    pose proof (tick_running (exam (world p)) Hc ltac:(lia)) as Htick.
  - assert (Hd : page_dispatch sess UTimer env p =
                 mkPage (completeExam sess env (on_exam tick (world p))) (showConfirm p)).
    { rewrite (timer_dispatch sess env p e) by (done || lia). by rewrite Ht. }
    assert (Hstep : page_step sess p (page_dispatch sess UTimer env p)) by by constructor.
    cbn [run_timer]. rewrite Hd in *. split_and!; [by apply rtc_once|done| |].
    + unfold completeExam, on_exam. cbn [exam storage world]. rewrite Htick. cbn. by rewrite He.
    + unfold completeExam, on_exam. cbn [exam storage world]. rewrite Htick. cbn. rewrite He.
      by eexists.
  - assert (Hd : page_dispatch sess UTimer env p = mkPage (on_exam tick (world p)) (showConfirm p)).
    { rewrite (timer_dispatch sess env p e) by (done || lia).
      by replace (timeRemaining (exam (world p)) - 1 =? 0) with false by (symmetry; apply Z.eqb_neq; lia). }
    assert (Hstep : page_step sess p (mkPage (on_exam tick (world p)) (showConfirm p)))
      by (rewrite <- Hd; by constructor).
    rewrite !run_timer_S, Hd.
    set (p1 := mkPage (on_exam tick (world p)) (showConfirm p)) in *.
    assert (Hs1 : exam (world p1) = set_time (timeRemaining (exam (world p)) - 1) (exam (world p)))
      by (subst p1; exact Htick).
    destruct (IH p1) as (Hr & Hn & Hdone & r & Hstore); rewrite ?Hs1; try done; [simpl; lia|].
    split_and!; [eapply rtc_l; [exact Hstep|exact Hr]|exact Hn|exact Hdone|exists r; exact Hstore].
Qed.

(** C9. The page appends to the history only when an attempt goes from
    running to completed: a step that changes the stored history starts
    from an attempt that is not completed and ends with it completed. So
    although [completeExam] has no guard, the page completes each attempt
    at most once. *)
Theorem page_step_history p p' :
  world_ok (world p) -> page_step sess p p' ->
  storage (world p') <> storage (world p) ->
  isExamCompleted (exam (world p)) = false /\ isExamCompleted (exam (world p')) = true.
Proof.
  intros [Hwf Hh] Hstep Hchg. destruct Hstep as [ev env p Hen].
  unfold page_dispatch in *.
  destruct (decide (storage (world (handle sess ev env p)) = storage (world p))) as [Heq|Hne].
  - rewrite <- Heq in Hchg. apply autoComplete_storage in Hchg as (Hst & Hc & Hdone).
    split; [|done].
    destruct (decide (ev = URetry)) as [->|Hr].
    + simpl in Hst. unfold resetExam in Hst. discriminate.
    + destruct (decide (ev = UStart)) as [->|Hs]; [by apply start_screen_not_completed|].
      by apply (enabled_not_completed ev).
  - apply handle_storage in Hne as [[-> | ->] Hdone];
      (split; [eapply enabled_not_completed; [done|exact Hen|discriminate|discriminate]
              |by rewrite autoComplete_completed]).
Qed.

End Theorems.

(** * Witnesses *)

Lemma page_reachable_ok_witness :
  page_reachable (None : option User) (started_page demo_env) /\
  world_ok (world (started_page demo_env)).
Proof.
  assert (H : page_reachable (None : option User) (started_page demo_env)).
  { exists Absent. split; [done|]. apply rtc_once. constructor. exact I. }
  split; [exact H|]. apply (page_reachable_ok (None : option User) _ H).
Defined.

Lemma timer_completes_attempt_witness :
  isExamCompleted (exam (world (run_timer (None : option User) 900 demo_env (started_page demo_env)))) = true.
Proof.
  apply (timer_completes_attempt (None : option User) 899 demo_env (started_page demo_env) sampleExam);
    reflexivity.
Defined.

Lemma page_step_history_witness :
  let p := mkPage (mkWorld (set_time 1 (startExam None initialState)) Absent) false in
  isExamCompleted (exam (world (page_dispatch (None : option User) UTimer demo_env p))) = true.
Proof.
  intros p.
  assert (Hok : world_ok (world p)).
  { split; [|done]. unfold wf; simpl.
    split_and!; try done; try (intros ? ?; discriminate); try (unfold time_ok; simpl; lia).
    - unfold index_ok; simpl; lia.
    - split; [apply NoDup_nil_2|constructor]. }
  apply (page_step_history (None : option User) p); [exact Hok|constructor; reflexivity|discriminate].
Defined.

End ExamPage.
