(* ===== verification/ExamView.v ===== *)
(** * ExamView: what [pages/SimuladorExamen.tsx] renders

    The component returns one of three trees (lines 85-302): the start
    card while no attempt is started, the results card once the attempt is
    completed with a result, and otherwise the question screen of
    [currentExam.questions[currentQuestionIndex]], or [null] when there is
    no such question. The screen is [ExamPage.screen]; this file gives each
    tree as a [View.vnode] of the exam state, the confirmation flag and the
    session user. Numbers are written as [String(n)] writes them; the date
    of the results card, [toLocaleDateString('es-MX')], is a parameter.
    Emoji and arrows, outside Latin-1, are kept as their UTF-8 bytes. *)

From stdpp Require Import base list relations.
From Stdlib Require Import ZArith String Ascii Lia.
From S2P Require Import Prelude View ExamTypes History ExamStore Selectors ExamPage.

Import View History ExamStore Selectors ExamPage.

Module ExamView.

#[local] Open Scope string_scope.

(** [String(n)] of the numbers the store computes. *)
Definition jsnum_string (n : jsnum) : string :=
  match n with
  | JNum z => toString 10 z
  | JNaN => "NaN"
  | JInfinity => "Infinity"
  | JNegInfinity => "-Infinity"
  end.

Definition difficulty_name (d : Difficulty) : string :=
  match d with Easy => "easy" | Medium => "medium" | Hard => "hard" end.

(** ** The start card (lines 86-130) *)

Definition info_item (icon : string) (body : list vnode) : vnode :=
  el "div" "info-item" [el "span" "info-icon" [VText icon]; el "span" "" body].

Definition render_start : vnode :=
  el "div" "exam-container" [
    el "div" "exam-start-card" [
      el "div" "exam-header" [
        el "h1" "" [VText "🎓 Simulador de Examen CNSF 2.1"];
        el "p" "exam-description"
          [VText ("Examen de pr" ++ ch 225 ++ "ctica sobre la Ley de Instituciones de Seguros y Fianzas")]];
      el "div" "exam-info" [
        info_item "📝" [VText (toString 10 (Z.of_nat (List.length (questions sampleExam)))); VText " preguntas"];
        info_item "⏱️" [VText (toString 10 (timeLimit sampleExam)); VText " minutos"];
        info_item "📊" [VText ("M" ++ ch 237 ++ "nimo "); VText (toString 10 (passingScore sampleExam));
                         VText "% para aprobar"]];
      el "div" "exam-instructions" [
        el "h3" "" [VText "Instrucciones:"];
        el "ul" "" [
          el "li" "" [VText "Lee cada pregunta cuidadosamente"];
          el "li" "" [VText "Selecciona la respuesta correcta"];
          el "li" "" [VText "Puedes navegar entre preguntas"];
          el "li" "" [VText "El tiempo corre desde que inicias"];
          el "li" "" [VText "Al terminar, revisa tus respuestas antes de enviar"]]];
      el "button" "start-exam-button" [VText "🚀 Iniciar Examen"];
      el "button" "back-button" [VText "← Volver al Dashboard"]]].

(** ** The results card (lines 136-185) *)

(** [user?.field || fallback] *)
Definition user_or (f : User -> string) (fallback : string) (user : option User) : string :=
  match user with
  | Some u => if String.eqb (f u) "" then fallback else f u
  | None => fallback
  end.

Definition stat (cls : string) (value : list vnode) (label : string) : vnode :=
  el "div" "stat" [el "span" cls value; el "span" "stat-label" [VText label]].

Section Results.
Variable fmt_date : string -> string.

Definition render_results (user : option User) (r : ExamResult) : vnode :=
  let ok := passed r in
  el "div" "exam-container" [
    el "div" "exam-results-card" [
      el "div" ("results-header " ++ if ok then "passed" else "failed")
        [VText (if ok then "🎉 " ++ ch 161 ++ "Felicidades!" else "📚 Sigue intentando")];
      el "div" "score-circle" [
        el "span" "score-value" [VText (jsnum_string (score r)); VText "%"];
        el "span" "score-label" [VText (if ok then "Aprobado" else "No aprobado")]];
      el "div" "results-stats" [
        stat "stat-value correct" [VText (toString 10 (correctAnswers r))] "Correctas";
        stat "stat-value wrong" [VText (toString 10 (wrongAnswers r))] "Incorrectas";
        stat "stat-value" [VText (toString 10 (totalQuestions r))] "Total";
        stat "stat-value" [VText (toString 10 (timeSpent r / 60)); VText ":";
                           VText (padStart (toString 10 (Z.rem (timeSpent r) 60)) 2 "0"%char)] "Tiempo"];
      el "div" "results-user" [
        el "p" "" [el "strong" "" [VText "Participante:"]; VText " "; VText (user_or name "Usuario Demo" user)];
        el "p" "" [el "strong" "" [VText "Empresa:"]; VText " "; VText (user_or company "N/A" user)];
        el "p" "" [el "strong" "" [VText "Fecha:"]; VText " "; VText (fmt_date (completedAt r))]];
      el "div" "results-actions" [
        el "button" "retry-button" [VText "🔄 Repetir Examen"];
        el "button" "dashboard-button" [VText "🏠 Volver al Dashboard"]]]].

End Results.

(** ** The question screen (lines 189-302) *)

(** An option button (lines 225-236). *)
Definition render_option (s : ExamState) (q : Question) (index : nat) (option : string) : vnode :=
  let isSelected := match find (fun a => questionId a === q_id q) (answers s) with
                    | Some a => (selectedAnswer a =? Z.of_nat index)%Z
                    | None => false
                    end in
  el "button" ("option-button " ++ if isSelected then "selected" else "") [
    el "span" "option-letter" [VText (ch (65 + index))];
    el "span" "option-text" [VText option]].

Fixpoint render_options (s : ExamState) (q : Question) (index : nat) (l : list string) : list vnode :=
  match l with
  | [] => []
  | o :: l' => render_option s q index o :: render_options s q (S index) l'
  end.

(** A question dot (lines 252-263). *)
Definition render_dot (s : ExamState) (index : nat) (q : Question) : vnode :=
  let isAnswered := existsb (fun a => questionId a === q_id q) (answers s) in
  let isCurrent := (Z.of_nat index =? currentQuestionIndex s)%Z in
  VElem "button" ("dot " ++ (if isAnswered then "answered" else "") ++ " " ++ (if isCurrent then "current" else ""))
    [] [].

Fixpoint render_dots (s : ExamState) (index : nat) (l : list Question) : list vnode :=
  match l with
  | [] => []
  | q :: l' => render_dot s index q :: render_dots s (S index) l'
  end.

(** The confirmation modal (lines 284-300). *)
Definition render_modal (s : ExamState) (e : Exam) : vnode :=
  let len := Z.of_nat (List.length (questions e)) in
  el "div" "modal-overlay" [
    el "div" "modal" [
      el "h3" "" [VText (ch 191 ++ "Est" ++ ch 225 ++ "s seguro de terminar el examen?")];
      el "p" "" [VText "Tienes ";
                 VText (toString 10 (if (len =? 0)%Z then 0 else len - Z.of_nat (List.length (answers s))));
                 VText " preguntas sin responder."];
      el "div" "modal-actions" [
        el "button" "cancel-button" [VText "Revisar respuestas"];
        el "button" "confirm-button" [VText "Terminar examen"]]]].

(** The progress bar (lines 195-211). *)
Definition question_progress (s : ExamState) (e : Exam) : vnode :=
  let len := toString 10 (Z.of_nat (List.length (questions e))) in
  el "div" "exam-progress-bar" [
    el "div" "progress-info" [
      el "span" "" [VText "Pregunta "; VText (toString 10 (currentQuestionIndex s + 1)); VText " de "; VText len];
      el "span" ("timer " ++ if (timeRemaining s <? 60)%Z then "warning" else "")
        [VText "⏱️ "; VText (useFormattedTime s)]];
    el "div" "progress-bar" [
      VElem "div" "progress-fill" [("width", jsnum_string (progress (useExamProgress s)) ++ "%")] []];
    el "div" "progress-answered"
      [VText (toString 10 (Z.of_nat (List.length (answers s)))); VText " / "; VText len; VText " respondidas"]].

(** The current question (lines 214-239). *)
Definition question_card (s : ExamState) (q : Question) : vnode :=
  el "div" "question-card" [
    el "div" "question-header" [
      el "span" ("difficulty-badge " ++ difficulty_name (q_difficulty q)) [VText (difficulty_name (q_difficulty q))];
      el "span" "category-badge" [VText (q_category q)]];
    el "h2" "question-text" [VText (q_question q)];
    el "div" "options-list" (render_options s q 0 (q_options q))].

(** The navigation (lines 242-282). *)
Definition question_nav (s : ExamState) (e : Exam) : vnode :=
  el "div" "exam-navigation" [
    VElem "button" "nav-button prev" (if (currentQuestionIndex s =? 0)%Z then [("disabled", "")] else [])
      [VText "← Anterior"];
    el "div" "question-dots" (render_dots s 0 (questions e));
    if (currentQuestionIndex s =? Z.of_nat (List.length (questions e)) - 1)%Z
    then el "button" "nav-button complete" [VText "Finalizar ✅"]
    else el "button" "nav-button next" [VText "Siguiente →"]].

(** The question screen (lines 192-302). *)
Definition render_question (s : ExamState) (e : Exam) (q : Question) (showConfirm : bool) : vnode :=
  el "div" "exam-container"
    ([question_progress s e; question_card s q; question_nav s e] ++ when showConfirm (render_modal s e))%list.

(** The component: the tree of its screen, nothing for [return null]. *)
Definition render_exam_page (fmt_date : string -> string) (user : option User) (p : Page) : list vnode :=
  let s := exam (world p) in
  match screen s with
  | StartScreen => [render_start]
  | ResultsScreen r => [render_results fmt_date user r]
  | QuestionScreen q =>
      match currentExam s with
      | Some e => [render_question s e q (showConfirm p)]
      | None => []
      end
  | Blank => []
  end.

(** [answers.some(a => a.questionId === q.id)] *)
Definition is_answered (s : ExamState) (q : Question) : bool :=
  existsb (fun a => questionId a === q_id q) (answers s).

(** [answers.find(a => a.questionId === q.id)?.selectedAnswer === index] *)
Definition option_selected (s : ExamState) (q : Question) (index : nat) : bool :=
  match find (fun a => questionId a === q_id q) (answers s) with
  | Some a => (selectedAnswer a =? Z.of_nat index)%Z
  | None => false
  end.

(** The classes of the page the theorems read. *)
Definition read_classes : list string :=
  ["dot"; "current"; "answered"; "selected"; "prev"; "complete"; "progress-answered"].

(** The only exam the page starts is the built-in one. *)
Definition exam_is_sample (s : ExamState) : Prop :=
  currentExam s = None \/ currentExam s = Some sampleExam.

(** * Lemmas *)

(** ** Dots and options *)

Lemma dot_class_words (a b : bool) :
  class_words ("dot " ++ (if a then "answered" else "") ++ " " ++ (if b then "current" else "")) =
    ("dot" :: (if a then ["answered"] else []) ++ (if b then ["current"] else []))%list.
Proof. by destruct a, b. Qed.

Lemma option_class_words (a : bool) :
  class_words ("option-button " ++ if a then "selected" else "") =
    ("option-button" :: if a then ["selected"] else [])%list.
Proof. by destruct a. Qed.

Lemma has_class_dot c s i q :
  has_class c (render_dot s i q) =
    String.eqb c "dot" || (String.eqb c "answered" && is_answered s q) ||
    (String.eqb c "current" && (Z.of_nat i =? currentQuestionIndex s)%Z).
Proof.
  unfold render_dot, is_answered, has_class. rewrite dot_class_words.
  destruct (existsb (fun a => questionId a === q_id q) (answers s)), (Z.of_nat i =? currentQuestionIndex s)%Z; simpl;
    by destruct (String.eqb c "dot"), (String.eqb c "answered"), (String.eqb c "current").
Qed.

Lemma has_class_option c s q i o :
  has_class c (render_option s q i o) =
    String.eqb c "option-button" || (String.eqb c "selected" && option_selected s q i).
Proof.
  unfold has_class, render_option, option_selected, el. cbv beta iota zeta. rewrite option_class_words.
  destruct (find (fun a => questionId a === q_id q) (answers s)) as [a|]; [destruct (selectedAnswer a =? Z.of_nat i)%Z|]; simpl;
    by destruct (String.eqb c "option-button"), (String.eqb c "selected").
Qed.

(** Side conditions on the class of a dot or an option. *)
Ltac class_side :=
  rewrite ?has_class_dot, ?has_class_option; simpl;
  first [ apply Z.eqb_eq; lia | apply Z.eqb_neq; lia
        | let H := fresh in intros H; apply Z.eqb_eq in H; lia | done | lia ].

Lemma render_dots_leaves s i l :
  Forall (fun v => exists tag cls attrs, v = VElem tag cls attrs []) (render_dots s i l).
Proof. revert i. induction l; constructor; eauto. Qed.

Lemma render_dots_length s i l : List.length (render_dots s i l) = List.length l.
Proof. revert i. induction l; simpl; auto. Qed.

Lemma render_dots_lookup s i l k q :
  l !! k = Some q -> render_dots s i l !! k = Some (render_dot s (i + k) q).
Proof.
  revert i k. induction l as [|q' l IH]; intros i [|k] Hk; simplify_eq/=; [by rewrite Nat.add_0_r|].
  rewrite (IH (S i) k Hk). do 2 f_equal. lia.
Qed.

Lemma filter_current_none s i l :
  (currentQuestionIndex s < Z.of_nat i)%Z ->
  filter (fun v => has_class "current" v = true) (render_dots s i l) = [].
Proof.
  revert i. induction l as [|q l IH]; intros i Hi; [done|]. simpl.
  rewrite filter_cons, decide_False, IH by class_side. done.
Qed.

(** The dot of the current index is the one current dot. *)
Lemma filter_current s i l k q :
  l !! k = Some q -> currentQuestionIndex s = Z.of_nat (i + k) ->
  filter (fun v => has_class "current" v = true) (render_dots s i l) = [render_dot s (i + k) q].
Proof.
  revert i k. induction l as [|q' l IH]; intros i [|k] Hk Hcur; simplify_eq/=.
  - rewrite filter_cons, decide_True, filter_current_none by class_side.
    by rewrite Nat.add_0_r.
  - rewrite filter_cons, decide_False by class_side.
    rewrite (IH (S i) k Hk) by lia. do 2 f_equal. lia.
Qed.

Lemma filter_answered_length s i l :
  List.length (filter (fun v => has_class "answered" v = true) (render_dots s i l)) =
  List.length (filter (fun q => is_answered s q = true) l).
Proof.
  revert i. induction l as [|q l IH]; intros i; [done|]. simpl.
  rewrite !filter_cons, has_class_dot. simpl. destruct (is_answered s q); simpl; auto.
Qed.

Lemma by_class_option c s q i o :
  c <> "option-letter" -> c <> "option-text" ->
  by_class c (render_option s q i o) = if has_class c (render_option s q i o) then [render_option s q i o] else [].
Proof.
  intros H1 H2. unfold render_option. cbv zeta. unfold el at 1. rewrite by_class_elem.
  cbn [mbind list_bind]. unfold el.
  rewrite !by_class_elem, (has_class_single c "span" "option-letter"), (has_class_single c "span" "option-text")
    by reflexivity.
  rewrite (proj2 (String.eqb_neq _ _) H1), (proj2 (String.eqb_neq _ _) H2). cbn. by rewrite ?app_nil_r.
Qed.

Lemma render_options_by_class c s q i l :
  c <> "option-letter" -> c <> "option-text" ->
  render_options s q i l ≫= by_class c = filter (fun v => has_class c v = true) (render_options s q i l).
Proof.
  intros H1 H2. revert i. induction l as [|o l IH]; intros i; [done|]. csimpl.
  rewrite by_class_option, filter_cons, IH by done.
  destruct (has_class c _) eqn:E; [rewrite decide_True by done|rewrite decide_False by congruence]; done.
Qed.

(** At most one option is marked selected. *)
Lemma filter_selected_none s q i l :
  (forall k, i <= k -> option_selected s q k = false) ->
  filter (fun v => has_class "selected" v = true) (render_options s q i l) = [].
Proof.
  revert i. induction l as [|o l IH]; intros i Hk; [done|]. simpl.
  rewrite filter_cons, decide_False, IH; [done| |].
  - intros k ?. apply Hk. lia.
  - rewrite has_class_option. simpl. by rewrite Hk.
Qed.

Lemma filter_selected_length s q i l :
  List.length (filter (fun v => has_class "selected" v = true) (render_options s q i l)) <= 1.
Proof.
  revert i. induction l as [|o l IH]; intros i; simpl; [lia|].
  rewrite filter_cons, has_class_option. simpl.
  destruct (option_selected s q i) eqn:E; simpl; [|apply IH].
  rewrite filter_selected_none; [simpl; lia|].
  intros k Hk. unfold option_selected in *. destruct (find _ _); [|done].
  apply Z.eqb_eq in E. apply Z.eqb_neq. lia.
Qed.

Lemma filter_dot_all s i l :
  filter (fun v => has_class "dot" v = true) (render_dots s i l) = render_dots s i l.
Proof.
  revert i. induction l as [|q l IH]; intros i; [done|]. simpl.
  rewrite filter_cons, decide_True by (by rewrite has_class_dot). by rewrite IH.
Qed.

Lemma render_dots_by_class c s i l :
  render_dots s i l ≫= by_class c = filter (fun v => has_class c v = true) (render_dots s i l).
Proof. apply bind_by_class_leaves, render_dots_leaves. Qed.

(** The dots carry no other class than [dot], [answered] and [current]. *)
Lemma render_dots_other c s i l :
  c <> "dot" -> c <> "answered" -> c <> "current" -> render_dots s i l ≫= by_class c = [].
Proof.
  intros H1 H2 H3. rewrite render_dots_by_class. revert i. induction l as [|q l IH]; intros i; [done|].
  simpl. rewrite filter_cons, decide_False, IH; [done|].
  rewrite has_class_dot, (proj2 (String.eqb_neq _ _) H1), (proj2 (String.eqb_neq _ _) H2),
    (proj2 (String.eqb_neq _ _) H3). done.
Qed.

(** The options carry no other class than theirs and their spans'. *)
Lemma render_options_other c s q i l :
  c <> "option-button" -> c <> "selected" -> c <> "option-letter" -> c <> "option-text" ->
  render_options s q i l ≫= by_class c = [].
Proof.
  intros H1 H2 H3 H4. rewrite render_options_by_class by done.
  revert i. induction l as [|o l IH]; intros i; [done|].
  simpl. rewrite filter_cons, decide_False, IH; [done|].
  rewrite has_class_option, (proj2 (String.eqb_neq _ _) H1), (proj2 (String.eqb_neq _ _) H2). done.
Qed.

(** ** The question screen, part by part *)

Lemma render_question_by_class c s e q b :
  c <> "exam-container" ->
  by_class c (render_question s e q b) =
    (by_class c (question_progress s e) ++ by_class c (question_card s q) ++ by_class c (question_nav s e) ++
     (if b then by_class c (render_modal s e) else []))%list.
Proof.
  intros Hc. unfold render_question, el. rewrite by_class_elem, (has_class_single c "div" "exam-container") by reflexivity.
  rewrite (proj2 (String.eqb_neq _ _) Hc). destruct b; simpl; by rewrite ?app_nil_r.
Qed.

Lemma question_progress_by_class c s e :
  c ∈ read_classes -> c <> "progress-answered" -> by_class c (question_progress s e) = [].
Proof.
  intros Hc Hp. unfold question_progress. destruct (timeRemaining s <? 60)%Z;
    repeat (apply elem_of_cons in Hc as [->|Hc]; [by view_simpl|]); by apply elem_of_nil in Hc.
Qed.

Lemma question_progress_answered s e :
  text_of <$> by_class "progress-answered" (question_progress s e) =
    [toString 10 (Z.of_nat (List.length (answers s))) ++ " / " ++
     toString 10 (Z.of_nat (List.length (questions e))) ++ " respondidas"].
Proof. unfold question_progress. destruct (timeRemaining s <? 60)%Z; view_simpl; by rewrite str_app_nil_r. Qed.

Lemma question_card_by_class c s q :
  c ∈ read_classes -> c <> "selected" -> by_class c (question_card s q) = [].
Proof.
  intros Hc Hs. unfold question_card. destruct (q_difficulty q);
    repeat (apply elem_of_cons in Hc as [->|Hc];
            [view_simpl; rewrite ?render_options_other by discriminate; done|]); by apply elem_of_nil in Hc.
Qed.

Lemma question_card_selected s q :
  by_class "selected" (question_card s q) =
    filter (fun o => has_class "selected" o = true) (render_options s q 0 (q_options q)).
Proof.
  unfold question_card. destruct (q_difficulty q); view_simpl;
    rewrite render_options_by_class by discriminate; by rewrite ?app_nil_r.
Qed.

Lemma render_modal_by_class c s e : c ∈ read_classes -> by_class c (render_modal s e) = [].
Proof.
  intros Hc. unfold render_modal.
  repeat (apply elem_of_cons in Hc as [->|Hc]; [by view_simpl|]); by apply elem_of_nil in Hc.
Qed.

Lemma question_nav_reads s e :
  let v := question_nav s e in
  by_class "dot" v = render_dots s 0 (questions e) /\
  by_class "current" v = filter (fun d => has_class "current" d = true) (render_dots s 0 (questions e)) /\
  by_class "answered" v = filter (fun d => has_class "answered" d = true) (render_dots s 0 (questions e)) /\
  by_class "selected" v = [] /\ by_class "progress-answered" v = [] /\
  attr "disabled" <$> by_class "prev" v = [if (currentQuestionIndex s =? 0)%Z then Some "" else None] /\
  List.length (by_class "complete" v) =
    (if (currentQuestionIndex s =? Z.of_nat (List.length (questions e)) - 1)%Z then 1 else 0).
Proof.
  unfold question_nav. destruct (currentQuestionIndex s =? 0)%Z, (currentQuestionIndex s =? _ - 1)%Z;
    split_and!; view_simpl;
    rewrite ?render_dots_other, ?render_dots_by_class, ?filter_dot_all, ?app_nil_r by discriminate; done.
Qed.

(** ** Counting the answered questions *)

(** With distinct question ids and one answer per question of the exam,
    as many questions are answered as there are answers. *)
Lemma answered_count (qs : list Question) (l : list UserAnswer) :
  NoDup (q_id <$> qs) -> NoDup (questionId <$> l) ->
  Forall (fun a => exists q, find (fun q => q_id q === questionId a) qs = Some q) l ->
  List.length (filter (fun q => existsb (fun a => questionId a === q_id q) l = true) qs) = List.length l.
Proof.
  intros Hq Hl Hf. rewrite <-(length_fmap q_id), <-(length_fmap questionId l).
  apply Permutation_length, NoDup_Permutation; [|done|].
  - eapply sublist_NoDup; [exact Hq|]. apply fmap_sublist, sublist_filter.
  - intros x. rewrite !list_elem_of_fmap. split.
    + intros (q & -> & Hq'). apply list_elem_of_filter in Hq' as [He _].
      apply existsb_exists in He as (a & Ha & Heq). apply (js_eq_true (questionId a) (q_id q)) in Heq.
      exists a. split; [congruence|by apply list_elem_of_In].
    + intros (a & -> & Ha). rewrite Forall_forall in Hf. destruct (Hf a Ha) as [q Hfind].
      apply List.find_some in Hfind as [Hin Heq]. apply (js_eq_true (q_id q) (questionId a)) in Heq.
      exists q. split; [congruence|]. apply list_elem_of_filter. split; [|by apply list_elem_of_In].
      apply existsb_exists. exists a. split; [by apply list_elem_of_In|]. by apply (js_eq_true (questionId a) (q_id q)).
Qed.

Lemma sampleExam_ids_NoDup' : NoDup (q_id <$> questions sampleExam).
Proof. apply (bool_decide_unpack _). by vm_compute. Qed.

(** ** Reachable pages *)

Section Reachable.
Context {Sn : Type} `{!Session Sn} (sess : Sn).

Lemma exam_is_sample_step p p' :
  page_step sess p p' -> exam_is_sample (exam (world p)) -> exam_is_sample (exam (world p')).
Proof.
  intros [ev env p0 _] H. unfold exam_is_sample in *.
  unfold page_dispatch, autoComplete, handle, completeExam, on_exam, startExam, answerQuestion,
    previousQuestion, nextQuestion, jumpTo, resetExam, tick, set_completed, set_index, set_answers, set_time.
  destruct ev; simpl; repeat (case_match; simpl in *); simplify_eq; naive_solver.
Qed.

Lemma page_exam_sample p : page_reachable sess p -> exam_is_sample (exam (world p)).
Proof.
  intros (st & _ & Hr). assert (exam_is_sample (exam (world (initialPage st)))) as H0 by (by left).
  induction Hr as [|x y z Hxy _ IH]; [done|]. eauto using exam_is_sample_step.
Qed.

End Reachable.

Lemma screen_question s q :
  screen s = QuestionScreen q ->
  exists e, currentExam s = Some e /\ (0 <= currentQuestionIndex s)%Z /\
            questions e !! Z.to_nat (currentQuestionIndex s) = Some q.
Proof.
  unfold screen, currentQuestion. intros H.
  destruct (isExamStarted s); [|done]. simpl in H.
  destruct (currentExam s) as [e|]; [|by repeat case_match].
  exists e. split; [done|]. destruct (currentQuestionIndex s <? 0)%Z eqn:Hi; [by repeat case_match|].
  split; [lia|]. by repeat case_match; simplify_eq.
Qed.

Lemma screen_results s r :
  screen s = ResultsScreen r ->
  isExamStarted s = true /\ isExamCompleted s = true /\ results s = Some r.
Proof. unfold screen. destruct (isExamStarted s), (isExamCompleted s), (results s); simpl; repeat case_match; by intros; simplify_eq. Qed.

Lemma render_results_reads fmt_date user r :
  let v := render_results fmt_date user r in
  text_of <$> by_class "score-label" v = [if passed r then "Aprobado" else "No aprobado"] /\
  text_of <$> by_class "stat-value" v =
    [toString 10 (correctAnswers r); toString 10 (wrongAnswers r); toString 10 (totalQuestions r);
     toString 10 (timeSpent r / 60) ++ ":" ++ padStart (toString 10 (Z.rem (timeSpent r) 60)) 2 "0"%char].
Proof. unfold render_results. destruct (passed r); split; view_simpl; by rewrite ?str_app_nil_r. Qed.

(** The nodes of a one-element page that carry a class. *)
Lemma by_class_single c v : [v] ≫= by_class c = by_class c v.
Proof. simpl. by rewrite app_nil_r. Qed.


(** ** What the question screen shows *)

Section QuestionView.
Context {Sn : Type} `{!Session Sn} (sess : Sn) (fmt_date : string -> string).

(** C10. On every page the buttons and the timer reach, the question screen
    is consistent with the store: there is one dot per question of the
    exam; exactly one dot is marked current, the one at
    [currentQuestionIndex]; the counter [k / N respondidas] reads the
    number of dots marked answered and the number of dots; at most one
    option is marked selected; [Anterior] is disabled exactly on the first
    question; and [Finalizar] is shown exactly on the last dot. *)
Theorem exam_question_view p q :
  page_reachable sess p -> screen (exam (world p)) = QuestionScreen q ->
  let s := exam (world p) in
  let find_all c := render_exam_page fmt_date (session_user sess) p ≫= by_class c in
  List.length (find_all "dot") = List.length (questions sampleExam) /\
  (exists d, find_all "current" = [d] /\ find_all "dot" !! Z.to_nat (currentQuestionIndex s) = Some d) /\
  text_of <$> find_all "progress-answered" =
    [toString 10 (Z.of_nat (List.length (find_all "answered"))) ++ " / " ++
     toString 10 (Z.of_nat (List.length (find_all "dot"))) ++ " respondidas"] /\
  List.length (find_all "selected") <= 1 /\
  attr "disabled" <$> find_all "prev" = [if (currentQuestionIndex s =? 0)%Z then Some "" else None] /\
  List.length (find_all "complete") =
    (if (Z.of_nat (S (Z.to_nat (currentQuestionIndex s))) =? Z.of_nat (List.length (find_all "dot")))%Z
     then 1 else 0).
Proof.
  intros Hr Hs s find_all. subst s find_all.
  destruct (screen_question _ _ Hs) as (e & He & Hi0 & Hq).
  destruct (page_exam_sample sess p Hr) as [He'|He']; rewrite He in He'; [done|]. injection He' as ->.
  destruct (page_reachable_world_ok sess p Hr) as [Hwf _]. unfold wf in Hwf. rewrite He in Hwf.
  destruct Hwf as (_ & [Hnd Hok] & _).
  unfold render_exam_page. rewrite Hs, He, !by_class_single.
  set (rq := render_question _ _ _ _).
  assert (Hpart : forall c, c ∈ read_classes -> by_class c rq =
    (by_class c (question_progress (exam (world p)) sampleExam) ++ by_class c (question_card (exam (world p)) q) ++
     by_class c (question_nav (exam (world p)) sampleExam) ++ [])%list).
  { intros c Hc. subst rq. rewrite render_question_by_class; last first.
    { intros ->. unfold read_classes in Hc.
      repeat (apply elem_of_cons in Hc as [Hc|Hc]; [discriminate|]). by apply elem_of_nil in Hc. }
    by destruct (showConfirm p); rewrite ?render_modal_by_class. }
  destruct (question_nav_reads (exam (world p)) sampleExam) as (Hd & Hc & Ha & Hsn & Hpn & Hp & Hcn).
  rewrite !Hpart by compute_done.
  rewrite (question_progress_by_class "dot"), (question_progress_by_class "current"), (question_progress_by_class "answered"), (question_progress_by_class "selected"), (question_progress_by_class "prev"), (question_progress_by_class "complete")
    by (compute_done || discriminate).
  rewrite (question_card_by_class "dot"), (question_card_by_class "current"), (question_card_by_class "answered"), (question_card_by_class "prev"), (question_card_by_class "complete"), (question_card_by_class "progress-answered")
    by (compute_done || discriminate).
  rewrite Hd, Hc, Ha, Hsn, Hpn, question_card_selected, ?app_nil_l, ?app_nil_r.
  rewrite render_dots_length. split_and!.
  - done.
  - exists (render_dot (exam (world p)) (0 + Z.to_nat (currentQuestionIndex (exam (world p)))) q).
    split; [apply filter_current; [done|lia]|by apply render_dots_lookup].
  - rewrite question_progress_answered, filter_answered_length. unfold is_answered.
    rewrite (answered_count _ _ sampleExam_ids_NoDup' Hnd); [done|].
    eapply Forall_impl; [exact Hok|]. intros a (q' & Hf & _). exists q'. exact Hf.
  - apply filter_selected_length.
  - done.
  - rewrite Hcn.
    destruct (Z.eqb_spec (currentQuestionIndex (exam (world p))) (Z.of_nat (List.length (questions sampleExam)) - 1)),
      (Z.eqb_spec (Z.of_nat (S (Z.to_nat (currentQuestionIndex (exam (world p))))))
                  (Z.of_nat (List.length (questions sampleExam)))); lia.
Qed.

(** The results card of a reachable page: the label says [Aprobado]
    exactly when the score reaches the passing score of 70, and the four
    statistics read the correct and wrong answers, which add up to the 10
    questions, and a time of at most 15 minutes written [m:ss]. *)
Theorem exam_results_view p r :
  page_reachable sess p -> screen (exam (world p)) = ResultsScreen r ->
  let find_all c := render_exam_page fmt_date (session_user sess) p ≫= by_class c in
  text_of <$> find_all "score-label" = [if passed r then "Aprobado" else "No aprobado"] /\
  (passed r = true <-> exists z, score r = JNum z /\ (70 <= z)%Z) /\
  text_of <$> find_all "stat-value" =
    [toString 10 (correctAnswers r); toString 10 (wrongAnswers r); toString 10 (totalQuestions r);
     toString 10 (timeSpent r / 60) ++ ":" ++ padStart (toString 10 (Z.rem (timeSpent r) 60)) 2 "0"%char] /\
  (correctAnswers r + wrongAnswers r = totalQuestions r)%Z /\ totalQuestions r = 10%Z /\
  (0 <= timeSpent r <= 15 * 60)%Z.
Proof.
  intros Hr Hs find_all. subst find_all.
  destruct (screen_results _ _ Hs) as (Hst & Hc & Hres).
  destruct (page_reachable_world_ok sess p Hr) as [Hwf _]. unfold wf in Hwf.
  destruct (currentExam (exam (world p))) as [e|] eqn:He; [|destruct Hwf as (_ & _ & _ & Hf & _); congruence].
  destruct (page_exam_sample sess p Hr) as [He'|He']; rewrite He in He'; [done|]. injection He' as ->.
  destruct Hwf as (_ & _ & _ & _ & _ & Hok).
  destruct (Hok r Hres) as (_ & Htot & _ & Hwrong & Htime & Hscore & _).
  unfold render_exam_page. rewrite Hs, !by_class_single.
  destruct (render_results_reads fmt_date (session_user sess) r) as [-> ->].
  rewrite Htot in Hscore |- *. simpl in Hscore, Htime. destruct Hscore as (z & Hz & _).
  split_and!; try done; try lia. unfold passed. rewrite Hz. simpl. split.
  - intros H%Z.leb_le. eauto.
  - intros (z' & [= <-] & H). by apply Z.leb_le.
Qed.

End QuestionView.

(** The second question, after answering the first. *)
Lemma exam_question_view_witness :
  let P := page_dispatch (None : option User) UNext demo_env
             (page_dispatch (None : option User) (UOption 1) demo_env (started_page demo_env)) in
  page_reachable (None : option User) P /\
  exists q, screen (exam (world P)) = QuestionScreen q /\
    List.length (render_exam_page (fun d => d) None P ≫= by_class "dot") = List.length (questions sampleExam).
Proof.
  intros P.
  assert (Hr : page_reachable (None : option User) P).
  { exists Absent. split; [done|].
    apply (rtc_l _ _ (started_page demo_env)); [apply (page_step_event _ UStart demo_env); exact I|].
    eapply rtc_l; [apply (page_step_event _ (UOption 1) demo_env); simpl; lia|].
    apply rtc_once, (page_step_event _ UNext demo_env). simpl. discriminate. }
  split; [exact Hr|].
  destruct (screen (exam (world P))) as [|r|q|] eqn:Hs; try (vm_compute in Hs; discriminate).
  exists q. split; [done|]. apply (proj1 (exam_question_view (None : option User) (fun d => d) P q Hr Hs)).
Defined.

End ExamView.
