(* ===== verification/Validation.v ===== *)
(** * Validation: the input checks and the escaping of [store/authStore.ts]

    - [EMAIL_REGEX] (line 15), [/^[a-zA-Z0-9._%+-]+@[a-zA-Z0-9.-]+\.[a-zA-Z]{2,}$/],
      as the executable matcher [email_test] and, beside it, the language of
      the regular expression as a proposition [email_lang];
    - [validatePasswordStrength] (lines 18-35), whose checks run in order
      and report the first that fails;
    - [sanitizeInput] (lines 38-46), the chain of global [replace] calls,
      and the single-pass escaping [escape_html] it computes.
    Strings are Rocq strings of 8-bit characters: an ASCII input is the
    JavaScript string of the same characters. *)

From stdpp Require Import base tactics.
From Stdlib Require Import String Ascii Bool Arith Lia List.
From S2P Require Import Prelude.

Import ListNotations.
#[local] Open Scope string_scope.

Module Validation.

(** ** Character classes *)

Definition in_range (lo hi : nat) (c : ascii) : bool :=
  Nat.leb lo (nat_of_ascii c) && Nat.leb (nat_of_ascii c) hi.

(** [A-Z], [a-z], [\d] (without the [u] flag: [0-9] only). *)
Definition is_upper : ascii -> bool := in_range 65 90.
Definition is_lower : ascii -> bool := in_range 97 122.
Definition is_digit : ascii -> bool := in_range 48 57.
Definition is_alpha (c : ascii) : bool := is_upper c || is_lower c.
Definition is_alnum (c : ascii) : bool := is_alpha c || is_digit c.

Fixpoint char_in (set : string) (c : ascii) : bool :=
  match set with
  | EmptyString => false
  | String x set' => Ascii.eqb c x || char_in set' c
  end.

Fixpoint all_chars (p : ascii -> bool) (s : string) : bool :=
  match s with
  | EmptyString => true
  | String c s' => p c && all_chars p s'
  end.

Fixpoint any_char (p : ascii -> bool) (s : string) : bool :=
  match s with
  | EmptyString => false
  | String c s' => p c || any_char p s'
  end.

(** [[a-zA-Z0-9._%+-]] and [[a-zA-Z0-9.-]] *)
Definition is_local_char (c : ascii) : bool := is_alnum c || char_in "._%+-" c.
Definition is_domain_char (c : ascii) : bool := is_alnum c || char_in ".-" c.

(** ** [EMAIL_REGEX.test] *)

(** [[a-zA-Z]{2,}$] *)
Definition tld_ok (t : string) : bool := Nat.leb 2 (String.length t) && all_chars is_alpha t.

(** [[a-zA-Z0-9.-]+\.[a-zA-Z]{2,}$], with [seen] telling whether a domain
    character has been consumed already: every ['.'] after one is a
    candidate for the separating [\.], as the backtracking matcher tries. *)
Fixpoint domain_tld (seen : bool) (s : string) : bool :=
  match s with
  | EmptyString => false
  | String c s' =>
      (seen && Ascii.eqb c "." && tld_ok s') || (is_domain_char c && domain_tld true s')
  end.

(** [^[a-zA-Z0-9._%+-]+@]: the local part contains no ['@'], so the
    separator is the first ['@']. *)
Fixpoint email_local (seen : bool) (s : string) : bool :=
  match s with
  | EmptyString => false
  | String c s' =>
      if Ascii.eqb c "@" then seen && domain_tld false s'
      else is_local_char c && email_local true s'
  end.

Definition email_test (s : string) : bool := email_local false s.

(** The language of the regular expression. *)
Definition email_lang (s : string) : Prop :=
  exists l d t, s = l ++ String "@" (d ++ String "." t) /\
    l <> "" /\ all_chars is_local_char l = true /\
    d <> "" /\ all_chars is_domain_char d = true /\ tld_ok t = true.

(** ** [validatePasswordStrength] *)

Record PasswordCheck := mkPasswordCheck { valid : bool; message : string }.

(** The character class of the fifth check, line 31 (its duplicates
    removed); the double quote is written by its code, 34. *)
Definition dquote : ascii := ascii_of_nat 34.
Definition SPECIAL_CHARS : string :=
  "@$!%*?&.,#^()_+-=[]{};':" ++ String dquote "\|<>/`~".

Definition validatePasswordStrength (password : string) : PasswordCheck :=
  if Nat.ltb (String.length password) 12 then
    mkPasswordCheck false "La contraseña debe tener al menos 12 caracteres"
  else if negb (any_char is_upper password) then
    mkPasswordCheck false "La contraseña debe contener al menos una mayúscula"
  else if negb (any_char is_lower password) then
    mkPasswordCheck false "La contraseña debe contener al menos una minúscula"
  else if negb (any_char is_digit password) then
    mkPasswordCheck false "La contraseña debe contener al menos un número"
  else if negb (any_char (char_in SPECIAL_CHARS) password) then
    mkPasswordCheck false "La contraseña debe contener al menos un carácter especial"
  else mkPasswordCheck true "Contraseña válida".

(** The conjunction of the five requirements. *)
Definition strong_password (p : string) : Prop :=
  12 <= String.length p /\ any_char is_upper p = true /\ any_char is_lower p = true /\
  any_char is_digit p = true /\ any_char (char_in SPECIAL_CHARS) p = true.

(** ** [sanitizeInput] *)

(** [s.replace(/c/g, r)] for a one-character pattern. *)
Fixpoint replace_all (c : ascii) (r : string) (s : string) : string :=
  match s with
  | EmptyString => EmptyString
  | String x s' => if Ascii.eqb x c then r ++ replace_all c r s' else String x (replace_all c r s')
  end.

Definition sanitizeInput (input : string) : string :=
  replace_all "/" "&#x2F;"
    (replace_all "'" "&#x27;"
      (replace_all dquote "&quot;"
        (replace_all ">" "&gt;"
          (replace_all "<" "&lt;"
            (replace_all "&" "&amp;" input))))).

(** The entity of one character. *)
Definition escape_char (c : ascii) : string :=
  if Ascii.eqb c "&" then "&amp;"
  else if Ascii.eqb c "<" then "&lt;"
  else if Ascii.eqb c ">" then "&gt;"
  else if Ascii.eqb c dquote then "&quot;"
  else if Ascii.eqb c "'" then "&#x27;"
  else if Ascii.eqb c "/" then "&#x2F;"
  else String c EmptyString.

Fixpoint escape_html (s : string) : string :=
  match s with
  | EmptyString => EmptyString
  | String c s' => escape_char c ++ escape_html s'
  end.

(** Decoding of the six entities, as an HTML parser does for text. *)
Fixpoint decode_entities (s : string) : string :=
  match s with
  | String "&" (String "a" (String "m" (String "p" (String ";" s')))) => String "&" (decode_entities s')
  | String "&" (String "l" (String "t" (String ";" s'))) => String "<" (decode_entities s')
  | String "&" (String "g" (String "t" (String ";" s'))) => String ">" (decode_entities s')
  | String "&" (String "q" (String "u" (String "o" (String "t" (String ";" s'))))) =>
      String dquote (decode_entities s')
  | String "&" (String "#" (String "x" (String "2" (String "7" (String ";" s'))))) =>
      String "'" (decode_entities s')
  | String "&" (String "#" (String "x" (String "2" (String "F" (String ";" s'))))) =>
      String "/" (decode_entities s')
  | String c s' => String c (decode_entities s')
  | EmptyString => EmptyString
  end.

(** The characters [sanitizeInput] leaves as they are. *)
Definition plain (c : ascii) : bool := negb (char_in "&<>'/" c) && negb (Ascii.eqb c dquote).

(** The characters [sanitizeInput] removes from its output. *)
Definition markup_free (c : ascii) : bool := negb (char_in "<>'/" c) && negb (Ascii.eqb c dquote).

(** * Lemmas *)

Lemma all_chars_app p s1 s2 : all_chars p (s1 ++ s2) = all_chars p s1 && all_chars p s2.
Proof. induction s1 as [|c s1 IH]; simpl; [reflexivity|]. rewrite IH. apply andb_assoc. Qed.

(** ** The email matcher against the regular expression *)

Lemma domain_tld_spec seen s :
  domain_tld seen s = true <->
  exists d t, s = d ++ String "." t /\ (seen = true \/ d <> "") /\
    all_chars is_domain_char d = true /\ tld_ok t = true.
Proof.
  revert seen; induction s as [|c s IH]; intros seen; simpl.
  - split; [discriminate|]. intros (d & t & H & _). destruct d; discriminate.
  - rewrite orb_true_iff, !andb_true_iff, IH. split.
    + intros [[[Hseen Hc] Ht]|[Hc (d & t & -> & _ & Hd & Ht)]].
      * apply Ascii.eqb_eq in Hc as ->. exists "", s. auto.
      * exists (String c d), t.
        split_and!; [reflexivity|right; discriminate|simpl; by rewrite Hc, Hd|exact Ht].
    + intros (d & t & Hs & Hne & Hd & Ht). destruct d as [|c' d]; simpl in Hs.
      * injection Hs as -> ->. left. destruct Hne as [->|]; [|done].
        rewrite Ascii.eqb_refl. auto.
      * injection Hs as -> ->. simpl in Hd. apply andb_true_iff in Hd as [Hc Hd].
        right. split; [done|]. exists d, t. auto.
Qed.

Lemma email_local_spec seen s :
  email_local seen s = true <->
  exists l rest, s = l ++ String "@" rest /\ (seen = true \/ l <> "") /\
    all_chars is_local_char l = true /\ domain_tld false rest = true.
Proof.
  revert seen; induction s as [|c s IH]; intros seen; simpl.
  - split; [discriminate|]. intros (l & r & H & _). destruct l; discriminate.
  - destruct (Ascii.eqb_spec c "@") as [->|Hc].
    + rewrite andb_true_iff. split.
      * intros [-> Hd]. exists "", s. auto.
      * intros (l & r & Hs & Hne & Hl & Hd). destruct l as [|c' l]; simpl in Hs.
        -- injection Hs as ->. destruct Hne as [->|]; [auto|done].
        -- injection Hs as Hc' _. subst c'. simpl in Hl. discriminate.
    + rewrite andb_true_iff, IH. split.
      * intros [Hc' (l & r & -> & _ & Hl & Hd)]. exists (String c l), r.
        split_and!; [reflexivity|right; discriminate|simpl; by rewrite Hc', Hl|exact Hd].
      * intros (l & r & Hs & Hne & Hl & Hd). destruct l as [|c' l]; simpl in Hs.
        -- by injection Hs as ->.
        -- injection Hs as -> ->. simpl in Hl. apply andb_true_iff in Hl as [Hc' Hl].
           split; [done|]. exists l, r. auto.
Qed.

(** Every string [email_test] accepts is in the language of the regular
    expression. *)
Lemma email_test_lang s : email_test s = true -> email_lang s.
Proof.
  unfold email_test, email_lang. rewrite email_local_spec.
  intros (l & r & -> & [Hf|Hl] & Hloc & Hd); [discriminate|].
  apply domain_tld_spec in Hd as (d & t & -> & [Hf|Hd] & Hdom & Ht); [discriminate|].
  exists l, d, t. split_and!; auto.
Qed.

(** [email_test] decides exactly the language of [EMAIL_REGEX]: a
    non-empty local part of [[a-zA-Z0-9._%+-]], an ['@'], a non-empty domain
    of [[a-zA-Z0-9.-]], a ['.'] and at least two letters. *)
Theorem email_test_spec s : email_test s = true <-> email_lang s.
Proof.
  split; [apply email_test_lang|].
  unfold email_test, email_lang. rewrite email_local_spec.
  intros (l & d & t & -> & Hl & Hloc & Hd & Hdom & Ht).
  exists l, (d ++ String "." t). split_and!; auto.
  apply domain_tld_spec. exists d, t. auto.
Qed.

(** C18. [validatePasswordStrength] accepts a password exactly when it has
    at least 12 characters, an upper-case letter, a lower-case letter, a
    digit and one of the special characters. *)
Theorem validatePasswordStrength_valid p :
  valid (validatePasswordStrength p) = true <-> strong_password p.
Proof.
  unfold validatePasswordStrength, strong_password.
  destruct (Nat.ltb_spec (String.length p) 12) as [Hlen|Hlen]; [simpl; split; [discriminate|lia]|].
  destruct (any_char is_upper p), (any_char is_lower p), (any_char is_digit p),
    (any_char (char_in SPECIAL_CHARS) p); simpl;
    (split; [intros Hv; split_and!; first [lia|reflexivity|discriminate]
            |intros (? & ? & ? & ? & ?); first [reflexivity|discriminate]]).
Qed.

(** ** The replace chain *)

Lemma replace_all_app c r s1 s2 :
  replace_all c r (s1 ++ s2) = replace_all c r s1 ++ replace_all c r s2.
Proof.
  induction s1 as [|x s1 IH]; [reflexivity|]. rewrite str_app_cons. simpl.
  rewrite IH. destruct (Ascii.eqb x c); [apply eq_sym, str_app_assoc|reflexivity].
Qed.

(** Case analysis on the equalities with the six escaped characters. *)
Ltac escaped_cases c :=
  repeat (simpl; match goal with
  | |- context [Ascii.eqb c ?d] => destruct (Ascii.eqb_spec c d) as [->|]
  end).

Lemma sanitizeInput_cons c s : sanitizeInput (String c s) = escape_char c ++ sanitizeInput s.
Proof.
  rewrite (str_cons_app c s). unfold sanitizeInput. rewrite !replace_all_app.
  f_equal. unfold escape_char. escaped_cases c; reflexivity.
Qed.

(** C14. The chain of six global [replace] calls of [sanitizeInput]
    computes the single-pass escaping of each character by its entity: the
    ampersand is replaced first, and no later replacement introduces a
    character that a later one rewrites. *)
Theorem sanitizeInput_escape_html s : sanitizeInput s = escape_html s.
Proof.
  induction s as [|c s IH]; [reflexivity|]. by rewrite sanitizeInput_cons, IH.
Qed.

(** ** Decoding, safety, and the inputs it leaves alone *)

Lemma decode_plain c s : c <> "&"%char -> decode_entities (String c s) = String c (decode_entities s).
Proof.
  intros Hc. destruct c as [[] [] [] [] [] [] [] []]; try reflexivity. by destruct Hc.
Qed.

Lemma decode_escape_char c s : decode_entities (escape_char c ++ s) = String c (decode_entities s).
Proof.
  unfold escape_char.
  destruct (Ascii.eqb_spec c "&") as [->|H1]; [reflexivity|].
  escaped_cases c; try reflexivity. by apply decode_plain.
Qed.

(** C19. Round trip: decoding the entities of a sanitized string gives the
    original string back, so the escaping loses no information. *)
Theorem sanitizeInput_roundtrip s : decode_entities (sanitizeInput s) = s.
Proof.
  induction s as [|c s IH]; [reflexivity|].
  by rewrite sanitizeInput_cons, decode_escape_char, IH.
Qed.

(** Output safety: the sanitized string contains none of [<], [>],
    ['], [/] and the double quote. *)
Theorem sanitizeInput_markup_free s : all_chars markup_free (sanitizeInput s) = true.
Proof.
  induction s as [|c s IH]; [reflexivity|].
  rewrite sanitizeInput_cons, all_chars_app, IH, andb_true_r.
  unfold escape_char. escaped_cases c; try reflexivity.
  unfold markup_free. simpl.
  repeat match goal with
  | H : c <> ?d |- _ => apply Ascii.eqb_neq in H; rewrite H; clear H
  end. reflexivity.
Qed.

Lemma escape_char_plain c : plain c = true -> escape_char c = String c EmptyString.
Proof.
  intros Hc. unfold escape_char.
  escaped_cases c; try (vm_compute in Hc; discriminate); reflexivity.
Qed.

Lemma sanitizeInput_plain s : all_chars plain s = true -> sanitizeInput s = s.
Proof.
  induction s as [|c s IH]; [reflexivity|]. simpl. intros [Hc Hs]%andb_true_iff.
  rewrite sanitizeInput_cons, escape_char_plain, IH by done. reflexivity.
Qed.

Lemma all_chars_impl (p q : ascii -> bool) s :
  (forall c, p c = true -> q c = true) -> all_chars p s = true -> all_chars q s = true.
Proof.
  intros Hpq. induction s as [|c s IH]; simpl; [done|].
  intros [Hc Hs]%andb_true_iff. by rewrite Hpq, IH.
Qed.

Lemma domain_char_plain c : is_domain_char c = true -> plain c = true.
Proof. destruct c as [[] [] [] [] [] [] [] []]; vm_compute; congruence. Qed.

Lemma local_char_plain c : is_local_char c = true -> plain c = true.
Proof. destruct c as [[] [] [] [] [] [] [] []]; vm_compute; congruence. Qed.

Lemma alpha_plain c : is_alpha c = true -> plain c = true.
Proof. destruct c as [[] [] [] [] [] [] [] []]; vm_compute; congruence. Qed.

(** Every address [EMAIL_REGEX] accepts is left unchanged by
    [sanitizeInput]: none of its characters is one the sanitizer escapes. *)
Lemma sanitizeInput_email_id s : email_test s = true -> sanitizeInput s = s.
Proof.
  intros (l & d & t & -> & _ & Hl & _ & Hd & Ht)%email_test_lang.
  apply andb_true_iff in Ht as [_ Ht].
  apply sanitizeInput_plain. rewrite !all_chars_app. simpl.
  rewrite all_chars_app. simpl.
  rewrite (all_chars_impl _ _ l local_char_plain Hl), (all_chars_impl _ _ d domain_char_plain Hd),
    (all_chars_impl _ _ t alpha_plain Ht).
  reflexivity.
Qed.


End Validation.
