(* ===== verification/AuthStore.v ===== *)
(** * AuthStore: the zustand store [useAuthStore] of [store/authStore.ts]

    The session collaborator of the exam store. [AuthState] is the store's
    state; [login] is [async] and suspends once, on the 800 ms
    [setTimeout]: the code before it ([login_begin]: the loading flag and
    the two format checks) runs when the form is submitted, the code after
    it ([login_finish]: the demo-user lookup, [verifyPassword] and the final
    [set]) runs when the timer fires, and any other action may run in
    between. [System] pairs the state with the queue of pending logins, and
    [sys_step] is the event loop over both. [generateSecureId()] is the
    fresh identifier each finishing login receives. *)

From stdpp Require Import base list strings relations.
From Stdlib Require Import ZArith Lia Ascii String.
From S2P Require Import Prelude ExamTypes Validation.

Import Validation.

Module AuthStore.

#[local] Open Scope string_scope.

Record AuthState := mkAuthState {
  user : option User;
  isAuthenticated : bool;
  isLoading : bool;
  error : option string
}.

Definition initialAuth : AuthState := mkAuthState None false false None.

(** The store is the session the exam store reads. *)
#[export] Instance auth_session : Session AuthState := user.

Record LoginCredentials := mkCredentials {
  cred_email : string;
  cred_password : string;
  cred_company : string
}.

(** [Omit<User, 'id'>] *)
Record DemoUser := mkDemoUser { d_name : string; d_email : string; d_company : string; d_role : Role }.

(** [DEMO_USERS] (lines 74-93). A JavaScript object also answers the names
    of [Object.prototype] ([toString], [constructor], ...); none of them
    passes [EMAIL_REGEX], which [login] checks first, so the association
    list answers every lookup the code can make. *)
Definition DEMO_USERS : list (string * DemoUser) := [
  ("demo@gnp.com", mkDemoUser "Juan Pérez" "demo@gnp.com" "GNP" Agent);
  ("demo@axa.com", mkDemoUser "María García" "demo@axa.com" "AXA" Agent);
  ("demo@banorte.com", mkDemoUser "Carlos López" "demo@banorte.com" "Banorte" Supervisor)
].

Fixpoint assoc_lookup {A} (k : string) (l : list (string * A)) : option A :=
  match l with
  | [] => None
  | (k', v) :: l' => if String.eqb k k' then Some v else assoc_lookup k l'
  end.

(** [verifyPassword(password, _hash)] (lines 53-58): the hash is ignored. *)
Definition verifyPassword (password : string) : bool :=
  valid (validatePasswordStrength password) && Nat.leb 12 (String.length password).

(** [credentials.email.split('@')[0]] *)
Fixpoint before_at (s : string) : string :=
  match s with
  | EmptyString => EmptyString
  | String c s' => if Ascii.eqb c "@"%char then EmptyString else String c (before_at s')
  end.

(** The [catch] block: the sanitized message, loading off. *)
Definition fail_with (msg : string) (s : AuthState) : AuthState :=
  mkAuthState (user s) (isAuthenticated s) false (Some (sanitizeInput msg)).

(** [login], up to the [await]: [set({isLoading: true, error: null})], then
    the email and password checks, a failing one landing in the [catch].
    The boolean says whether the login continues after the timer. *)
Definition login_begin (c : LoginCredentials) (s : AuthState) : AuthState * bool :=
  let s1 := mkAuthState (user s) (isAuthenticated s) true None in
  if negb (email_test (cred_email c)) then (fail_with "Formato de email inválido" s1, false)
  else
    let passwordValidation := validatePasswordStrength (cred_password c) in
    if negb (valid passwordValidation) then (fail_with (message passwordValidation) s1, false)
    else (s1, true).

(** The user [login] creates (lines 133-141). *)
Definition make_user (c : LoginCredentials) (freshId : string) (demo : option DemoUser) : User :=
  match demo with
  | Some d => mkUser freshId (d_name d) (d_email d) (d_company d) (d_role d) None
  | None =>
      mkUser freshId (sanitizeInput (before_at (cred_email c))) (sanitizeInput (cred_email c))
        (sanitizeInput (cred_company c)) Agent None
  end.

(** [login], after the [await]: the demo lookup, [verifyPassword] for
    other addresses, and the final [set] (which keeps [error]). *)
Definition login_finish (c : LoginCredentials) (freshId : string) (s : AuthState) : AuthState :=
  let demoUser := assoc_lookup (cred_email c) DEMO_USERS in
  let success := mkAuthState (Some (make_user c freshId demoUser)) true false (error s) in
  match demoUser with
  | None => if verifyPassword (cred_password c) then success else fail_with "Credenciales inválidas" s
  | Some _ => success
  end.

Definition logout (s : AuthState) : AuthState := mkAuthState None false (isLoading s) None.

Definition clearError (s : AuthState) : AuthState :=
  mkAuthState (user s) (isAuthenticated s) (isLoading s) None.

Definition setLoading (loading : bool) (s : AuthState) : AuthState :=
  mkAuthState (user s) (isAuthenticated s) loading (error s).

(** Reloading the page: [persist] restores [user] and [isAuthenticated]
    ([partialize], lines 176-179); the other fields take their initial
    values. *)
Definition rehydrate (s : AuthState) : AuthState :=
  mkAuthState (user s) (isAuthenticated s) false None.

(** [login] run to its end with no other event in between. *)
Definition login (c : LoginCredentials) (freshId : string) (s : AuthState) : AuthState :=
  let '(s1, cont) := login_begin c s in
  if cont then login_finish c freshId s1 else s1.

(** A sample of credentials for the demo account. *)
Definition demo_credentials : LoginCredentials :=
  mkCredentials "demo@gnp.com" "Capacita2025!" "GNP".

(** ** The event loop *)

Record System := mkSystem { auth : AuthState; pending : list LoginCredentials }.

Inductive AuthEvent :=
| ELogin (c : LoginCredentials)
| ETimer (freshId : string)
| ELogout
| EClearError
| ESetLoading (b : bool)
| EReload.

(** A login that passes its checks queues its continuation; timers of the
    same delay fire in the order they were set. A reload drops the pending
    continuations with the page. *)
Definition sys_dispatch (ev : AuthEvent) (sy : System) : System :=
  match ev with
  | ELogin c =>
      let '(s', cont) := login_begin c (auth sy) in
      mkSystem s' (if cont then pending sy ++ [c] else pending sy)
  | ETimer freshId =>
      match pending sy with
      | [] => sy
      | c :: rest => mkSystem (login_finish c freshId (auth sy)) rest
      end
  | ELogout => mkSystem (logout (auth sy)) (pending sy)
  | EClearError => mkSystem (clearError (auth sy)) (pending sy)
  | ESetLoading b => mkSystem (setLoading b (auth sy)) (pending sy)
  | EReload => mkSystem (rehydrate (auth sy)) []
  end.

Inductive sys_step : System -> System -> Prop :=
| sys_step_dispatch ev sy : sys_step sy (sys_dispatch ev sy).

Definition initialSystem : System := mkSystem initialAuth [].

(** The identity invariant: authenticated exactly when a user is set, and
    every user's email is one [EMAIL_REGEX] accepts. *)
Definition auth_ok (s : AuthState) : Prop :=
  (isAuthenticated s = true <-> is_Some (user s)) /\
  (forall u, user s = Some u -> email_test (email u) = true).

(** Queued logins have passed the email check. *)
Definition sys_ok (sy : System) : Prop :=
  auth_ok (auth sy) /\ Forall (fun c => email_test (cred_email c) = true) (pending sy).

(** * Lemmas *)

Lemma demo_users_email k d : assoc_lookup k DEMO_USERS = Some d -> email_test (d_email d) = true.
Proof.
  unfold DEMO_USERS; simpl.
  repeat (destruct (String.eqb k _); [intros [= <-]; reflexivity|]). discriminate.
Qed.

Lemma verifyPassword_valid p : valid (validatePasswordStrength p) = true -> verifyPassword p = true.
Proof.
  intros Hv. unfold verifyPassword. rewrite Hv, andb_true_l.
  apply Nat.leb_le. revert Hv. unfold validatePasswordStrength.
  destruct (Nat.ltb_spec (String.length p) 12); [discriminate|]. intros _. lia.
Qed.

Lemma sanitize_password_message p :
  sanitizeInput (message (validatePasswordStrength p)) = message (validatePasswordStrength p).
Proof. unfold validatePasswordStrength. repeat case_match; reflexivity. Qed.

Lemma make_user_email c freshId :
  email_test (cred_email c) = true ->
  email_test (email (make_user c freshId (assoc_lookup (cred_email c) DEMO_USERS))) = true.
Proof.
  intros Hc. destruct (assoc_lookup (cred_email c) DEMO_USERS) as [d|] eqn:Hd; simpl.
  - by apply (demo_users_email (cred_email c)).
  - by rewrite sanitizeInput_email_id.
Qed.

Lemma auth_ok_login_begin c s : auth_ok s -> auth_ok (login_begin c s).1.
Proof. unfold login_begin. intros Hok. by repeat case_match. Qed.

Lemma login_begin_cont c s :
  (login_begin c s).2 = true ->
  email_test (cred_email c) = true /\ valid (validatePasswordStrength (cred_password c)) = true.
Proof.
  unfold login_begin. destruct (email_test (cred_email c)); simpl; [|discriminate].
  destruct (valid (validatePasswordStrength (cred_password c))); simpl; [auto|discriminate].
Qed.

Lemma auth_ok_login_finish c freshId s :
  email_test (cred_email c) = true -> auth_ok s -> auth_ok (login_finish c freshId s).
Proof.
  intros Hc Hok. unfold login_finish.
  assert (Hsucc : auth_ok (mkAuthState (Some (make_user c freshId (assoc_lookup (cred_email c) DEMO_USERS)))
                             true false (error s))).
  { split; [split; [intros _; eexists; reflexivity|done]|].
    intros u [= <-]. by apply make_user_email. }
  by repeat case_match.
Qed.

Lemma sys_ok_dispatch ev sy : sys_ok sy -> sys_ok (sys_dispatch ev sy).
Proof.
  intros [Hok Hpend]. destruct ev as [c|freshId| | | |]; simpl.
  - pose proof (auth_ok_login_begin c (auth sy) Hok) as Hb.
    pose proof (login_begin_cont c (auth sy)) as Hcont.
    destruct (login_begin c (auth sy)) as [s' []]; simpl in *; split; [done| |done|done].
    apply Forall_app. split; [done|]. constructor; [by apply Hcont|constructor].
  - destruct (pending sy) as [|c rest] eqn:Hp; [split; [done|by rewrite Hp]|]. apply Forall_cons in Hpend as [Hc Hrest].
    split; [by apply auth_ok_login_finish|done].
  - split; [|done]. split; [split; [discriminate|by intros []]|done].
  - by split.
  - by split.
  - split; [done|constructor].
Qed.

Lemma sys_ok_step sy sy' : sys_step sy sy' -> sys_ok sy -> sys_ok sy'.
Proof. intros [ev sy0]. apply sys_ok_dispatch. Qed.

(** * Theorems *)

Lemma sys_ok_initial : sys_ok initialSystem.
Proof. split; [split; [split; [discriminate|by intros []]|done]|constructor]. Qed.

Lemma sys_ok_rtc sy sy' : sys_ok sy -> rtc sys_step sy sy' -> sys_ok sy'.
Proof.
  intros Hok Hrtc. induction Hrtc as [|sy0 sy1 sy2 Hstep _ IH]; [done|].
  apply IH. by apply (sys_ok_step sy0 sy1).
Qed.

(** C11. Every state of the session store reachable by any interleaving of
    form submissions, timer firings, logouts, error clearing, loading
    toggles and page reloads is authenticated exactly when a user is set,
    every user's email is one [EMAIL_REGEX] accepts (the sanitizer leaves
    such an address as typed), and every queued login has passed the email
    check. *)
Theorem reachable_sys_ok sy : rtc sys_step initialSystem sy -> sys_ok sy.
Proof. apply sys_ok_rtc, sys_ok_initial. Qed.

Lemma reachable_sys_ok_witness :
  rtc sys_step initialSystem
    (sys_dispatch (ETimer "u1") (sys_dispatch (ELogin demo_credentials) initialSystem)) /\
  sys_ok (sys_dispatch (ETimer "u1") (sys_dispatch (ELogin demo_credentials) initialSystem)).
Proof.
  assert (H : rtc sys_step initialSystem
    (sys_dispatch (ETimer "u1") (sys_dispatch (ELogin demo_credentials) initialSystem))).
  { eapply rtc_l; [apply sys_step_dispatch|]. eapply rtc_l; [apply sys_step_dispatch|].
    apply rtc_refl. }
  split; [exact H|]. apply (reachable_sys_ok _ H).
Defined.

(** C12. The outcome of a login with no other event during its delay: with
    a well-formed email and a strong password it always succeeds, with the
    demo profile for a demo address and an agent named after the local part
    otherwise ([verifyPassword] repeats the strength check, so the
    ['Credenciales inválidas'] branch is unreachable); otherwise it records
    the message of the first failing check, leaving the previous identity in
    place. *)
Theorem login_spec c freshId s :
  login c freshId s =
    if email_test (cred_email c) then
      if valid (validatePasswordStrength (cred_password c)) then
        mkAuthState (Some (make_user c freshId (assoc_lookup (cred_email c) DEMO_USERS))) true false None
      else mkAuthState (user s) (isAuthenticated s) false
             (Some (message (validatePasswordStrength (cred_password c))))
    else mkAuthState (user s) (isAuthenticated s) false (Some "Formato de email inválido").
Proof.
  unfold login, login_begin.
  destruct (email_test (cred_email c)); [|reflexivity].
  cbn -[assoc_lookup make_user validatePasswordStrength sanitizeInput].
  destruct (valid (validatePasswordStrength (cred_password c))) eqn:Hv;
    cbn -[assoc_lookup make_user validatePasswordStrength sanitizeInput].
  - unfold login_finish. destruct (assoc_lookup _ _); [reflexivity|].
    by rewrite verifyPassword_valid.
  - unfold fail_with. by rewrite sanitize_password_message.
Qed.

(** The first successful step of a login: both checks pass and the login
    waits on its timer. *)
Lemma login_begin_ok c s :
  email_test (cred_email c) = true -> valid (validatePasswordStrength (cred_password c)) = true ->
  login_begin c s = (mkAuthState (user s) (isAuthenticated s) true None, true).
Proof. intros He Hv. unfold login_begin. by rewrite He, Hv. Qed.

(** The end of a login whose checks passed succeeds. *)
Lemma login_finish_ok c freshId s :
  valid (validatePasswordStrength (cred_password c)) = true ->
  login_finish c freshId s =
    mkAuthState (Some (make_user c freshId (assoc_lookup (cred_email c) DEMO_USERS))) true false (error s).
Proof.
  intros Hv. unfold login_finish. destruct (assoc_lookup _ _); [done|]. by rewrite verifyPassword_valid.
Qed.

Lemma before_at_local l r : all_chars is_local_char l = true -> before_at (l ++ String "@" r) = l.
Proof.
  induction l as [|c l IH]; simpl; [done|]. intros [Hc Hl]%andb_true_iff.
  destruct (Ascii.eqb_spec c "@") as [->|_]; [by vm_compute in Hc|]. by rewrite IH.
Qed.

(** C17. The logout/login race: from any state with no login waiting, a
    login whose checks pass, then a logout while it waits on its timer,
    leaves the session logged out; but the logout does not cancel the
    login: when the timer fires the user of the login is authenticated,
    although the last action taken was the logout. *)
Theorem logout_during_login_reauthenticates sy c freshId :
  pending sy = [] -> email_test (cred_email c) = true ->
  valid (validatePasswordStrength (cred_password c)) = true ->
  let sy2 := sys_dispatch ELogout (sys_dispatch (ELogin c) sy) in
  let sy3 := sys_dispatch (ETimer freshId) sy2 in
  isAuthenticated (auth sy2) = false /\ user (auth sy2) = None /\ pending sy2 = [c] /\
  isAuthenticated (auth sy3) = true /\
  user (auth sy3) = Some (make_user c freshId (assoc_lookup (cred_email c) DEMO_USERS)) /\
  pending sy3 = [].
Proof.
  intros Hp He Hv sy2 sy3. subst sy2 sy3. simpl. rewrite login_begin_ok by done. simpl.
  rewrite Hp. simpl. rewrite login_finish_ok by done. done.
Qed.

Lemma logout_during_login_reauthenticates_witness :
  pending initialSystem = [] /\ email_test (cred_email demo_credentials) = true /\
  valid (validatePasswordStrength (cred_password demo_credentials)) = true /\
  isAuthenticated (auth (sys_dispatch (ETimer "u1")
    (sys_dispatch ELogout (sys_dispatch (ELogin demo_credentials) initialSystem)))) = true.
Proof.
  assert (H1 : pending initialSystem = []) by reflexivity.
  assert (H2 : email_test (cred_email demo_credentials) = true) by (vm_compute; reflexivity).
  assert (H3 : valid (validatePasswordStrength (cred_password demo_credentials)) = true) by (vm_compute; reflexivity).
  split_and!; [exact H1|exact H2|exact H3|].
  apply (logout_during_login_reauthenticates initialSystem demo_credentials "u1" H1 H2 H3).
Defined.

(** C13. The identity of a user created by a login: for an address
    [EMAIL_REGEX] accepts that is not a demo account, with a password the
    checks accept, the login authenticates a user whose email is exactly
    the address typed ([sanitizeInput] leaves it unchanged) and whose name
    is its local part, the non-empty text before the [@]. *)
Theorem login_user_identity c freshId s :
  email_test (cred_email c) = true -> valid (validatePasswordStrength (cred_password c)) = true ->
  assoc_lookup (cred_email c) DEMO_USERS = None ->
  exists u, user (login c freshId s) = Some u /\ isAuthenticated (login c freshId s) = true /\
    email u = cred_email c /\ name u <> "" /\ exists rest, cred_email c = name u ++ String "@" rest.
Proof.
  intros He Hv Hd. unfold login. rewrite login_begin_ok, login_finish_ok, Hd by done.
  destruct (email_test_lang _ He) as (l & d & t & Heq & Hl & Hloc & _).
  assert (Hn : sanitizeInput (before_at (cred_email c)) = l).
  { rewrite Heq, before_at_local by done. exact (sanitizeInput_plain _ (all_chars_impl _ _ _ local_char_plain Hloc)). }
  eexists. split_and!; [reflexivity|reflexivity|by apply sanitizeInput_email_id|..]; simpl; rewrite Hn; [done|by eexists].
Qed.

Lemma login_user_identity_witness :
  let c := mkCredentials "ana.lopez@aseguradora.mx" "Segura#2024ab" "GNP" in
  email_test (cred_email c) = true /\ valid (validatePasswordStrength (cred_password c)) = true /\
  assoc_lookup (cred_email c) DEMO_USERS = None /\
  exists u, user (login c "id1" initialAuth) = Some u /\ email u = cred_email c.
Proof.
  intros c. assert (H1 : email_test (cred_email c) = true) by (vm_compute; reflexivity).
  assert (H2 : valid (validatePasswordStrength (cred_password c)) = true) by (vm_compute; reflexivity).
  assert (H3 : assoc_lookup (cred_email c) DEMO_USERS = None) by (vm_compute; reflexivity).
  split_and!; [exact H1|exact H2|exact H3|].
  destruct (login_user_identity c "id1" initialAuth H1 H2 H3) as (u & Hu & _ & He & _). eauto.
Defined.

End AuthStore.
