(* ===== verification/Security.v ===== *)
(** * Security: the helpers of [utils/security.ts]

    [sanitizeString] (lines 4-15), [isValidEmail] (18-21), [isValidPassword]
    (24-26), [isValidCompany] (29-32), [sanitizeCredentials] (35-45) and
    [generateSessionToken] (48-52). No module of the application imports
    [utils/security.ts]; its functions are modelled as written, and the
    theorems say what they do for a caller. In the source the first four
    replacements of [sanitizeString] replace a character by itself
    ([.replace(/&/g, '&')], and likewise for [<], [>] and the double quote),
    so that only ['] and [/] are escaped. The 32 random bytes that
    [crypto.getRandomValues] writes are the argument of
    [generateSessionToken]. *)

From stdpp Require Import base tactics list.
From Stdlib Require Import ZArith Lia Ascii String Bool.
From S2P Require Import Prelude Validation AuthStore.

Import Validation AuthStore.

Module Security.

#[local] Open Scope string_scope.

(** The parameter of type [unknown]: a string, or any other value. *)
Inductive Unknown :=
| UString (s : string)
| UOther.

(** ** [String.prototype.trim] *)

(** The white space and line terminators [trim] removes, among the code
    units below 256: tab, line feed, vertical tab, form feed, carriage
    return, space and no-break space. *)
Definition is_js_space (c : ascii) : bool :=
  in_range 9 13 c || Nat.eqb (nat_of_ascii c) 32 || Nat.eqb (nat_of_ascii c) 160.

Fixpoint trimStart (s : string) : string :=
  match s with
  | EmptyString => EmptyString
  | String c s' => if is_js_space c then trimStart s' else s
  end.

Fixpoint trimEnd (s : string) : string :=
  match s with
  | EmptyString => EmptyString
  | String c s' =>
      let t := trimEnd s' in
      if is_js_space c && String.eqb t EmptyString then EmptyString else String c t
  end.

Definition trim (s : string) : string := trimEnd (trimStart s).

(** ** [sanitizeString] *)

(** The six global replacements as written, the first four replacing a
    character by itself, then [trim]. *)
Definition sanitizeString (input : Unknown) : string :=
  match input with
  | UOther => EmptyString
  | UString input =>
      trim
        (replace_all "/" "&#x2F;"
          (replace_all "'" "&#x27;"
            (replace_all dquote (String dquote EmptyString)
              (replace_all ">" ">"
                (replace_all "<" "<"
                  (replace_all "&" "&" input))))))
  end.

(** ** Validators *)

(** [isValidEmail] tests the same regular expression as [EMAIL_REGEX] of
    the auth store. *)
Definition isValidEmail (email : string) : bool := email_test email.

Definition isValidPassword (password : string) : bool := Nat.leb 4 (String.length password).

Definition validCompanies : list string :=
  ["GNP"; "AXA"; "Banorte"; "BBVA"; "Chubb"; "HSBC"; "MetLife"; "Primero"].

(** [Array.prototype.includes] compares strings by value. *)
Definition isValidCompany (company : string) : bool :=
  existsb (String.eqb company) validCompanies.

(** ** [sanitizeCredentials] *)

(** [String.prototype.toLowerCase] on the code units below 256: [A-Z] and
    [À-Þ] except the multiplication sign (215) move up by 32. *)
Definition lower_char (c : ascii) : ascii :=
  if in_range 65 90 c || (in_range 192 222 c && negb (Nat.eqb (nat_of_ascii c) 215))
  then ascii_of_nat (nat_of_ascii c + 32) else c.

Fixpoint toLowerCase (s : string) : string :=
  match s with
  | EmptyString => EmptyString
  | String c s' => String (lower_char c) (toLowerCase s')
  end.

Definition sanitizeCredentials (credentials : LoginCredentials) : LoginCredentials :=
  mkCredentials
    (toLowerCase (sanitizeString (UString (cred_email credentials))))
    (cred_password credentials)
    (sanitizeString (UString (cred_company credentials))).

(** ** [generateSessionToken] *)

(** [new Uint8Array(32)] *)
Definition TOKEN_BYTES : nat := 32.

(** [Array.prototype.join('')] *)
Fixpoint join (l : list string) : string :=
  match l with
  | [] => EmptyString
  | x :: l' => x ++ join l'
  end.

(** [byte => byte.toString(16).padStart(2, '0')] *)
Definition byteToHex (byte : Z) : string := padStart (toString 16 byte) 2 "0".

(** [Array.from(array, byteToHex).join('')], [array] being the bytes the
    random generator wrote. *)
Definition generateSessionToken (array : list Z) : string := join (map byteToHex array).

(** [generateSecureId] of [store/authStore.ts] and [store/examStore.ts]:
    the same encoding of 16 random bytes, the ids of users and results. *)
Definition SECURE_ID_BYTES : nat := 16.

Definition generateSecureId (array : list Z) : string := join (map byteToHex array).

(** Reading a token back, two hexadecimal digits per byte (used to state the
    round trip). *)
Definition hex_digit (c : ascii) : option Z :=
  match digit_value c with
  | Some d => if (d <? 16)%Z then Some d else None
  | None => None
  end.

Fixpoint decode_hex (s : string) : option (list Z) :=
  match s with
  | EmptyString => Some []
  | String h (String l s') =>
      match hex_digit h, hex_digit l, decode_hex s' with
      | Some a, Some b, Some rest => Some ((16 * a + b)%Z :: rest)
      | _, _, _ => None
      end
  | String _ EmptyString => None
  end.

(** The characters [sanitizeString] leaves in place and [trim] keeps. *)
Definition kept_char (c : ascii) : bool :=
  negb (char_in "'/" c) && negb (is_js_space c).

(** A string whose first character, if any, is not white space. *)
Definition no_lead (s : string) : Prop :=
  match s with
  | EmptyString => True
  | String c _ => is_js_space c = false
  end.

(** The characters the two effective replacements of [sanitizeString]
    remove. *)
Definition no_quote_slash (c : ascii) : bool := negb (char_in "'/" c).

(** * Lemmas *)

(** ** Replacements *)

Lemma replace_all_self c s : replace_all c (String c EmptyString) s = s.
Proof.
  induction s as [|x s IH]; simpl; [done|]. rewrite IH.
  by destruct (Ascii.eqb_spec x c) as [->|].
Qed.

Lemma replace_all_absent c r s :
  all_chars (fun x => negb (Ascii.eqb x c)) s = true -> replace_all c r s = s.
Proof.
  induction s as [|x s IH]; simpl; [done|]. intros [Hx Hs]%andb_true_iff.
  apply negb_true_iff in Hx. by rewrite Hx, IH.
Qed.

(** A replacement whose text satisfies [p] yields a string satisfying [p]
    when every other character does. *)
Lemma replace_all_all p c r s :
  all_chars p r = true -> all_chars (fun x => p x || Ascii.eqb x c) s = true ->
  all_chars p (replace_all c r s) = true.
Proof.
  intros Hr. induction s as [|x s IH]; simpl; [done|]. intros [Hx Hs]%andb_true_iff.
  destruct (Ascii.eqb x c) eqn:Hxc.
  - by rewrite all_chars_app, Hr, IH.
  - rewrite orb_false_r in Hx. simpl. by rewrite Hx, IH.
Qed.

Lemma all_chars_true (p : ascii -> bool) s : (forall c, p c = true) -> all_chars p s = true.
Proof. intros Hp. induction s as [|c s IH]; simpl; [done|]. by rewrite Hp, IH. Qed.

(** The identity replacements of [sanitizeString] drop out. *)
Lemma sanitizeString_eq s :
  sanitizeString (UString s) = trim (replace_all "/" "&#x2F;" (replace_all "'" "&#x27;" s)).
Proof. unfold sanitizeString. by rewrite !replace_all_self. Qed.

(** ** [trim] *)

Lemma all_chars_trimStart p s : all_chars p s = true -> all_chars p (trimStart s) = true.
Proof.
  induction s as [|c s IH]; simpl; [done|]. intros Hs.
  apply andb_true_iff in Hs as Hcs. destruct (is_js_space c); [naive_solver|done].
Qed.

Lemma all_chars_trimEnd p s : all_chars p s = true -> all_chars p (trimEnd s) = true.
Proof.
  induction s as [|c s IH]; simpl; [done|]. intros [Hc Hs]%andb_true_iff.
  case_match; simpl; [done|]. by rewrite Hc, IH.
Qed.

Lemma all_chars_trim p s : all_chars p s = true -> all_chars p (trim s) = true.
Proof. intros Hs. by apply all_chars_trimEnd, all_chars_trimStart. Qed.

Lemma trimStart_no_lead s : no_lead (trimStart s).
Proof.
  induction s as [|c s IH]; simpl; [done|]. destruct (is_js_space c) eqn:Hc; [done|]. exact Hc.
Qed.

Lemma trimEnd_no_lead s : no_lead s -> trimStart (trimEnd s) = trimEnd s.
Proof. destruct s as [|c s]; simpl; [done|]. intros Hc. rewrite Hc. simpl. by rewrite Hc. Qed.

Lemma trimEnd_idem s : trimEnd (trimEnd s) = trimEnd s.
Proof.
  induction s as [|c s IH]; simpl; [done|].
  destruct (is_js_space c && String.eqb (trimEnd s) EmptyString) eqn:Hc; [done|].
  simpl. by rewrite IH, Hc.
Qed.

Lemma trim_idem s : trim (trim s) = trim s.
Proof.
  unfold trim. rewrite trimEnd_no_lead by apply trimStart_no_lead. apply trimEnd_idem.
Qed.

(** A string with no white space at either end is its own [trim]. *)
Lemma trimStart_id s : no_lead s -> trimStart s = s.
Proof. destruct s as [|c s]; simpl; [done|]. by intros ->. Qed.

Lemma trim_no_space s : all_chars (fun c => negb (is_js_space c)) s = true -> trim s = s.
Proof.
  intros Hs. unfold trim. rewrite trimStart_id.
  - induction s as [|c s IH]; simpl in *; [done|].
    apply andb_true_iff in Hs as [Hc Hs]. apply negb_true_iff in Hc. by rewrite Hc, IH.
  - destruct s as [|c s]; simpl in *; [done|]. apply andb_true_iff in Hs as [Hc _].
    by apply negb_true_iff.
Qed.

(** ** Output of [sanitizeString] *)

Lemma sanitizeString_safe u : all_chars no_quote_slash (sanitizeString u) = true.
Proof.
  destruct u as [s|]; [|done]. rewrite sanitizeString_eq. apply all_chars_trim.
  apply replace_all_all; [done|]. apply replace_all_all; [done|].
  apply all_chars_true. intros c. unfold no_quote_slash. simpl.
  by destruct (Ascii.eqb c "'"), (Ascii.eqb c "/").
Qed.

Lemma no_quote_slash_absent s :
  all_chars no_quote_slash s = true ->
  all_chars (fun x => negb (Ascii.eqb x "'")) s = true /\
  all_chars (fun x => negb (Ascii.eqb x "/")) s = true.
Proof.
  intros Hs. split; (eapply all_chars_impl; [|exact Hs]);
    intros c; unfold no_quote_slash; simpl; by destruct (Ascii.eqb c "'"), (Ascii.eqb c "/").
Qed.

Lemma sanitizeString_kept s : all_chars kept_char s = true -> sanitizeString (UString s) = s.
Proof.
  intros Hs. rewrite sanitizeString_eq.
  destruct (no_quote_slash_absent s) as [H1 H2].
  { eapply all_chars_impl; [|exact Hs]. intros c. unfold kept_char, no_quote_slash.
    by destruct (negb (char_in "'/" c)). }
  rewrite (replace_all_absent _ _ s H1), (replace_all_absent _ _ s H2).
  apply trim_no_space. eapply all_chars_impl; [|exact Hs]. intros c. unfold kept_char.
  by destruct (negb (is_js_space c)), (negb (char_in "'/" c)).
Qed.

Lemma local_char_kept c : is_local_char c = true -> kept_char c = true.
Proof. destruct c as [[] [] [] [] [] [] [] []]; vm_compute; congruence. Qed.

Lemma domain_char_kept c : is_domain_char c = true -> kept_char c = true.
Proof. destruct c as [[] [] [] [] [] [] [] []]; vm_compute; congruence. Qed.

Lemma alpha_kept c : is_alpha c = true -> kept_char c = true.
Proof. destruct c as [[] [] [] [] [] [] [] []]; vm_compute; congruence. Qed.

(** Every address [isValidEmail] accepts is made of characters
    [sanitizeString] keeps. *)
Lemma isValidEmail_kept s : isValidEmail s = true -> all_chars kept_char s = true.
Proof.
  intros (l & d & t & -> & _ & Hl & _ & Hd & Ht)%email_test_lang.
  apply andb_true_iff in Ht as [_ Ht]. rewrite !all_chars_app. simpl.
  rewrite all_chars_app. simpl.
  rewrite (all_chars_impl _ _ l local_char_kept Hl), (all_chars_impl _ _ d domain_char_kept Hd),
    (all_chars_impl _ _ t alpha_kept Ht).
  reflexivity.
Qed.

(** ** Tokens *)

Lemma hex_digit_char d : (0 <= d < 16)%Z -> hex_digit (digit_char d) = Some d.
Proof.
  intros Hd. unfold hex_digit. rewrite digit_value_char by lia.
  by replace (d <? 16)%Z with true by (symmetry; apply Z.ltb_lt; lia).
Qed.

Lemma byteToHex_digits b :
  (0 <= b < 256)%Z ->
  byteToHex b = String (digit_char (b / 16)) (String (digit_char (b mod 16)) EmptyString).
Proof. intros Hb. apply padStart_two_digits; lia. Qed.

Lemma decode_byteToHex b s :
  (0 <= b < 256)%Z ->
  decode_hex (byteToHex b ++ s) = (fun rest => b :: rest) <$> decode_hex s.
Proof.
  intros Hb. rewrite byteToHex_digits by lia.
  change (String ?x (String ?y EmptyString) ++ s) with (String x (String y s)). simpl.
  assert (0 <= b / 16 < 16)%Z by (split; [apply Z.div_pos|apply Z.div_lt_upper_bound]; lia).
  assert (0 <= b mod 16 < 16)%Z by (apply Z.mod_pos_bound; lia).
  rewrite !hex_digit_char by lia.
  destruct (decode_hex s); simpl; [|done]. do 2 f_equal. pose proof (Z.div_mod b 16). lia.
Qed.

(** The encoding shared by [generateSessionToken] and [generateSecureId]. *)
Lemma hex_join_roundtrip array :
  Forall (fun b => 0 <= b < 256)%Z array ->
  decode_hex (join (map byteToHex array)) = Some array /\
  String.length (join (map byteToHex array)) = (2 * List.length array)%nat.
Proof.
  induction 1 as [|b array Hb _ [IH Hlen]]; [done|].
  simpl. rewrite decode_byteToHex, IH by done. split; [done|].
  rewrite str_length_app, Hlen, byteToHex_digits by lia. simpl. lia.
Qed.

(** * Theorems *)

(** C20. [sanitizeString] does not escape markup: a string with no ['] and
    no [/] and no white space at its ends comes out unchanged, with its
    [<], [>], [&] and double quotes, because the first four replacements
    replace each of these characters by itself. *)
Theorem sanitizeString_passes_markup s :
  all_chars no_quote_slash s = true -> trim s = s -> sanitizeString (UString s) = s.
Proof.
  intros Hs Htrim. rewrite sanitizeString_eq.
  destruct (no_quote_slash_absent s Hs) as [H1 H2].
  by rewrite (replace_all_absent _ _ s H1), (replace_all_absent _ _ s H2).
Qed.

Lemma sanitizeString_passes_markup_witness :
  sanitizeString (UString "<img src=x onerror=alert(1)>") = "<img src=x onerror=alert(1)>".
Proof. apply sanitizeString_passes_markup; vm_compute; reflexivity. Defined.

(** [sanitizeString] is idempotent: sanitizing its output changes
    nothing, since the output has no ['] or [/] and no white space at its
    ends. *)
Theorem sanitizeString_idempotent u :
  sanitizeString (UString (sanitizeString u)) = sanitizeString u.
Proof.
  rewrite sanitizeString_eq.
  destruct (no_quote_slash_absent _ (sanitizeString_safe u)) as [H1 H2].
  rewrite (replace_all_absent _ _ _ H1), (replace_all_absent _ _ _ H2).
  destruct u as [s|]; [|done]. rewrite sanitizeString_eq. apply trim_idem.
Qed.

(** [sanitizeCredentials] leaves an address [isValidEmail] accepts as
    it is, only lower-cased, and the password untouched. *)
Theorem sanitizeCredentials_email c :
  isValidEmail (cred_email c) = true ->
  sanitizeCredentials c =
  mkCredentials (toLowerCase (cred_email c)) (cred_password c)
    (sanitizeString (UString (cred_company c))).
Proof.
  intros He. unfold sanitizeCredentials.
  by rewrite (sanitizeString_kept _ (isValidEmail_kept _ He)).
Qed.

Lemma sanitizeCredentials_email_witness :
  isValidEmail "Demo@GNP.com" = true /\
  sanitizeCredentials (mkCredentials "Demo@GNP.com" "Capacita2025!" " GNP ") =
  mkCredentials "demo@gnp.com" "Capacita2025!" "GNP".
Proof.
  split; [vm_compute; reflexivity|].
  rewrite (sanitizeCredentials_email (mkCredentials "Demo@GNP.com" "Capacita2025!" " GNP "))
    by (vm_compute; reflexivity).
  vm_compute. reflexivity.
Defined.

(** Round trip of the session token and of the secure ids: for bytes in
    [0, 255] the string has two hexadecimal digits per byte, and reading
    them back gives the bytes; 32 bytes give a 64-character token. *)
Theorem generateSessionToken_roundtrip array :
  Forall (fun b => 0 <= b < 256)%Z array ->
  decode_hex (generateSessionToken array) = Some array /\
  decode_hex (generateSecureId array) = Some array /\
  String.length (generateSessionToken array) = (2 * List.length array)%nat.
Proof.
  intros Hb. destruct (hex_join_roundtrip array Hb) as [Hdec Hlen]. by split_and!.
Qed.

Lemma generateSessionToken_roundtrip_witness :
  let array := (map Z.of_nat (seq 200 TOKEN_BYTES)) in
  decode_hex (generateSessionToken array) = Some array /\
  String.length (generateSessionToken array) = 64%nat.
Proof.
  cbv zeta. destruct (generateSessionToken_roundtrip (map Z.of_nat (seq 200 TOKEN_BYTES)))
    as [Hdec Hlen].
  { vm_compute. repeat constructor; discriminate. }
  split; [exact Hdec|]. destruct Hlen as [_ Hlen]. rewrite Hlen. reflexivity.
Defined.

End Security.
