(* ===== verification/Ayuda.v ===== *)
(** * Ayuda: the help chat of [pages/Ayuda.tsx]

    The page keeps three pieces of React state, [input], [messages] and
    [isTyping] ([Chat]); each reply is produced by a [setTimeout] of one
    second, so the queries whose timers have not fired yet are part of the
    state ([pending], oldest first: all timers have the same delay). The
    events are typing ([onChange]), submitting the form ([handleSend]),
    clicking a quick suggestion ([setInput(cat); handleSend()], whose
    [handleSend] still sees the [input] of the render it was created in),
    and a timer firing ([processResponse]'s callback). React text nodes
    show a message's [text] as it is: an entity stored in [text] appears
    literally on the screen. Strings hold the page's characters as code
    units below 256 (Latin-1), so the accented letters of the texts are
    single characters as in JavaScript. *)

From stdpp Require Import base tactics list relations.
From Stdlib Require Import ZArith Lia Ascii String Bool.
From S2P Require Import Prelude View Validation AuthStore Security.

Import View Validation Security.

Module Ayuda.

#[local] Open Scope string_scope.

(** ** [sanitizeInput] and [sanitizeOutput] (lines 8-26) *)

Definition sanitizeInput (input : string) : string :=
  if String.eqb input "" then "" else
  replace_all "}" "&#x7D;"
    (replace_all "{" "&#x7B;"
      (replace_all ")" "&#x29;"
        (replace_all "(" "&#x28;"
          (replace_all "/" "&#x2F;"
            (replace_all "'" "&#x27;"
              (replace_all dquote "&quot;"
                (replace_all ">" "&gt;"
                  (replace_all "<" "&lt;"
                    (replace_all "&" "&amp;" input))))))))).

Definition sanitizeOutput (text : string) : string := sanitizeInput text.

(** The entity of one character, and the single-pass escaping. *)
Definition escape_char (c : ascii) : string :=
  if Ascii.eqb c "&" then "&amp;"
  else if Ascii.eqb c "<" then "&lt;"
  else if Ascii.eqb c ">" then "&gt;"
  else if Ascii.eqb c dquote then "&quot;"
  else if Ascii.eqb c "'" then "&#x27;"
  else if Ascii.eqb c "/" then "&#x2F;"
  else if Ascii.eqb c "(" then "&#x28;"
  else if Ascii.eqb c ")" then "&#x29;"
  else if Ascii.eqb c "{" then "&#x7B;"
  else if Ascii.eqb c "}" then "&#x7D;"
  else String c EmptyString.

(** The characters the page's [sanitizeInput] leaves as they are. *)
Definition plain (c : ascii) : bool := negb (char_in "&<>'/(){}" c) && negb (Ascii.eqb c dquote).

(** The characters that never appear in the output of [sanitizeInput]. *)
Definition markup_free (c : ascii) : bool :=
  negb (char_in "<>'/(){}" c) && negb (Ascii.eqb c dquote).

(** ** The FAQ data (lines 29-46) *)

Record FAQItem := mkFAQItem { pregunta : string; respuesta : string; categoria : string }.

Definition faqData : list FAQItem :=
  [mkFAQItem (ch 191 ++ "C" ++ ch 243 ++ "mo accedo a los cursos?")
     ("Desde el panel principal, haz clic en " ++ String dquote ("Ver Cursos" ++ String dquote "..."))
     "Cursos"].

Definition fallback : string :=
  "Lo siento, no encontr" ++ ch 233 ++ " una respuesta espec" ++ ch 237 ++ "fica. " ++
  ch 191 ++ "Podr" ++ ch 237 ++ "as intentar con otras palabras o contactar a soporte@cnsf.gob.mx?".

Definition greeting : string :=
  ch 161 ++ "Hola! Soy tu asistente de CNSF. " ++ ch 191 ++ "En qu" ++ ch 233 ++ " puedo ayudarte hoy?".

(** The quick suggestions (line 154). *)
Definition suggestions : list string := ["Cursos"; "Ex" ++ ch 225 ++ "menes"; "Certificados"].

(** ** Messages and the chat state (lines 35-40, 50-59) *)

Inductive Sender := Bot | UserSender.

#[export] Instance Sender_eq_dec : EqDecision Sender.
Proof. solve_decision. Defined.

(** [timestamp] is the [Date] as milliseconds, like [id]. *)
Record Message := mkMessage { msg_id : Z; text : string; sender : Sender; timestamp : Z }.

Record Chat := mkChat {
  input : string;
  messages : list Message;
  isTyping : bool;
  pending : list string
}.

Definition initialChat (now : Z) : Chat :=
  mkChat "" [mkMessage 1 greeting Bot now] false [].

(** [String.prototype.includes] *)
Fixpoint includes (s sub : string) : bool :=
  String.prefix sub s ||
  match s with
  | EmptyString => false
  | String _ s' => includes s' sub
  end.

(** The search of [processResponse] (lines 94-99). *)
Definition matches (lowerQuery : string) (faq : FAQItem) : bool :=
  includes lowerQuery (toLowerCase (pregunta faq)) ||
  includes lowerQuery (toLowerCase (categoria faq)) ||
  includes (toLowerCase (respuesta faq)) lowerQuery.

Definition responseText (query : string) : string :=
  match find (matches (toLowerCase query)) faqData with
  | Some m => sanitizeOutput (respuesta m)
  | None => sanitizeOutput fallback
  end.

(** ** Handlers *)

(** [handleSend] (lines 67-84) with [processResponse] (lines 86-88): the
    user's message, the typing flag, the timer, and the cleared input. *)
Definition handleSend (now : Z) (c : Chat) : Chat :=
  let query := trim (input c) in
  if String.eqb query "" then c
  else
    let userMsg := mkMessage now (sanitizeInput query) UserSender now in
    mkChat "" (messages c ++ [userMsg]) true (pending c ++ [query]).

(** The timer callback of [processResponse] (lines 90-115) for the oldest
    pending query. *)
Definition respond (now : Z) (c : Chat) : Chat :=
  match pending c with
  | [] => c
  | query :: rest =>
      let botResponse := mkMessage (now + 1) (responseText query) Bot now in
      mkChat (input c) (messages c ++ [botResponse]) false rest
  end.

(** A quick suggestion: [setInput(cat)] is queued first, then [handleSend()]
    runs on the [input] of the current render; its [setInput('')], when it
    sends, comes last. *)
Definition suggest (cat : string) (now : Z) (c : Chat) : Chat :=
  let sent := handleSend now c in
  mkChat (if String.eqb (trim (input c)) "" then cat else input sent)
    (messages sent) (isTyping sent) (pending sent).

Inductive ChatEvent :=
| EType (value : string)
| ESubmit (now : Z)
| ESuggest (cat : string) (now : Z)
| EFire (now : Z).

Definition chat_dispatch (ev : ChatEvent) (c : Chat) : Chat :=
  match ev with
  | EType value => mkChat value (messages c) (isTyping c) (pending c)
  | ESubmit now => handleSend now c
  | ESuggest cat now => suggest cat now c
  | EFire now => respond now c
  end.

(** The rendered page offers the three suggestions; a timer fires only
    while one is pending. *)
Definition chat_enabled (ev : ChatEvent) (c : Chat) : Prop :=
  match ev with
  | ESuggest cat _ => cat ∈ suggestions
  | EFire _ => pending c <> []
  | _ => True
  end.

Inductive chat_step : Chat -> Chat -> Prop :=
| chat_step_event ev c : chat_enabled ev c -> chat_step c (chat_dispatch ev c).

Definition chat_reachable (c : Chat) : Prop :=
  exists now, rtc chat_step (initialChat now) c.

(** ** What the page renders (lines 118-177) *)

Section Render.

(** [toLocaleTimeString([], { hour: '2-digit', minute: '2-digit' })]
    depends on the browser's locale: a parameter. *)
Variable fmt_time : Z -> string.

Definition sender_name (w : Sender) : string := match w with Bot => "bot" | UserSender => "user" end.

(** One message (lines 133-140): its text as a text node, then its time. *)
Definition render_message (m : Message) : vnode :=
  el "div" ("message-wrapper " ++ sender_name (sender m)) [
    el "div" "message-bubble" [VText (text m); el "span" "message-time" [VText (fmt_time (timestamp m))]]].

Definition typing_indicator : vnode :=
  el "div" "message-wrapper bot" [
    el "div" "message-bubble typing" [VText "Escribiendo"; el "span" "" [VText "."];
                                      el "span" "" [VText "."]; el "span" "" [VText "."]]].

(** The page: header, the messages and the typing indicator, the three
    suggestion buttons, the form, the footer. The back arrow and the send
    button's emoji, outside Latin-1, are kept as their UTF-8 bytes. *)
Definition render_chat (c : Chat) : vnode :=
  el "div" "ayuda-container-chat" [
    el "header" "ayuda-header" [
      el "button" "back-button" [VText "← Volver"];
      el "div" "header-info" [el "h1" "" [VText "Asistente Virtual CNSF"];
                              el "span" "status-online" [VText ("En l" ++ ch 237 ++ "nea ahora")]]];
    el "main" "chat-window" [
      el "div" "messages-container" (map render_message (messages c) ++ when (isTyping c) typing_indicator ++ [el "div" "" []])%list;
      el "div" "quick-suggestions" (map (fun cat => el "button" "" [VText cat]) suggestions);
      el "form" "input-area" [
        VElem "input" "" [("type", "text"); ("placeholder", "Escribe tu duda aqu" ++ ch 237 ++ "..."); ("value", input c)] [];
        VElem "button" "send-btn" [("type", "submit")] [VText "✈️"]]];
    el "footer" "chat-footer" [el "p" "" [VText (ch 191 ++ "No encuentras lo que buscas? Llama al 55 3000 8000 ext. 1234")]]].

End Render.

Fixpoint escape_html (s : string) : string :=
  match s with
  | EmptyString => EmptyString
  | String c s' => escape_char c ++ escape_html s'
  end.

Definition count_sender (who : Sender) (l : list Message) : nat :=
  List.length (List.filter (fun m => bool_decide (sender m = who)) l).

(** The chat invariant: besides the greeting, each bot message answers one
    user message, and the other user messages are the pending queries; the
    typing indicator is off when nothing is pending; and every message but
    the greeting is free of the characters the sanitizer escapes. *)
Definition chat_ok (c : Chat) : Prop :=
  (count_sender Bot (messages c) + List.length (pending c) = 1 + count_sender UserSender (messages c))%nat /\
  (pending c = [] -> isTyping c = false) /\
  Forall (fun m => all_chars markup_free (text m) = true) (messages c).

(** * Lemmas *)

Lemma chat_sanitize_cons c s : sanitizeInput (String c s) = escape_char c ++ sanitizeInput s.
Proof.
  unfold sanitizeInput. simpl String.eqb. cbv iota.
  destruct (String.eqb_spec s "") as [->|Hs].
  - unfold escape_char. escaped_cases c; reflexivity.
  - rewrite (str_cons_app c s), !replace_all_app. f_equal. unfold escape_char. escaped_cases c; reflexivity.
Qed.

Lemma chat_sanitize_escape_html s : sanitizeInput s = escape_html s.
Proof. induction s as [|c s IH]; [reflexivity|]. by rewrite chat_sanitize_cons, IH. Qed.

Lemma chat_escape_char_plain c : plain c = true -> escape_char c = String c EmptyString.
Proof. destruct c as [[] [] [] [] [] [] [] []]; vm_compute; congruence. Qed.

Lemma escape_char_long c : plain c = false -> (1 < String.length (escape_char c))%nat.
Proof. destruct c as [[] [] [] [] [] [] [] []]; vm_compute; first [discriminate|lia]. Qed.

Lemma escape_char_markup_free c : all_chars markup_free (escape_char c) = true.
Proof. destruct c as [[] [] [] [] [] [] [] []]; vm_compute; reflexivity. Qed.

Lemma escape_html_length s : (String.length s <= String.length (escape_html s))%nat.
Proof.
  induction s as [|c s IH]; simpl; [lia|]. rewrite str_length_app.
  destruct (plain c) eqn:Hc; [rewrite chat_escape_char_plain by done; simpl; lia|].
  pose proof (escape_char_long c Hc). lia.
Qed.

Lemma chat_sanitize_markup_free s : all_chars markup_free (sanitizeInput s) = true.
Proof.
  rewrite chat_sanitize_escape_html. induction s as [|c s IH]; [reflexivity|]. simpl.
  by rewrite all_chars_app, escape_char_markup_free, IH.
Qed.

Lemma count_sender_app who l1 l2 :
  count_sender who (l1 ++ l2) = (count_sender who l1 + count_sender who l2)%nat.
Proof. unfold count_sender. by rewrite List.filter_app, List.length_app. Qed.

Lemma count_sender_single who m :
  count_sender who [m] = if bool_decide (sender m = who) then 1%nat else 0%nat.
Proof. unfold count_sender. simpl. by case_bool_decide. Qed.

(** The count of a sent or answered message. *)
Ltac count_messages :=
  rewrite ?count_sender_app, ?count_sender_single, ?List.length_app; simpl in *;
  repeat case_bool_decide; try congruence; lia.

Lemma chat_ok_initial now : chat_ok (initialChat now).
Proof. split_and!; [reflexivity|done|]. repeat constructor. Qed.

Lemma chat_ok_handleSend now c : chat_ok c -> chat_ok (handleSend now c).
Proof.
  intros Hc. unfold handleSend.
  destruct (String.eqb _ _); [done|]. destruct Hc as (Hcount & _ & Hall).
  split_and!; simpl.
  - count_messages.
  - intros Hp. by destruct (pending c).
  - apply Forall_app. split; [done|]. constructor; [apply chat_sanitize_markup_free|done].
Qed.

Lemma chat_ok_respond now c : chat_ok c -> chat_ok (respond now c).
Proof.
  intros Hc. unfold respond.
  destruct (pending c) as [|q rest] eqn:Hp; [done|]. destruct Hc as (Hcount & _ & Hall).
  rewrite Hp in Hcount.
  split_and!; simpl.
  - count_messages.
  - done.
  - apply Forall_app. split; [done|]. constructor; [|done].
    unfold responseText, sanitizeOutput. case_match; apply chat_sanitize_markup_free.
Qed.

Lemma chat_ok_dispatch ev c : chat_ok c -> chat_ok (chat_dispatch ev c).
Proof.
  intros Hc. destruct ev as [v|now|cat now|now]; simpl.
  - destruct Hc as (? & ? & ?). by split_and!.
  - by apply chat_ok_handleSend.
  - unfold suggest. destruct (chat_ok_handleSend now c Hc) as (? & ? & ?). by split_and!.
  - by apply chat_ok_respond.
Qed.

Lemma chat_step_rtc ev c c' :
  chat_enabled ev c -> rtc chat_step (chat_dispatch ev c) c' -> rtc chat_step c c'.
Proof. intros Hen Hrtc. eapply rtc_l; [constructor; exact Hen|exact Hrtc]. Qed.

(** ** The sanitizer's fixed points *)

Lemma chat_sanitize_plain s : all_chars plain s = true -> sanitizeInput s = s.
Proof.
  rewrite chat_sanitize_escape_html. induction s as [|c s IH]; [done|]. simpl.
  intros [Hc Hs]%andb_true_iff. by rewrite chat_escape_char_plain, IH.
Qed.

Lemma chat_sanitize_changes s : sanitizeInput s = s -> all_chars plain s = true.
Proof.
  rewrite chat_sanitize_escape_html. induction s as [|c s IH]; [done|]. simpl. intros Heq.
  destruct (plain c) eqn:Hc.
  - rewrite chat_escape_char_plain in Heq by done. simpl. injection Heq. apply IH.
  - exfalso. apply (f_equal String.length) in Heq. rewrite str_length_app in Heq. simpl in Heq.
    pose proof (escape_char_long c Hc). pose proof (escape_html_length s). lia.
Qed.

(** ** The rendered messages *)

Lemma by_class_render_message fmt m :
  by_class "message-bubble" (render_message fmt m) =
    [el "div" "message-bubble" [VText (text m); el "span" "message-time" [VText (fmt (timestamp m))]]].
Proof. destruct m as [i t [] ts]; reflexivity. Qed.

(** The bubbles of the page, in order: each message's text exactly as
    stored, followed by its time, then the typing indicator. *)
Lemma render_chat_bubbles fmt c :
  text_of <$> by_class "message-bubble" (render_chat fmt c) =
    (((fun m => String.append (text m) (fmt (timestamp m))) <$> messages c) ++
     (if isTyping c then ["Escribiendo..."] else []))%list.
Proof.
  assert (Hm : forall l, map (render_message fmt) l ≫= by_class "message-bubble" =
    (fun m => el "div" "message-bubble" [VText (text m); el "span" "message-time" [VText (fmt (timestamp m))]]) <$> l).
  { induction l as [|m l IH]; [done|]. csimpl. by rewrite by_class_render_message, IH. }
  unfold render_chat, el. rewrite !by_class_elem. simpl. rewrite app_nil_r, !by_class_elem. simpl.
  assert (Hf : forall l : list Message, text_of <$> ((fun m => el "div" "message-bubble"
                 [VText (text m); el "span" "message-time" [VText (fmt (timestamp m))]]) <$> l) =
               (fun m => String.append (text m) (fmt (timestamp m))) <$> l).
  { induction l as [|m l IH]; [done|]. rewrite !fmap_cons, IH. f_equal. simpl. by rewrite !str_app_nil_r. }
  rewrite app_nil_r, by_class_elem. simpl. rewrite !bind_app, Hm, fmap_app, Hf.
  by destruct (isTyping c).
Qed.

(** * Theorems *)

(** C21. Every state of the chat reachable by typing, sending, clicking the
    suggestions and the reply timers satisfies [chat_ok]: the bot messages
    after the greeting and the pending queries together match the user
    messages one to one, the typing indicator is off when nothing is
    pending, and no message contains [<], [>], quotes, [/], parentheses or
    braces. *)
Theorem chat_reachable_ok c : chat_reachable c -> chat_ok c.
Proof.
  intros (now & Hrtc). pose proof (chat_ok_initial now) as Hinit.
  induction Hrtc as [c|c1 c2 c3 [ev c Hen] _ IH]; [done|].
  by apply IH, chat_ok_dispatch.
Qed.

(** Typing "cursos", sending it and letting the timer fire. *)
Definition faq_chat : Chat :=
  respond 2000 (handleSend 1000 (chat_dispatch (EType "cursos") (initialChat 0))).

Lemma chat_reachable_ok_witness : chat_reachable faq_chat /\ chat_ok faq_chat.
Proof.
  assert (Hr : chat_reachable faq_chat).
  { exists 0%Z. eapply (chat_step_rtc (EType "cursos")); [exact I|].
    eapply (chat_step_rtc (ESubmit 1000)); [exact I|].
    eapply (chat_step_rtc (EFire 2000)); [vm_compute; discriminate|]. reflexivity. }
  split; [exact Hr|]. exact (chat_reachable_ok faq_chat Hr).
Defined.

(** The page's [sanitizeInput] leaves a text unchanged exactly when it
    has none of the ten escaped characters. Since React shows a message's
    text as it is, every message with one of them (a quote, a parenthesis,
    a slash) is shown with entities such as [&quot;] in place of the
    characters. *)
Theorem sanitizeInput_fixed s : sanitizeInput s = s <-> all_chars plain s = true.
Proof. split; [apply chat_sanitize_changes|apply chat_sanitize_plain]. Qed.

(** C22. The answer of the FAQ is shown escaped: when the reply timer of
    a query that matches the FAQ entry fires, the page shows one more
    bubble, after the earlier ones and with no typing line, whose text is
    [sanitizeOutput] of the answer followed by its time; that text reads
    [&quot;Ver Cursos&quot;] and contains no double quote, so the user sees
    the entities instead of the quotes of the answer. *)
Theorem faq_answer_shown_escaped fmt c q rest now faq :
  pending c = q :: rest -> find (matches (toLowerCase q)) faqData = Some faq ->
  text_of <$> by_class "message-bubble" (render_chat fmt (respond now c)) =
    (((fun m => String.append (text m) (fmt (timestamp m))) <$> messages c) ++
     [String.append (sanitizeInput (respuesta faq)) (fmt now)])%list /\
  includes (sanitizeInput (respuesta faq)) "&quot;Ver Cursos&quot;" = true /\
  includes (sanitizeInput (respuesta faq)) (String dquote EmptyString) = false.
Proof.
  intros Hp Hf. unfold respond. rewrite Hp, render_chat_bubbles. simpl.
  rewrite fmap_app, app_nil_r. unfold responseText, sanitizeOutput. rewrite Hf.
  apply find_some in Hf as [Hin _]. simpl in Hin. destruct Hin as [<-|[]].
  split_and!; [done|vm_compute; reflexivity|vm_compute; reflexivity].
Qed.

Lemma faq_answer_shown_escaped_witness :
  pending (handleSend 1000 (chat_dispatch (EType "cursos") (initialChat 0))) = ["cursos"] /\
  find (matches (toLowerCase "cursos")) faqData = Some (hd (mkFAQItem "" "" "") faqData) /\
  includes (sanitizeInput (respuesta (hd (mkFAQItem "" "" "") faqData))) "&quot;Ver Cursos&quot;" = true.
Proof.
  assert (Hp : pending (handleSend 1000 (chat_dispatch (EType "cursos") (initialChat 0))) = ["cursos"])
    by reflexivity.
  assert (Hf : find (matches (toLowerCase "cursos")) faqData = Some (hd (mkFAQItem "" "" "") faqData))
    by (vm_compute; reflexivity).
  split_and!; [exact Hp|exact Hf|].
  apply (faq_answer_shown_escaped (fun _ => "") _ "cursos" [] 2000 _ Hp Hf).
Defined.

(** C23. A quick suggestion does not send its category: with an empty box
    it only puts the category in the box; otherwise it sends what the box
    held before the click and empties it. *)
Theorem suggestion_uses_stale_input cat now c :
  (trim (input c) = "" -> suggest cat now c = mkChat cat (messages c) (isTyping c) (pending c)) /\
  (trim (input c) <> "" ->
   messages (suggest cat now c) =
     (messages c ++ [mkMessage now (sanitizeInput (trim (input c))) UserSender now])%list /\
   input (suggest cat now c) = "").
Proof.
  unfold suggest, handleSend. split.
  - intros ->. reflexivity.
  - intros Hne. apply String.eqb_neq in Hne. by rewrite Hne.
Qed.

Lemma suggestion_uses_stale_input_witness :
  let c := chat_dispatch (EType "hola") (initialChat 0) in
  trim (input c) <> "" /\
  messages (suggest "Certificados" 1000 c) =
    (messages c ++ [mkMessage 1000 "hola" UserSender 1000])%list.
Proof.
  cbv zeta. assert (Hne : trim (input (chat_dispatch (EType "hola") (initialChat 0))) <> "")
    by (vm_compute; discriminate).
  split; [exact Hne|].
  destruct (suggestion_uses_stale_input "Certificados" 1000 (chat_dispatch (EType "hola") (initialChat 0)))
    as [_ H]. rewrite (proj1 (H Hne)). reflexivity.
Defined.

(** C24. The typing indicator goes off while a reply is still pending: in
    any reachable state with two queries pending, the first timer to fire
    turns [isTyping] off although the second reply has not come. *)
Theorem typing_indicator_off_while_pending c now :
  chat_reachable c -> (2 <= List.length (pending c))%nat ->
  chat_step c (respond now c) /\ isTyping (respond now c) = false /\ pending (respond now c) <> [].
Proof.
  intros _ Hlen. split_and!.
  - apply (chat_step_event (EFire now)). simpl. intros Hp. rewrite Hp in Hlen. simpl in Hlen. lia.
  - unfold respond. destruct (pending c); [simpl in Hlen; lia|done].
  - unfold respond. destruct (pending c) as [|q [|q' rest]]; simpl in *; [lia|lia|done].
Qed.

Definition two_pending_chat : Chat :=
  handleSend 2 (chat_dispatch (EType "b") (handleSend 1 (chat_dispatch (EType "a") (initialChat 0)))).

Lemma typing_indicator_off_while_pending_witness :
  chat_reachable two_pending_chat /\ (2 <= List.length (pending two_pending_chat))%nat /\
  isTyping (respond 1000 two_pending_chat) = false /\ pending (respond 1000 two_pending_chat) <> [].
Proof.
  assert (Hr : chat_reachable two_pending_chat).
  { exists 0%Z. eapply (chat_step_rtc (EType "a")); [exact I|].
    eapply (chat_step_rtc (ESubmit 1)); [exact I|].
    eapply (chat_step_rtc (EType "b")); [exact I|].
    eapply (chat_step_rtc (ESubmit 2)); [exact I|]. reflexivity. }
  assert (Hlen : (2 <= List.length (pending two_pending_chat))%nat) by (vm_compute; lia).
  destruct (typing_indicator_off_while_pending two_pending_chat 1000 Hr Hlen) as (_ & Hty & Hp).
  by split_and!.
Defined.

End Ayuda.
