(* ===== verification/Routing.v ===== *)
(** * Routing: the route table of [App.tsx] and the guard [ProtectedRoute]

    [App] renders, for the current path, the element its [Routes] select
    (lines 19-81), reading [isAuthenticated] from the session store. An
    element is a page, a [<Navigate>] to another path, or nothing.
    [ProtectedRoute] ([components/ProtectedRoute.tsx], lines 9-34) renders
    nothing while [isMounted] is false, a [<Navigate to="/login">] without a
    session, and its child otherwise; [isMounted] starts as [true]
    ([useState(true)]), so it is [true] at every render of a mounted guard.
    [resolve] follows the navigations with a bound on their number.
    A [<Route path>] matches as React Router's [matchPath] does for a
    static path: ignoring the case of ASCII letters and any trailing
    slashes ([^/login\/*$] with the [i] flag); the percent-decoding of the
    path is not modelled. *)

From stdpp Require Import base list relations.
From Stdlib Require Import String Ascii Bool Lia.
From S2P Require Import Prelude ExamTypes Validation AuthStore.

Import AuthStore.

Module Routing.

#[local] Open Scope string_scope.

Inductive PageName := PLogin | PDashboard | PSimulator | PCourses | PProgress | PHelp.

#[export] Instance PageName_eq_dec : EqDecision PageName.
Proof. solve_decision. Defined.

Inductive Element :=
| Render (page : PageName)
| NavigateTo (to : string)
| Nothing.

Definition ProtectedRoute (isMounted isAuthenticated : bool) (child : PageName) : Element :=
  if negb isMounted then Nothing
  else if negb isAuthenticated then NavigateTo "/login"
  else Render child.

(** The protected routes, in the order of [App]. *)
Definition protected_routes : list (string * PageName) :=
  [("/dashboard", PDashboard); ("/simulator", PSimulator); ("/courses", PCourses);
   ("/progress", PProgress); ("/help", PHelp)].

(** ASCII case folding of the [i] flag. *)
Definition lower_ascii (c : ascii) : ascii :=
  let n := nat_of_ascii c in if (65 <=? n)%nat && (n <=? 90)%nat then ascii_of_nat (n + 32)%nat else c.

Fixpoint lower_path (s : string) : string :=
  match s with EmptyString => EmptyString | String c s' => String (lower_ascii c) (lower_path s') end.

(** The path without its trailing slashes ([\/*$]). *)
Fixpoint strip_trailing_slashes (s : string) : string :=
  match s with
  | EmptyString => EmptyString
  | String c s' =>
      let r := strip_trailing_slashes s' in
      if Ascii.eqb c "/" && String.eqb r "" then EmptyString else String c r
  end.

(** Whether [<Route path=pattern>] matches [path]; the patterns of [App]
    are lower case without a trailing slash. *)
Definition route_matches (pattern path : string) : bool :=
  String.eqb (lower_path (strip_trailing_slashes path)) pattern.

Fixpoint lookup_route (path : string) (rs : list (string * PageName)) : option PageName :=
  match rs with
  | [] => None
  | (p, page) :: rs' => if route_matches p path then Some page else lookup_route path rs'
  end.

(** The element [App] renders at [path]; [isMounted] of the guards is
    [true]. *)
Definition App (isAuthenticated : bool) (path : string) : Element :=
  if route_matches "/login" path then
    (if isAuthenticated then NavigateTo "/dashboard" else Render PLogin)
  else
    match lookup_route path protected_routes with
    | Some page => ProtectedRoute true isAuthenticated page
    | None => NavigateTo (if isAuthenticated then "/dashboard" else "/login")
    end.

(** Following at most [fuel] elements from [path]. *)
Fixpoint resolve (fuel : nat) (isAuthenticated : bool) (path : string) : option PageName :=
  match fuel with
  | O => None
  | S f =>
      match App isAuthenticated path with
      | Render page => Some page
      | NavigateTo to => resolve f isAuthenticated to
      | Nothing => None
      end
  end.

(** * Lemmas *)

Lemma route_matches_same p q path :
  route_matches p path = true -> route_matches q path = true -> p = q.
Proof. unfold route_matches. intros ->%String.eqb_eq ->%String.eqb_eq. done. Qed.

Lemma lookup_route_login path page :
  lookup_route path protected_routes = Some page -> page <> PLogin.
Proof.
  cbn [lookup_route protected_routes].
  repeat match goal with
  | |- context [route_matches ?p path] =>
      destruct (route_matches p path); [intros [= <-]; discriminate|]
  end. discriminate.
Qed.

(** No protected route matches a path the login route matches. *)
Lemma lookup_route_login_path path :
  route_matches "/login" path = true -> lookup_route path protected_routes = None.
Proof.
  intros Hl. cbn [lookup_route protected_routes].
  repeat match goal with
  | |- context [route_matches ?p path] =>
      let Hm := fresh "Hm" in destruct (route_matches p path) eqn:Hm;
      [pose proof (route_matches_same _ _ _ Hm Hl); discriminate|]
  end. done.
Qed.

(** Two navigations at most: every path ends on a page after three
    elements. *)
Lemma resolve_App auth path :
  resolve 3 auth path =
  if auth then Some (default PDashboard (lookup_route path protected_routes))
  else Some PLogin.
Proof.
  unfold resolve, App. destruct (route_matches "/login" path) eqn:Hl.
  - rewrite (lookup_route_login_path _ Hl). by destruct auth.
  - destruct (lookup_route path protected_routes); by destruct auth.
Qed.

(** * Theorems *)

(** C25. Every path of the application ends on a page after at most two
    navigations, for any session; the page is the login page exactly when
    the session store of a reachable state has no user, and otherwise the
    page of the path (the dashboard for the login path and unknown paths). *)
Theorem routes_follow_session sy path :
  rtc sys_step initialSystem sy ->
  exists page, resolve 3 (isAuthenticated (auth sy)) path = Some page /\
    (page = PLogin <-> user (auth sy) = None) /\
    (is_Some (user (auth sy)) ->
     page = default PDashboard (lookup_route path protected_routes)).
Proof.
  intros Hr. destruct (sys_ok_rtc _ _ sys_ok_initial Hr) as [[Hauth _] _].
  rewrite resolve_App. destruct (user (auth sy)) as [u|] eqn:Hu.
  - assert (Ha : isAuthenticated (auth sy) = true) by (apply Hauth; by eexists).
    rewrite Ha. eexists. split_and!; [reflexivity| |done]. split; [|discriminate].
    destruct (lookup_route path protected_routes) as [p|] eqn:Hl; simpl; [|discriminate].
    intros Hp. by destruct (lookup_route_login path p Hl).
  - assert (Ha : isAuthenticated (auth sy) = false).
    { destruct (isAuthenticated (auth sy)) eqn:Ha; [|done].
      destruct (proj1 Hauth eq_refl) as [x Hx]. congruence. }
    rewrite Ha. exists PLogin. split_and!; [done|done|]. intros [x Hx]. congruence.
Qed.

Lemma routes_follow_session_witness :
  rtc sys_step initialSystem initialSystem /\
  resolve 3 (isAuthenticated (auth initialSystem)) "/simulator" = Some PLogin.
Proof.
  split; [reflexivity|].
  destruct (routes_follow_session initialSystem "/simulator" (rtc_refl _ _))
    as (page & Hres & Hlogin & _).
  rewrite Hres. f_equal. by apply Hlogin.
Defined.

End Routing.
