(* ===== verification/Avatar.v ===== *)
(** * Avatar: [getDefaultAvatar] of [components/UserAvatar.tsx]

    [getDefaultAvatar] (lines 30-39) picks one of the five default avatars
    from a user id that is absent, a string or a number: a falsy id gives
    the first avatar, a string is read with [parseInt(userId, 10)], and the
    index is [Math.abs(idNum) % 5]. An index that is not one of 0..4 ([NaN])
    reads [undefined] from the array: [None] here. Numbers are the integers
    and the non-finite values of [jsnum]; [parseInt] is exact, which it is
    in JavaScript for digit prefixes below 2^53. [UserAvatar] (lines 45-68)
    shows [customImage] when it is truthy and the default avatar otherwise. *)

From stdpp Require Import base list.
From Stdlib Require Import ZArith Lia Ascii String Bool.
From S2P Require Import Prelude Validation AuthStore Security.

Import Validation Security.

Module Avatar.

#[local] Open Scope string_scope.

(** [userId?: string | number] *)
Inductive UserId :=
| IdString (s : string)
| IdNumber (n : jsnum).

(** [[avatar1, avatar2, avatar3, avatar4, avatar5]], by their files. *)
Definition defaultAvatars : list string :=
  ["avatar1.png"; "avatar2.png"; "avatar3.svg"; "avatar4.svg"; "avatar5.svg"].

Definition avatar1 : string := "avatar1.png".

(** ** [parseInt(s, 10)] *)

(** The digits of a decimal prefix, most significant first, with the value
    read so far. *)
Fixpoint digits_value (acc : Z) (s : string) : Z * nat :=
  match s with
  | String c s' =>
      if is_digit c then
        let '(v, n) := digits_value (10 * acc + (Z.of_nat (nat_of_ascii c) - 48)) s' in (v, S n)
      else (acc, 0%nat)
  | EmptyString => (acc, 0%nat)
  end.

(** Leading white space, an optional sign, then at least one digit; [NaN]
    otherwise. *)
Definition parseInt10 (s : string) : jsnum :=
  let t := trimStart s in
  let '(sign, body) :=
    match t with
    | String "-" r => ((-1)%Z, r)
    | String "+" r => (1%Z, r)
    | _ => (1%Z, t)
    end in
  let '(v, n) := digits_value 0 body in
  if Nat.eqb n 0 then JNaN else JNum (sign * v).

(** [!userId]: absent, the empty string, [0] and [NaN] are falsy. *)
Definition falsy (u : option UserId) : bool :=
  match u with
  | None => true
  | Some (IdString s) => String.eqb s ""
  | Some (IdNumber (JNum z)) => Z.eqb z 0
  | Some (IdNumber JNaN) => true
  | Some (IdNumber _) => false
  end.

(** [defaultAvatars[Math.abs(idNum) % defaultAvatars.length]]:
    [Infinity % 5] and [NaN % 5] are [NaN]. *)
Definition avatar_at (idNum : jsnum) : option string :=
  match idNum with
  | JNum z => defaultAvatars !! Z.to_nat (Z.abs z mod Z.of_nat (List.length defaultAvatars))
  | _ => None
  end.

Definition getDefaultAvatar (userId : option UserId) : option string :=
  if falsy userId then Some avatar1
  else
    let idNum := match userId with
                 | Some (IdString s) => parseInt10 s
                 | Some (IdNumber n) => n
                 | None => JNaN
                 end in
    avatar_at idNum.

(** [customImage || getDefaultAvatar(userId)] *)
Definition avatarSrc (customImage : option string) (userId : option UserId) : option string :=
  match customImage with
  | Some img => if String.eqb img "" then getDefaultAvatar userId else Some img
  | None => getDefaultAvatar userId
  end.

(** [size?: 'small' | 'medium' | 'large' | 'xlarge'] *)
Inductive AvatarSize := Small | Medium | Large | XLarge.

Definition size_name (z : AvatarSize) : string :=
  match z with Small => "small" | Medium => "medium" | Large => "large" | XLarge => "xlarge" end.

(** [UserAvatarProps] (lines 10-21); an absent prop is [None]. *)
Record UserAvatarProps := mkUserAvatarProps {
  customImage : option string; userId : option UserId; size : option AvatarSize;
  alt : option string; className : option string
}.

(** What [UserAvatar] renders (lines 45-68): the class of the container
    and the [src], [alt] and [title] of the image. *)
Record AvatarElement := mkAvatarElement {
  container_class : string; img_src : option string; img_alt : string; img_title : string
}.

(** The destructuring defaults ([size = 'medium'], [alt = 'Avatar de
    usuario'], [className = '']) apply to [undefined] props only. *)
Definition UserAvatar (p : UserAvatarProps) : AvatarElement :=
  let sz := default Medium (size p) in
  let a := default "Avatar de usuario" (alt p) in
  let cls := default "" (className p) in
  let sizeClass := "avatar-" ++ size_name sz in
  mkAvatarElement ("user-avatar-container " ++ sizeClass ++ " " ++ cls)
    (avatarSrc (customImage p) (userId p)) a a.

(** * Lemmas *)

Lemma avatar_at_some z : exists a, avatar_at (JNum z) = Some a /\ a ∈ defaultAvatars.
Proof.
  simpl. set (k := Z.to_nat (Z.abs z mod 5)).
  assert (Hk : (k < 5)%nat) by (subst k; pose proof (Z.mod_pos_bound (Z.abs z) 5); lia).
  destruct (lookup_lt_is_Some_2 defaultAvatars k) as [a Ha]; [simpl; lia|].
  exists a. split; [done|]. by eapply list_elem_of_lookup_2.
Qed.

(** The first hexadecimal digit of a byte [>= 160] is one of [a-f]. *)
Lemma byteToHex_letter b s :
  (160 <= b < 256)%Z ->
  exists d t, byteToHex b ++ s = String (digit_char d) t /\
    (d = 10 \/ d = 11 \/ d = 12 \/ d = 13 \/ d = 14 \/ d = 15)%Z.
Proof.
  intros Hb. rewrite byteToHex_digits by lia.
  exists (b / 16)%Z, (String (digit_char (b mod 16)) s). split; [reflexivity|].
  assert (10 <= b / 16 < 16)%Z by (split; [apply Z.div_le_lower_bound|apply Z.div_lt_upper_bound]; lia).
  lia.
Qed.

(** The image shows the custom picture when one is given, and otherwise
    the default avatar of the id, which is one of the five files unless
    [parseInt] or the arithmetic give [NaN]. *)
Lemma UserAvatar_src p :
  img_src (UserAvatar p) =
    match customImage p with
    | Some img => if String.eqb img "" then getDefaultAvatar (userId p) else Some img
    | None => getDefaultAvatar (userId p)
    end.
Proof. reflexivity. Qed.

Lemma avatar_at_in n a : avatar_at n = Some a -> a ∈ defaultAvatars.
Proof.
  destruct n as [z| | |]; try discriminate. intros Hz.
  destruct (avatar_at_some z) as (a' & Ha' & Hin). congruence.
Qed.

Lemma getDefaultAvatar_in u a : getDefaultAvatar u = Some a -> a ∈ defaultAvatars.
Proof.
  unfold getDefaultAvatar. case_match; [intros [= <-]; by left|]. apply avatar_at_in.
Qed.

(** * Theorems *)

(** A numeric id picks an avatar consistently: a non-zero integer [z]
    gets avatar [|z| mod 5] of the list, the same for [z] and [-z], and
    never [undefined]. *)
Theorem getDefaultAvatar_number z :
  z <> 0%Z ->
  getDefaultAvatar (Some (IdNumber (JNum z))) =
    defaultAvatars !! Z.to_nat (Z.abs z mod 5) /\
  getDefaultAvatar (Some (IdNumber (JNum z))) = getDefaultAvatar (Some (IdNumber (JNum (- z)))) /\
  is_Some (getDefaultAvatar (Some (IdNumber (JNum z)))).
Proof.
  intros Hz. unfold getDefaultAvatar. simpl falsy.
  replace (z =? 0)%Z with false by (symmetry; apply Z.eqb_neq; lia).
  replace (- z =? 0)%Z with false by (symmetry; apply Z.eqb_neq; lia).
  split_and!; [reflexivity|simpl; by rewrite Z.abs_opp|].
  destruct (avatar_at_some z) as (a & -> & _). by eexists.
Qed.

Lemma getDefaultAvatar_number_witness :
  (-7 <> 0)%Z /\ getDefaultAvatar (Some (IdNumber (JNum (-7)))) = Some "avatar3.svg".
Proof.
  split; [lia|]. destruct (getDefaultAvatar_number (-7) ltac:(lia)) as [-> _]. reflexivity.
Defined.

(** C37. The ids the stores generate get no avatar when they start with a
    letter: for the hexadecimal id [generateSecureId] writes, a first byte
    of at least 160 makes [parseInt] return [NaN], and the avatar is
    [undefined]. *)
Theorem getDefaultAvatar_secure_id b bytes :
  (160 <= b < 256)%Z ->
  getDefaultAvatar (Some (IdString (generateSecureId (b :: bytes)))) = None.
Proof.
  intros Hb. unfold generateSecureId. simpl map. simpl join.
  destruct (byteToHex_letter b (join (map byteToHex bytes)) Hb) as (d & t & -> & Hd).
  repeat destruct Hd as [->|Hd]; subst; reflexivity.
Qed.

Lemma getDefaultAvatar_secure_id_witness :
  (160 <= 171 < 256)%Z /\
  getDefaultAvatar (Some (IdString (generateSecureId (171%Z :: map Z.of_nat (seq 1 15))))) = None.
Proof.
  split; [lia|]. apply getDefaultAvatar_secure_id. lia.
Defined.

End Avatar.
