(* ===== verification/Cursos.v ===== *)
(** * Cursos: the course page of [pages/Cursos.tsx]

    The page holds one piece of state, the set of expanded modules
    [modulosExpandidos] ([useState<Set<number>>(new Set([1]))], line 28),
    a stdpp [gset Z] here. [toggleModulo] (lines 76-86) copies the set and
    removes or adds the module id; the module buttons (lines 117-121) call
    it with the ids of the rendered modules. The course data (lines 31-74)
    is a constant, given verbatim with its Latin-1 accents; each module
    header shows the count of completed topics (line 129) and the course
    header a progress label (line 108). The render (lines 88-163) is a
    [View] tree of the test [modulosExpandidos.has]; the arrows and icons,
    outside Latin-1, are kept as their UTF-8 bytes. *)

From stdpp Require Import base list gmap sets relations.
From Stdlib Require Import ZArith Lia String.
From S2P Require Import Prelude View.

Import View.

Module Cursos.

#[local] Open Scope string_scope.

Inductive Tipo := Lectura | Evaluacion.

Record Tema := mkTema { tema_id : Z; tema_titulo : string; tipo : Tipo; completado : bool }.
Record Modulo := mkModulo { modulo_id : Z; modulo_titulo : string; temas : list Tema }.
Record Curso := mkCurso { curso_id : string; cedula : string; curso_titulo : string; modulos : list Modulo }.

Definition evaluacion : string := "Evaluaci" ++ ch 243 ++ "n".

Definition cursos : list Curso :=
  [mkCurso "curso-1" "A" ("C" ++ ch 233 ++ "dula de Capacitaci" ++ ch 243 ++ "n A - Seguros")
    [mkModulo 1 "Aspectos Generales"
       [mkTema 1 ("Aspectos Jur" ++ ch 237 ++ "dicos") Lectura true;
        mkTema 2 (evaluacion ++ " - Aspectos Jur" ++ ch 237 ++ "dicos") Evaluacion true;
        mkTema 3 ("Aspectos T" ++ ch 233 ++ "cnicos") Lectura false;
        mkTema 4 (evaluacion ++ " - Aspectos T" ++ ch 233 ++ "cnicos") Evaluacion false];
     mkModulo 2 "Riesgos del Seguro de Personas"
       [mkTema 5 ("Bases T" ++ ch 233 ++ "cnicas") Lectura false;
        mkTema 6 "Planes del Seguro de Vida" Lectura false;
        mkTema 7 "Accidentes Personales" Lectura false;
        mkTema 8 ("Gastos M" ++ ch 233 ++ "dicos Mayores") Lectura false;
        mkTema 9 "Seguro de Salud" Lectura false;
        mkTema 10 (evaluacion ++ " - Seguro de Personas") Evaluacion false];
     mkModulo 3 ("Riesgos del Seguro de Da" ++ ch 241 ++ "os")
       [mkTema 11 "Seguro de Hogar" Lectura false;
        mkTema 12 "Seguro de Incendio" Lectura false;
        mkTema 13 "Seguro de Diversos" Lectura false;
        mkTema 14 "Responsabilidad Civil Familiar" Lectura false;
        mkTema 15 "Embarcaciones" Lectura false;
        mkTema 16 ("Autom" ++ ch 243 ++ "viles") Lectura false;
        mkTema 17 (evaluacion ++ " - Seguro de Da" ++ ch 241 ++ "os") Evaluacion false]]].

(** [useState<Set<number>>(new Set([1]))] *)
Definition initialExpandidos : gset Z := {[ 1%Z ]}.

(** [toggleModulo(moduloId)]: a copy of the set with [moduloId] removed when
    present and added otherwise. *)
Definition toggleModulo (moduloId : Z) (prev : gset Z) : gset Z :=
  if decide (moduloId ∈ prev) then prev ∖ {[ moduloId ]} else prev ∪ {[ moduloId ]}.

(** The ids of the rendered module buttons. *)
Definition module_ids : list Z := cursos ≫= (fun c => modulo_id <$> modulos c).

(** A click on a module button. *)
Inductive cursos_step : gset Z -> gset Z -> Prop :=
| cursos_click i s : i ∈ module_ids -> cursos_step s (toggleModulo i s).

(** [{modulo.temas.filter((t) => t.completado).length}/{modulo.temas.length}] *)
Definition modulo_count (m : Modulo) : nat * nat :=
  (List.length (filter (fun t => completado t = true) (temas m)), List.length (temas m)).

(** The course header shows a constant ([Progreso: 25%], line 108). *)
Definition progress_label (c : Curso) : string := "Progreso: 25%".

(** The share of completed topics of a course, rounded as [Math.round]. *)
Definition course_completion (c : Curso) : jsnum :=
  let ts := modulos c ≫= temas in
  percent (Z.of_nat (List.length (filter (fun t => completado t = true) ts))) (Z.of_nat (List.length ts)).

(** What the page renders of one topic (lines 136-153): its icon and,
    for a topic not completed, the label of its button; a completed topic
    shows the completed badge instead. The type is compared with the
    accented ['Evaluación']. *)
Definition tema_icon (t : Tema) : string :=
  match tipo t with Evaluacion => "evaluacion" | Lectura => "lectura" end.

Definition tema_button (t : Tema) : option string :=
  if completado t then None
  else Some (match tipo t with
             | Evaluacion => "Presentar Evaluaci" ++ ch 243 ++ "n"
             | Lectura => "Iniciar Lectura"
             end).

(** The topics listed on the page for a set of expanded modules (lines
    115-157): those of the expanded modules, in order. *)
Definition visible_topics (s : gset Z) : list Tema :=
  cursos ≫= (fun c => modulos c ≫= (fun m => if decide (modulo_id m ∈ s) then temas m else [])).

(** The page the back button navigates to (line 92). *)
Definition back_target : string := "/dashboard".

(** ** The render *)

(** A topic row (lines 136-152). *)
Definition render_tema (t : Tema) : vnode :=
  el "div" ("tema-item " ++ if completado t then "completado" else "") [
    el "div" "tema-info" [
      el "span" ("tema-icon " ++ tema_icon t)
        [VText (match tipo t with Evaluacion => "📝" | Lectura => "📖" end)];
      el "span" "tema-title" [VText (tema_titulo t)]];
    el "div" "tema-actions" [
      match tema_button t with
      | None => el "span" "badge-completado" [VText "✓ Completado"]
      | Some label => el "button" "btn-iniciar" [VText label]
      end]].

(** A module (lines 117-156), for the test [has] of the expanded set. *)
Definition render_modulo (has : Z -> bool) (m : Modulo) : vnode :=
  el "div" "modulo-item" (
    el "button" "modulo-header" [
      el "div" "modulo-info" [
        el "span" "modulo-toggle" [VText (if has (modulo_id m) then "▼" else "▶")];
        el "span" "modulo-title" [VText (modulo_titulo m)]];
      el "span" "modulo-count" [
        VText (toString 10 (Z.of_nat (modulo_count m).1)); VText "/";
        VText (toString 10 (Z.of_nat (modulo_count m).2)); VText " temas"]] ::
    when (has (modulo_id m)) (el "div" "temas-list" (render_tema <$> temas m))).

(** A course card (lines 101-159). *)
Definition render_curso (has : Z -> bool) (c : Curso) : vnode :=
  el "div" "curso-card" [
    el "div" "curso-header" [
      el "div" "curso-info" [el "span" "curso-cedula" [VText (cedula c)]; el "h2" "" [VText (curso_titulo c)]];
      el "div" "curso-progreso" [
        el "span" "" [VText (progress_label c)];
        el "div" "progreso-bar" [VElem "div" "progreso-fill" [("width", "25%")] []]]];
    el "div" "modulos-list" (render_modulo has <$> modulos c)].

(** [modulosExpandidos.has] *)
Definition has_expandido (s : gset Z) (i : Z) : bool := bool_decide (i ∈ s).

(** The page (lines 88-163) for the test [has] of the expanded set. *)
Definition render_cursos (has : Z -> bool) : vnode :=
  el "div" "cursos-container" [
    el "header" "cursos-header" [
      el "div" "header-left" [
        el "button" "back-button" [VText "← Volver"]; el "h1" "cursos-title" [VText "Mis Cursos"]]];
    el "main" "cursos-main" (render_curso has <$> cursos)].

(** * Lemmas *)

Lemma elem_of_toggleModulo i j s : j ∈ toggleModulo i s <-> (j = i -> i ∉ s) /\ (j <> i -> j ∈ s).
Proof.
  unfold toggleModulo. destruct (decide (i ∈ s));
    [rewrite elem_of_difference, elem_of_singleton|rewrite elem_of_union, elem_of_singleton];
    destruct (decide (j = i)); naive_solver.
Qed.

Lemma toggleModulo_self i s : i ∈ toggleModulo i s <-> i ∉ s.
Proof. rewrite elem_of_toggleModulo. naive_solver. Qed.

Lemma toggleModulo_other i j s : j <> i -> (j ∈ toggleModulo i s <-> j ∈ s).
Proof. intros Hj. rewrite elem_of_toggleModulo. naive_solver. Qed.

(** A topic is listed exactly when its module is expanded. *)
Lemma elem_of_visible_topics s t :
  t ∈ visible_topics s <->
  exists c m, c ∈ cursos /\ m ∈ modulos c /\ modulo_id m ∈ s /\ t ∈ temas m.
Proof.
  unfold visible_topics. rewrite list_elem_of_bind. split.
  - intros (c & Ht & Hc). apply list_elem_of_bind in Ht as (m & Ht & Hm).
    case_decide; [|set_solver]. eauto 10.
  - intros (c & m & Hc & Hm & Hs & Ht). exists c. split; [|done].
    apply list_elem_of_bind. exists m. split; [|done]. by case_decide.
Qed.

(** The topics listed for a set, written with its test [has]. *)
Lemma visible_topics_has s :
  visible_topics s =
    cursos ≫= (fun c => modulos c ≫= (fun m => if has_expandido s (modulo_id m) then temas m else [])).
Proof. unfold visible_topics, has_expandido. simpl. by rewrite !decide_bool_decide. Qed.

(** What the page shows, for any test [has]: the topics of the modules it
    accepts, an arrow per module, the counts and the progress label. *)
Lemma render_cursos_shows has :
  let v := render_cursos has in
  let listed := cursos ≫= (fun c => modulos c ≫= (fun m => if has (modulo_id m) then temas m else [])) in
  text_of <$> by_class "tema-title" v = tema_titulo <$> listed /\
  text_of <$> by_class "btn-iniciar" v = omap tema_button listed /\
  text_of <$> by_class "modulo-toggle" v = (fun m => if has (modulo_id m) then "▼" else "▶") <$> (cursos ≫= modulos) /\
  text_of <$> by_class "modulo-count" v = ["2/4 temas"; "0/6 temas"; "0/7 temas"] /\
  text_of <$> by_class "curso-progreso" v = ["Progreso: 25%"].
Proof.
  vm_compute. destruct (has 1%Z), (has 2%Z), (has 3%Z); split_and!; reflexivity.
Qed.

(** Only open topics have a button; the two evaluations of the first
    module are completed, so the first button of the page is a reading. *)
Lemma tema_button_open t : is_Some (tema_button t) <-> completado t = false.
Proof. unfold tema_button. destruct (completado t); split; try done; by intros [? ?]. Qed.

Lemma module_ids_eq : module_ids = [1; 2; 3]%Z.
Proof. reflexivity. Qed.

(** * Theorems *)

(** Toggling a module flips whether that module is expanded and leaves
    every other module as it was; toggling it twice gives the same set. *)
Theorem toggleModulo_flips i s :
  (i ∈ toggleModulo i s <-> i ∉ s) /\
  (forall j, j <> i -> (j ∈ toggleModulo i s <-> j ∈ s)) /\
  toggleModulo i (toggleModulo i s) = s.
Proof.
  split_and!; [apply toggleModulo_self|intros j; apply toggleModulo_other|].
  apply leibniz_equiv, set_equiv. intros j. destruct (decide (j = i)) as [->|Hj].
  - rewrite !toggleModulo_self. destruct (decide (i ∈ s)); naive_solver.
  - by rewrite !toggleModulo_other.
Qed.

(** The set of expanded modules only ever holds the ids of the rendered
    modules, whatever the clicks. *)
Theorem expanded_modules_rendered s :
  rtc cursos_step initialExpandidos s -> forall i, i ∈ s -> i ∈ module_ids.
Proof.
  intros Hr. assert (Hinit : forall i, i ∈ initialExpandidos -> i ∈ module_ids).
  { intros i ->%elem_of_singleton. rewrite module_ids_eq. set_solver. }
  induction Hr as [s|s1 s2 s3 [j s Hj] _ IH]; [done|].
  apply IH. intros i Hi%elem_of_toggleModulo.
  destruct (decide (i = j)) as [->|Hne]; [done|]. by apply Hinit, Hi.
Qed.

Lemma expanded_modules_rendered_witness :
  rtc cursos_step initialExpandidos (toggleModulo 3 initialExpandidos) /\
  (3%Z ∈ toggleModulo 3 initialExpandidos -> 3%Z ∈ module_ids).
Proof.
  assert (Hr : rtc cursos_step initialExpandidos (toggleModulo 3 initialExpandidos)).
  { apply rtc_once. constructor. rewrite module_ids_eq. set_solver. }
  split; [exact Hr|]. apply (expanded_modules_rendered _ Hr).
Defined.

(** C38. What the course page shows for any set of expanded modules: the
    topics listed are those of [visible_topics], each with its start button
    unless completed; each module shows [▼] when expanded and [▶] otherwise,
    and its count of completed topics ([2/4], [0/6], [0/7]); the course
    header reads the constant [Progreso: 25%] while 2 of its 17 topics are
    completed, which rounds to 12%. *)
Theorem cursos_render s :
  let v := render_cursos (has_expandido s) in
  text_of <$> by_class "tema-title" v = tema_titulo <$> visible_topics s /\
  text_of <$> by_class "btn-iniciar" v = omap tema_button (visible_topics s) /\
  text_of <$> by_class "modulo-toggle" v =
    (fun m => if has_expandido s (modulo_id m) then "▼" else "▶") <$> (cursos ≫= modulos) /\
  text_of <$> by_class "modulo-count" v = ["2/4 temas"; "0/6 temas"; "0/7 temas"] /\
  text_of <$> by_class "curso-progreso" v = ["Progreso: 25%"] /\
  course_completion <$> cursos = [JNum 12].
Proof.
  rewrite visible_topics_has.
  destruct (render_cursos_shows (has_expandido s)) as (? & ? & ? & ? & ?). split_and!; done.
Qed.

End Cursos.
