(* ===== verification/Charts.v ===== *)
(** * Charts: the progress page of [pages/Progreso.tsx]

    The page draws four canvas charts from the constant [datosProgreso]
    (lines 6-45) when it mounts (lines 59-86), and keeps two pieces of
    state: the active tab and the list view (lines 55-56). Each drawing
    function (lines 89-238) is modelled as the sequence of canvas calls it
    makes, with its boolean result; numbers are exact rationals ([Q]), and a
    division by zero gives [NonFinite] ([NaN] or an infinity), which makes
    [fillRect] and [arc] draw nothing. Angles are in multiples of [pi]:
    [Arc x y r a0 a1] is [ctx.arc(x, y, r, a0 * Math.PI, a1 * Math.PI)].
    JavaScript computes in floating point; on the page's small data the
    exact values are what the floating-point ones approximate. The view
    button's [showNotification] appends a toast whose three timers show,
    hide and remove it; the page with its toasts and a clock is
    [ProgresoPage], its events [progreso_step]. *)

From stdpp Require Import base list sets.
From Stdlib Require Import ZArith QArith Qminmax Lqa String.
From S2P Require Import Prelude.

Module Charts.

#[local] Open Scope string_scope.
#[local] Open Scope list_scope.
#[local] Open Scope Q_scope.

(** A number the drawing code computes: finite, or the result of a
    division by zero. *)
Inductive num := Fin (q : Q) | NonFinite.

Definition num_div (a b : num) : num :=
  match a, b with
  | Fin x, Fin y => if Qeq_bool y 0 then NonFinite else Fin (x / y)
  | _, _ => NonFinite
  end.

Definition num_mul (a b : num) : num :=
  match a, b with Fin x, Fin y => Fin (x * y) | _, _ => NonFinite end.

Definition num_add (a b : num) : num :=
  match a, b with Fin x, Fin y => Fin (x + y) | _, _ => NonFinite end.

Definition num_sub (a b : num) : num :=
  match a, b with Fin x, Fin y => Fin (x - y) | _, _ => NonFinite end.

(** The canvas calls the page makes. *)
Inductive CanvasOp :=
| ClearRect (x y w h : num)
| StrokeStyle (color : string)
| FillStyle (color : string)
| LineWidth (w : num)
| BeginPath
| MoveTo (x y : num)
| LineTo (x y : num)
| Stroke
| Fill
| Arc (x y r a0 a1 : num)
| FillRect (x y w h : num).

(** The size of a [<canvas>] element. *)
Record Canvas := mkCanvas { cwidth : Z; cheight : Z }.

Definition canvas_ok (c : Canvas) : bool :=
  negb (Z.eqb (cwidth c) 0) && negb (Z.eqb (cheight c) 0).

Definition padding : Q := 40.

(** [data.forEach((value, index) => ...)], collecting the canvas calls of
    each element in order. *)
Fixpoint for_each_index {A} (f : nat -> A -> list CanvasOp) (index : nat) (l : list A)
    : list CanvasOp :=
  match l with
  | [] => []
  | x :: l' => f index x ++ for_each_index f (S index) l'
  end.

(** ** [drawLineChart] (lines 89-132) *)

(** The point of the [index]-th value among [n]. *)
Definition line_point (c : Canvas) (n : nat) (index : nat) (value : Q) : Q * Q :=
  let width := inject_Z (cwidth c) in
  let height := inject_Z (cheight c) in
  let chartWidth := width - 2 * padding in
  let chartHeight := height - 2 * padding in
  (padding + (inject_Z (Z.of_nat index) / inject_Z (Z.of_nat n - 1)) * chartWidth,
   height - padding - (value / 100) * chartHeight).

Definition drawLineChart (c : Canvas) (data : list Q) : bool * list CanvasOp :=
  if negb (canvas_ok c) then (false, [])
  else if Nat.ltb (List.length data) 2 then (false, [])
  else
    let n := List.length data in
    let pt i v := line_point c n i v in
    (true,
     [ClearRect (Fin 0) (Fin 0) (Fin (inject_Z (cwidth c))) (Fin (inject_Z (cheight c)));
      StrokeStyle "#2a5298"; LineWidth (Fin 3); BeginPath] ++
     for_each_index (fun i v => let '(x, y) := pt i v in
                      if Nat.eqb i 0 then [MoveTo (Fin x) (Fin y)] else [LineTo (Fin x) (Fin y)]) 0 data ++
     [Stroke; FillStyle "#2a5298"] ++
     for_each_index (fun i v => let '(x, y) := pt i v in
                             [BeginPath; Arc (Fin x) (Fin y) (Fin 5) (Fin 0) (Fin 2); Fill]) 0 data).

(** ** [drawBarChart] (lines 135-167) *)

(** [data.user[index]]: [undefined] past the end, and [undefined / 10] is
    [NaN]. *)
Definition at_index (l : list Q) (i : nat) : num :=
  match l !! i with Some v => Fin v | None => NonFinite end.

Definition bar_ops (c : Canvas) (n : nat) (user average : list Q) (index : nat) : list CanvasOp :=
  let height := Fin (inject_Z (cheight c)) in
  let chartWidth := inject_Z (cwidth c) - 2 * padding in
  let chartHeight := Fin (inject_Z (cheight c) - 2 * padding) in
  let barWidth := Fin (chartWidth / inject_Z (Z.of_nat n) / 2) in
  let x := Fin (padding + inject_Z (Z.of_nat index) * (chartWidth / inject_Z (Z.of_nat n))) in
  let userHeight := num_mul (num_div (at_index user index) (Fin 10)) chartHeight in
  let avgHeight := num_mul (num_div (at_index average index) (Fin 10)) chartHeight in
  [FillStyle "#2a5298";
   FillRect x (num_sub (num_sub height (Fin padding)) userHeight) barWidth userHeight;
   FillStyle "#cccccc";
   FillRect (num_add x barWidth) (num_sub (num_sub height (Fin padding)) avgHeight) barWidth avgHeight].

Definition drawBarChart (c : Canvas) (categories : list string) (user average : list Q)
    : bool * list CanvasOp :=
  if negb (canvas_ok c) then (false, [])
  else if Nat.eqb (List.length categories) 0 then (false, [])
  else
    (true,
     ClearRect (Fin 0) (Fin 0) (Fin (inject_Z (cwidth c))) (Fin (inject_Z (cheight c))) ::
     for_each_index (fun i _ => bar_ops c (List.length categories) user average i) 0 categories).

(** ** [drawTimeChart] (lines 170-196) *)

(** [Math.max(...data)] of a non-empty list. *)
Definition list_max (data : list Q) : Q :=
  match data with
  | [] => 0
  | v :: l => foldl Qmax v l
  end.

Definition time_bar (c : Canvas) (n : nat) (mx : Q) (index : nat) (value : Q) : list CanvasOp :=
  let height := inject_Z (cheight c) in
  let chartWidth := inject_Z (cwidth c) - 2 * padding in
  let chartHeight := height - 2 * padding in
  let barWidth := chartWidth / inject_Z (Z.of_nat n) in
  let x := padding + inject_Z (Z.of_nat index) * barWidth in
  let barHeight := num_mul (num_div (Fin value) (Fin mx)) (Fin chartHeight) in
  [FillStyle "#4facfe";
   FillRect (Fin x) (num_sub (Fin (height - padding)) barHeight) (Fin (barWidth - 5)) barHeight].

Definition drawTimeChart (c : Canvas) (data : list Q) : bool * list CanvasOp :=
  if negb (canvas_ok c) then (false, [])
  else if Nat.eqb (List.length data) 0 then (false, [])
  else
    (true,
     ClearRect (Fin 0) (Fin 0) (Fin (inject_Z (cwidth c))) (Fin (inject_Z (cheight c))) ::
     for_each_index (time_bar c (List.length data) (list_max data)) 0 data).

(** ** [drawDoughnutChart] (lines 199-238) *)

Definition colors : list string :=
  ["#43e97b"; "#2a5298"; "#4facfe"; "#fa709a"; "#ff7e5f"; "#f6d365"; "#9f7aea"; "#68d391"].

Definition sum_list (l : list Q) : Q := foldr Qplus 0 l.

(** The [forEach] over the slices, threading [startAngle]; [total] is
    [data.reduce((a, b) => a + b, 0)], recomputed with the same value at
    each step. *)
Fixpoint slices (cx cy radius : num) (total : Q) (startAngle : num) (index : nat) (l : list Q)
    : list CanvasOp * num :=
  match l with
  | [] => ([], startAngle)
  | value :: l' =>
      let sliceAngle := num_mul (num_div (Fin value) (Fin total)) (Fin 2) in
      let endAngle := num_add startAngle sliceAngle in
      let color := default "" (colors !! (index mod List.length colors)%nat) in
      let '(ops, final) := slices cx cy radius total endAngle (S index) l' in
      ([BeginPath; MoveTo cx cy; Arc cx cy radius startAngle endAngle; FillStyle color; Fill] ++ ops,
       final)
  end.

Definition drawDoughnutChart (c : Canvas) (data : list Q) : bool * list CanvasOp :=
  if negb (canvas_ok c) then (false, [])
  else if Nat.eqb (List.length data) 0 then (false, [])
  else
    let centerX := inject_Z (cwidth c) / 2 in
    let centerY := inject_Z (cheight c) / 2 in
    let radius := Qmin centerX centerY - 20 in
    let '(ops, _) := slices (Fin centerX) (Fin centerY) (Fin radius) (sum_list data) (Fin (-1 # 2)) 0 data in
    (true,
     ClearRect (Fin 0) (Fin 0) (Fin (inject_Z (cwidth c))) (Fin (inject_Z (cheight c))) :: ops ++
     [BeginPath; Arc (Fin centerX) (Fin centerY) (Fin (radius * (6 # 10))) (Fin 0) (Fin 2);
      FillStyle "white"; Fill]).

(** ** The page's data (lines 6-45) and state (lines 54-56) *)

Record ModuleProgress := mkModuleProgress {
  mp_name : string; mp_progress : Z; status : string; score : option Q
}.

(** The fields of [datosProgreso] the page computes with; [activities],
    [badges] and [upcoming] are only rendered as text. *)
Record ProgressData := mkProgressData {
  avatarInitials : string; pd_name : string; role : string; department : string;
  overallProgress : Z; completedModules : Z; totalModules : Z; averageScore : Q;
  monthlyProgress : list Q;
  perf_categories : list string; perf_user : list Q; perf_average : list Q;
  timeSpent : list Q; categoryProgress : list Q;
  pd_modules : list ModuleProgress
}.

Definition zs (l : list Z) : list Q := inject_Z <$> l.

Definition datosProgreso : ProgressData :=
  mkProgressData "JD" ("Juan D" ++ ch 237 ++ "az") "Agente de Seguros" "Sucursal Centro"
    65 5 8 (17 # 2)
    (zs [30; 45; 55; 60; 65; 70; 75; 80; 78; 82; 85; 90]%Z)
    ["Ene"; "Feb"; "Mar"; "Abr"; "May"; "Jun"]
    [8; 15 # 2; 41 # 5; 44 # 5; 9; 17 # 2]
    [7; 36 # 5; 15 # 2; 39 # 5; 38 # 5; 8]
    (zs [2; 3; 5; 4; 6; 4; 3; 5; 4; 6; 5; 4]%Z)
    (zs [25; 20; 15; 10; 30]%Z)
    [mkModuleProgress ("Aspectos Jur" ++ ch 237 ++ "dicos") 100 "completed" (Some 9);
     mkModuleProgress ("Aspectos T" ++ ch 233 ++ "cnicos") 100 "completed" (Some (17 # 2));
     mkModuleProgress ("Bases T" ++ ch 233 ++ "cnicas") 75 "in-progress" None;
     mkModuleProgress "Seguro de Vida" 60 "in-progress" None;
     mkModuleProgress "Accidentes Personales" 40 "in-progress" None].

(** The four [<canvas>] elements (lines 385, 396, 476, 483). *)
Definition progressCanvas : Canvas := mkCanvas 400 200.
Definition performanceCanvas : Canvas := mkCanvas 400 200.
Definition timeCanvas : Canvas := mkCanvas 300 200.
Definition categoryCanvas : Canvas := mkCanvas 300 200.

(** The mount effect (lines 59-86): the four drawings, in order. *)
Definition mountCharts (d : ProgressData) : list (bool * list CanvasOp) :=
  [drawLineChart progressCanvas (monthlyProgress d);
   drawBarChart performanceCanvas (perf_categories d) (perf_user d) (perf_average d);
   drawTimeChart timeCanvas (timeSpent d);
   drawDoughnutChart categoryCanvas (categoryProgress d)].

Record ProgresoState := mkProgresoState { activeTab : string; currentView : string }.

Definition initialProgreso : ProgresoState := mkProgresoState "progress" "detailed".

(** [toggleView] (lines 254-257): the new view, and the message of
    [showNotification], both computed from the [currentView] of the render. *)
Definition toggleView (s : ProgresoState) : ProgresoState * string :=
  (mkProgresoState (activeTab s)
     (if String.eqb (currentView s) "detailed" then "compact" else "detailed"),
   if String.eqb (currentView s) "detailed"
   then "Vista cambiada a modo compacto" else "Vista cambiada a modo detallado").

Definition tabs : list string := ["progress"; "performance"; "achievements"; "comparison"].

Definition setActiveTab (t : string) (s : ProgresoState) : ProgresoState :=
  mkProgresoState t (currentView s).

(** The module rows hidden in the compact view (line 368). *)
Definition module_hidden (s : ProgresoState) (index : nat) : bool :=
  String.eqb (currentView s) "compact" && Nat.leb 3 index.

(** [getStatusBadge] (lines 293-302), by its label. *)
Definition getStatusBadge (status : string) : string :=
  if String.eqb status "completed" then "Completado"
  else if String.eqb status "in-progress" then "En Progreso"
  else "Pendiente".

(** [module.score ? `${module.score}/10` : 'Sin evaluar'] (line 378): [null]
    and [0] are falsy. *)
Definition score_evaluated (score : option Q) : bool :=
  match score with Some q => negb (Qeq_bool q 0) | None => false end.

(** [adjustColor] (lines 492-503): the fixed darker shade of a colour, or
    the colour itself. *)
Definition colorMap : list (string * string) :=
  [("#4facfe", "#2a8df8"); ("#43e97b", "#2ad66a"); ("#fa709a", "#f84a7e");
   ("#2a5298", "#1e3c72"); ("#ff7e5f", "#ff5a3a"); ("#f6d365", "#f4c542")].

Definition adjustColor (color : string) (amount : Z) : string :=
  match find (fun kv => String.eqb kv.1 color) colorMap with
  | Some kv => kv.2
  | None => color
  end.

(** ** The notifications of [showNotification] (lines 260-290) *)

(** A toast element: its message and the time it was appended. Its
    timers move it on screen after 100 ms, off screen after 3000 ms, and
    remove it from the document 300 ms later. *)
Record Toast := mkToast { toast_message : string; toast_created : Z }.

Inductive ToastPhase := Entering | Shown | Leaving | Removed.

Definition toast_phase (now : Z) (t : Toast) : ToastPhase :=
  let e := (now - toast_created t)%Z in
  if (e <? 100)%Z then Entering else if (e <? 3000)%Z then Shown
  else if (e <? 3300)%Z then Leaving else Removed.

Definition is_removed (now : Z) (t : Toast) : bool :=
  match toast_phase now t with Removed => true | _ => false end.

(** The page: its state, the toasts in the document, and the clock. *)
Record ProgresoPage := mkProgresoPage { pstate : ProgresoState; toasts : list Toast; pclock : Z }.

Definition initialProgresoPage (now : Z) : ProgresoPage := mkProgresoPage initialProgreso [] now.

(** [showNotification(message)]: one more toast, created now. *)
Definition showNotification (message : string) (p : ProgresoPage) : ProgresoPage :=
  mkProgresoPage (pstate p) (toasts p ++ [mkToast message (pclock p)]) (pclock p).

Inductive ProgresoEvent :=
| PTab (t : string)
| PToggle
| PAdvance (t : Z).

(** The tab buttons, the view button, and time passing, which removes
    the toasts whose removal timer has fired. *)
Definition progreso_dispatch (ev : ProgresoEvent) (p : ProgresoPage) : ProgresoPage :=
  match ev with
  | PTab t => mkProgresoPage (setActiveTab t (pstate p)) (toasts p) (pclock p)
  | PToggle =>
      let '(s', msg) := toggleView (pstate p) in
      showNotification msg (mkProgresoPage s' (toasts p) (pclock p))
  | PAdvance t => mkProgresoPage (pstate p) (filter (fun x => is_removed t x = false) (toasts p)) t
  end.

Inductive progreso_step : ProgresoPage -> ProgresoPage -> Prop :=
| progreso_tab t p : t ∈ tabs -> progreso_step p (progreso_dispatch (PTab t) p)
| progreso_toggle p : progreso_step p (progreso_dispatch PToggle p)
| progreso_advance t p : (pclock p <= t)%Z -> progreso_step p (progreso_dispatch (PAdvance t) p).

(** Every toast in the document was created at most 3300 ms ago and not
    in the future: the removal timers leave no toast behind. *)
Definition toasts_ok (p : ProgresoPage) : Prop :=
  Forall (fun x => (toast_created x <= pclock p < toast_created x + 3300)%Z) (toasts p).

(** ** Reading the drawings *)

(** The points of the path, from [moveTo] and [lineTo]. *)
Fixpoint path_points (ops : list CanvasOp) : list (Q * Q) :=
  match ops with
  | [] => []
  | MoveTo (Fin x) (Fin y) :: ops' | LineTo (Fin x) (Fin y) :: ops' => (x, y) :: path_points ops'
  | _ :: ops' => path_points ops'
  end.

(** The angles of the arcs. *)
Fixpoint arc_angles (ops : list CanvasOp) : list (num * num) :=
  match ops with
  | [] => []
  | Arc _ _ _ a0 a1 :: ops' => (a0, a1) :: arc_angles ops'
  | _ :: ops' => arc_angles ops'
  end.

(** Consecutive arcs from [a] to [b], each ending where the next starts. *)
Fixpoint contiguous (a : Q) (l : list (num * num)) (b : Q) : Prop :=
  match l with
  | [] => a == b
  | (Fin x, Fin y) :: l' => x == a /\ x <= y /\ contiguous y l' b
  | _ :: _ => False
  end.

(** The rectangles [fillRect] draws: canvas skips a rectangle with a
    non-finite argument. *)
Fixpoint drawn_rects (ops : list CanvasOp) : list (Q * Q * Q * Q) :=
  match ops with
  | [] => []
  | FillRect (Fin x) (Fin y) (Fin w) (Fin h) :: ops' => (x, y, w, h) :: drawn_rects ops'
  | _ :: ops' => drawn_rects ops'
  end.

(** The points of a path drawn one [moveTo]/[lineTo] per element. *)
Fixpoint indexed_points (pt : nat -> Q -> Q * Q) (index : nat) (l : list Q) : list (Q * Q) :=
  match l with
  | [] => []
  | v :: l' => pt index v :: indexed_points pt (S index) l'
  end.

Definition in_box (c : Canvas) (p : Q * Q) : Prop :=
  padding <= fst p <= inject_Z (cwidth c) - padding /\
  padding <= snd p <= inject_Z (cheight c) - padding.

(** * Lemmas *)

(** ** The readers distribute over the sequence of calls *)

Lemma path_points_app o1 o2 : path_points (o1 ++ o2) = path_points o1 ++ path_points o2.
Proof. induction o1 as [|op o1 IH]; [done|]. destruct op; simpl; repeat case_match; simpl; by rewrite IH. Qed.

Lemma arc_angles_app o1 o2 : arc_angles (o1 ++ o2) = arc_angles o1 ++ arc_angles o2.
Proof. induction o1 as [|op o1 IH]; [done|]. destruct op; simpl; by rewrite IH. Qed.

Lemma drawn_rects_app o1 o2 : drawn_rects (o1 ++ o2) = drawn_rects o1 ++ drawn_rects o2.
Proof. induction o1 as [|op o1 IH]; [done|]. destruct op; simpl; repeat case_match; simpl; by rewrite IH. Qed.

#[local] Hint Rewrite path_points_app arc_angles_app drawn_rects_app : js_rw.

(** A loop whose body draws no rectangle draws none. *)
Lemma drawn_rects_for_each {A} (f : nat -> A -> list CanvasOp) i l :
  (forall k x, drawn_rects (f k x) = []) -> drawn_rects (for_each_index f i l) = [].
Proof.
  intros Hf. revert i. induction l as [|x l IH]; intros i; [done|]. simpl.
  by autorewrite with js_rw; rewrite Hf, IH.
Qed.

Lemma drawn_rects_forall {A} (R : Q * Q * Q * Q -> Prop) (f : nat -> A -> list CanvasOp) i l :
  (forall k x, x ∈ l -> Forall R (drawn_rects (f k x))) ->
  Forall R (drawn_rects (for_each_index f i l)).
Proof.
  revert i. induction l as [|x l IH]; intros i Hf; simpl; [constructor|].
  autorewrite with js_rw. apply Forall_app. split; [apply Hf; set_solver|].
  apply IH. intros k y Hy. apply Hf. set_solver.
Qed.

Lemma path_points_line c n i l :
  path_points (for_each_index (fun i v => let '(x, y) := line_point c n i v in
     if Nat.eqb i 0 then [MoveTo (Fin x) (Fin y)] else [LineTo (Fin x) (Fin y)]) i l) =
  indexed_points (line_point c n) i l.
Proof.
  revert i. induction l as [|v l IH]; intros i; [done|]. cbn [for_each_index indexed_points].
  autorewrite with js_rw. rewrite IH. destruct (line_point c n i v). by destruct (Nat.eqb i 0).
Qed.

Lemma path_points_dots c n i l :
  path_points (for_each_index (fun i v => let '(x, y) := line_point c n i v in
     [BeginPath; Arc (Fin x) (Fin y) (Fin 5) (Fin 0) (Fin 2); Fill]) i l) = [].
Proof.
  revert i. induction l as [|v l IH]; intros i; [done|]. cbn [for_each_index].
  autorewrite with js_rw. rewrite IH. by destruct (line_point c n i v).
Qed.

Lemma length_indexed_points pt i l : List.length (indexed_points pt i l) = List.length l.
Proof. revert i. induction l; intros i; simpl; by rewrite ?IHl. Qed.

(** ** Geometry *)

Lemma div_unit (k m : Q) : 0 <= k -> k <= m -> 0 < m -> 0 <= k / m /\ k / m <= 1.
Proof.
  intros. split.
  - apply Qle_shift_div_l; lra.
  - apply Qle_shift_div_r; lra.
Qed.

Lemma inject_Z_le (a b : Z) : (a <= b)%Z -> inject_Z a <= inject_Z b.
Proof. intros H. by rewrite <- Zle_Qle. Qed.

Lemma inject_Z_lt (a b : Z) : (a < b)%Z -> inject_Z a < inject_Z b.
Proof. intros H. by rewrite <- Zlt_Qlt. Qed.

Lemma line_point_in_box c n k v :
  (80 <= cwidth c)%Z -> (80 <= cheight c)%Z -> (2 <= n)%nat -> (k < n)%nat -> 0 <= v <= 100 ->
  in_box c (line_point c n k v).
Proof.
  intros Hw Hh Hn Hk Hv. unfold in_box, line_point, padding; simpl.
  pose proof (inject_Z_le 80 _ Hw) as Hw'. pose proof (inject_Z_le 80 _ Hh) as Hh'.
  destruct (div_unit (inject_Z (Z.of_nat k)) (inject_Z (Z.of_nat n - 1))) as [Ht0 Ht1].
  - apply (inject_Z_le 0). lia.
  - apply inject_Z_le. lia.
  - apply (inject_Z_lt 0). lia.
  - destruct (div_unit v 100) as [Hv0 Hv1]; [lra|lra|lra|].
    set (t := inject_Z (Z.of_nat k) / inject_Z (Z.of_nat n - 1)) in *.
    set (u := v / 100) in *.
    set (W := inject_Z (cwidth c)) in *. set (H := inject_Z (cheight c)) in *.
    change (inject_Z 80) with (80 # 1) in Hw', Hh'.
    assert (0 <= t * (W - 2 * 40)) by (apply Qmult_le_0_compat; lra).
    assert (0 <= (1 - t) * (W - 2 * 40)) by (apply Qmult_le_0_compat; lra).
    assert (0 <= u * (H - 2 * 40)) by (apply Qmult_le_0_compat; lra).
    assert (0 <= (1 - u) * (H - 2 * 40)) by (apply Qmult_le_0_compat; lra).
    split_and!; lra.
Qed.

Lemma indexed_points_in_box c n i l :
  (80 <= cwidth c)%Z -> (80 <= cheight c)%Z -> (2 <= n)%nat -> (i + List.length l <= n)%nat ->
  Forall (fun v => 0 <= v <= 100) l -> Forall (in_box c) (indexed_points (line_point c n) i l).
Proof.
  intros Hw Hh Hn. revert i. induction l as [|v l IH]; intros i Hlen Hl; simpl; [constructor|].
  apply Forall_cons in Hl as [Hv Hl]. simpl in Hlen.
  constructor; [apply line_point_in_box; auto; lia|]. apply IH; [lia|done].
Qed.

(** ** The doughnut's slices *)

Lemma contiguous_proper a l b b' : b == b' -> contiguous a l b -> contiguous a l b'.
Proof.
  revert a. induction l as [|[[x|] [y|]] l IH]; intros a Hb; simpl; try done.
  - intros H. rewrite <- Hb. exact H.
  - intros (Hx & Hxy & Hl). split_and!; [done|done|]. by apply IH.
Qed.

Lemma slices_contiguous cx cy r total a i l :
  0 < total -> Forall (fun v => 0 <= v) l ->
  contiguous a (arc_angles (fst (slices cx cy r total (Fin a) i l))) (a + 2 * sum_list l / total).
Proof.
  intros Ht. revert a i. induction l as [|v l IH]; intros a i Hl; simpl.
  - field. lra.
  - apply Forall_cons in Hl as [Hv Hl].
    destruct (Qeq_bool total 0) eqn:Hz; [apply Qeq_bool_iff in Hz; lra|]. simpl.
    destruct (slices cx cy r total (Fin (a + v / total * 2)) (S i) l) as [ops final] eqn:Hs.
    simpl. split_and!.
    + reflexivity.
    + assert (0 <= v / total) by (apply Qle_shift_div_l; lra). lra.
    + pose proof (IH (a + v / total * 2) (S i) Hl) as IHl. rewrite Hs in IHl.
      eapply contiguous_proper; [|exact IHl]. field. lra.
Qed.

Lemma length_arc_angles_slices cx cy r total a i l :
  List.length (arc_angles (fst (slices cx cy r total a i l))) = List.length l.
Proof.
  revert a i. induction l as [|v l IH]; intros a i; [done|]. simpl.
  match goal with |- context [slices ?a0 ?b0 ?c0 ?d0 ?e0 (S i) l] =>
    specialize (IH e0 (S i)); destruct (slices a0 b0 c0 d0 e0 (S i) l) as [ops final] end.
  simpl in *. autorewrite with js_rw. simpl. by rewrite IH.
Qed.

(** ** Maxima *)

Lemma foldl_Qmax_zero a l : a == 0 -> Forall (fun v => v == 0) l -> foldl Qmax a l == 0.
Proof.
  revert a. induction l as [|v l IH]; intros a Ha Hl; simpl; [done|].
  apply Forall_cons in Hl as [Hv Hl]. apply IH; [|done].
  rewrite Ha, Hv. reflexivity.
Qed.

(** ** The view and its notifications *)

Lemma toggleView_twice s : fst (toggleView (fst (toggleView s))) = s \/
  (currentView s <> "detailed" /\ currentView s <> "compact").
Proof.
  destruct s as [t v]. unfold toggleView; simpl.
  destruct (String.eqb_spec v "detailed") as [->|Hd]; [left; reflexivity|].
  destruct (String.eqb_spec v "compact") as [->|Hc]; [left; reflexivity|right; done].
Qed.

Lemma is_removed_false now x :
  is_removed now x = false <-> (now < toast_created x + 3300)%Z.
Proof.
  unfold is_removed, toast_phase.
  destruct (Z.ltb_spec (now - toast_created x) 100); [split; [lia|done]|].
  destruct (Z.ltb_spec (now - toast_created x) 3000); [split; [lia|done]|].
  destruct (Z.ltb_spec (now - toast_created x) 3300); split; (done || lia).
Qed.

Lemma toasts_ok_step p q : progreso_step p q -> toasts_ok p -> toasts_ok q.
Proof.
  unfold toasts_ok. intros Hs Hf. destruct Hs as [t p' _|p'|t p' Hle]; simpl.
  - done.
  - destruct (toggleView (pstate p')) as [s' msg]. simpl.
    apply Forall_app. split; [done|]. constructor; [simpl; lia|constructor].
  - apply Forall_forall. intros x [Hx Hin]%list_elem_of_filter.
    apply is_removed_false in Hx. rewrite Forall_forall in Hf. specialize (Hf x Hin). lia.
Qed.

(** * Theorems *)

(** C34. The doughnut chart covers the full circle: when the categories
    have a positive total, [drawDoughnutChart] draws one arc per category,
    each starting where the previous one ends, from [-pi/2] round to
    [3 pi/2], then the central hole. *)
Theorem drawDoughnutChart_full_turn c data :
  canvas_ok c = true -> data <> [] -> Forall (fun v => 0 <= v) data -> 0 < sum_list data ->
  fst (drawDoughnutChart c data) = true /\
  exists sl, arc_angles (snd (drawDoughnutChart c data)) = sl ++ [(Fin 0, Fin 2)] /\
    List.length sl = List.length data /\ contiguous (-1 # 2) sl (3 # 2).
Proof.
  intros Hok Hne Hpos Hsum. unfold drawDoughnutChart. rewrite Hok.
  destruct (Nat.eqb_spec (List.length data) 0) as [Hl|_]; [by destruct data|]. simpl.
  pose proof (slices_contiguous (Fin (inject_Z (cwidth c) / 2)) (Fin (inject_Z (cheight c) / 2))
    (Fin (Qmin (inject_Z (cwidth c) / 2) (inject_Z (cheight c) / 2) - 20)) (sum_list data) (-1 # 2) 0 data
    Hsum Hpos) as Hc.
  pose proof (length_arc_angles_slices (Fin (inject_Z (cwidth c) / 2)) (Fin (inject_Z (cheight c) / 2))
    (Fin (Qmin (inject_Z (cwidth c) / 2) (inject_Z (cheight c) / 2) - 20)) (sum_list data)
    (Fin (-1 # 2)) 0 data) as Hlen.
  destruct (slices _ _ _ _ _ _ data) as [ops final]. simpl in *.
  split; [done|]. exists (arc_angles ops). autorewrite with js_rw. split_and!; [done|done|].
  eapply contiguous_proper; [|exact Hc]. field. lra.
Qed.

Lemma drawDoughnutChart_full_turn_witness :
  canvas_ok categoryCanvas = true /\ fst (drawDoughnutChart categoryCanvas (categoryProgress datosProgreso)) = true.
Proof.
  split; [reflexivity|].
  apply (drawDoughnutChart_full_turn categoryCanvas (categoryProgress datosProgreso)).
  - reflexivity.
  - discriminate.
  - simpl. unfold inject_Z. repeat (apply List.Forall_cons; [lra|]). apply List.Forall_nil.
  - simpl. unfold sum_list, inject_Z. simpl. lra.
Defined.

(** The line chart stays inside its frame: on a canvas of at least
    80 by 80 and with at least two percentages in [0, 100],
    [drawLineChart] draws and every point of its path lies within the
    40-pixel padding, one point per value. *)
Theorem drawLineChart_in_box c data :
  (80 <= cwidth c)%Z -> (80 <= cheight c)%Z -> (2 <= List.length data)%nat ->
  Forall (fun v => 0 <= v <= 100) data ->
  fst (drawLineChart c data) = true /\
  List.length (path_points (snd (drawLineChart c data))) = List.length data /\
  Forall (in_box c) (path_points (snd (drawLineChart c data))).
Proof.
  intros Hw Hh Hn Hv. unfold drawLineChart.
  replace (canvas_ok c) with true by (unfold canvas_ok; symmetry;
    apply andb_true_iff; split; apply negb_true_iff, Z.eqb_neq; lia).
  replace (Nat.ltb (List.length data) 2) with false by (symmetry; apply Nat.ltb_ge; lia).
  cbv beta iota zeta delta [negb fst snd]. autorewrite with js_rw. rewrite path_points_line, path_points_dots.
  cbn [path_points fst snd app]. rewrite !app_nil_r. split_and!; [done|apply length_indexed_points|].
  apply indexed_points_in_box; auto; lia.
Qed.

Lemma drawLineChart_in_box_witness :
  (80 <= cwidth progressCanvas)%Z /\
  Forall (in_box progressCanvas) (path_points (snd (drawLineChart progressCanvas (monthlyProgress datosProgreso)))).
Proof.
  split; [simpl; lia|].
  apply (drawLineChart_in_box progressCanvas (monthlyProgress datosProgreso)).
  - simpl; lia.
  - simpl; lia.
  - simpl; lia.
  - simpl. unfold inject_Z. repeat (apply List.Forall_cons; [lra|]). apply List.Forall_nil.
Defined.

(** C35. Error behaviour of the time chart: when every value is 0,
    [Math.max(...data)] is 0, each bar height is [0 / 0 = NaN], and
    [drawTimeChart] reports success while drawing no bar. *)
Theorem drawTimeChart_all_zero c data :
  canvas_ok c = true -> data <> [] -> Forall (fun v => v == 0) data ->
  fst (drawTimeChart c data) = true /\ drawn_rects (snd (drawTimeChart c data)) = [].
Proof.
  intros Hok Hne Hz. unfold drawTimeChart. rewrite Hok.
  destruct (Nat.eqb_spec (List.length data) 0) as [Hl|_]; [by destruct data|]. simpl.
  split; [done|]. apply drawn_rects_for_each. intros k x.
  assert (Hmx : Qeq_bool (list_max data) 0 = true).
  { apply Qeq_bool_iff. destruct data as [|v l]; [done|]. apply Forall_cons in Hz as [Hv Hl].
    by apply foldl_Qmax_zero. }
  unfold time_bar. simpl. by rewrite Hmx.
Qed.

Lemma drawTimeChart_all_zero_witness :
  Forall (fun v => v == 0) (zs [0; 0; 0]%Z) /\
  drawn_rects (snd (drawTimeChart timeCanvas (zs [0; 0; 0]%Z))) = [].
Proof.
  assert (Hz : Forall (fun v => v == 0) (zs [0; 0; 0]%Z)) by (simpl; repeat (apply List.Forall_cons; [reflexivity|]); apply List.Forall_nil).
  split; [exact Hz|]. apply (drawTimeChart_all_zero timeCanvas); [reflexivity|discriminate|exact Hz].
Defined.

End Charts.
