(* ===== verification/ProgresoView.v ===== *)
(** * ProgresoView: what [pages/Progreso.tsx] renders

    The JSX of the progress page (lines 303-490) as a [View.vnode] tree for
    the page's state: the header with the user's figures, the four tabs,
    the module rows (hidden in the compact view), the four canvases, the
    recent activities, the badges and the upcoming evaluations. Numbers are
    written as [String(n)] writes them; the page's numbers are integers and
    one-decimal values, whose exact decimal expansion is the shortest one
    JavaScript prints. [animateProgressBars] (lines 241-252) works on the
    rendered document: it selects every [.progress-fill] element, the
    upcoming evaluations' bars included. *)

From stdpp Require Import base list sets relations.
From Stdlib Require Import ZArith QArith String.
From S2P Require Import Prelude View Charts.

Import View Charts.

Module ProgresoView.

#[local] Open Scope string_scope.

(** ** [String(n)] of a number with a terminating decimal expansion *)

(** The fractional digits of [r / d] ([0 <= r < d]), at most [fuel]. *)
Fixpoint frac_digits (fuel : nat) (r d : Z) : string :=
  match fuel with
  | O => ""
  | S f => if (r =? 0)%Z then ""
           else String (digit_char (r * 10 / d)) (frac_digits f (r * 10 mod d) d)
  end.

Definition js_number_string (q : Q) : string :=
  let n := Qnum q in
  let d := Zpos (Qden q) in
  let a := Z.abs n in
  let fr := frac_digits 20 (a mod d) d in
  (if (n <? 0)%Z then "-" else "") ++ toString 10 (a / d) ++ (if String.eqb fr "" then "" else "." ++ fr).

(** ** The display-only data of [datosProgreso] (lines 30-44) *)

Record Activity := mkActivity { act_title : string; act_description : string; act_time : string;
                                act_color : string; act_icon : string }.
Record Badge := mkBadge { badge_name : string; badge_color : string; badge_icon : string }.
Record Upcoming := mkUpcoming { up_name : string; up_date : string; up_status : string }.

Definition activities : list Activity :=
  [mkActivity ("Complet" ++ ch 243 ++ " m" ++ ch 243 ++ "dulo")
     ("Finaliz" ++ ch 243 ++ " el m" ++ ch 243 ++ "dulo de Aspectos T" ++ ch 233 ++ "cnicos") "Hace 2 horas"
     "#43e97b" "fas fa-check";
   mkActivity ("Nueva puntuaci" ++ ch 243 ++ "n")
     ("Obtuvo 9/10 en evaluaci" ++ ch 243 ++ "n de Aspectos Jur" ++ ch 237 ++ "dicos") "Ayer"
     "#4facfe" "fas fa-star";
   mkActivity ("Inici" ++ ch 243 ++ " m" ++ ch 243 ++ "dulo")
     ("Comenz" ++ ch 243 ++ " el m" ++ ch 243 ++ "dulo de Seguro de Vida") ("Hace 3 d" ++ ch 237 ++ "as")
     "#fa709a" "fas fa-play"].

Definition badges : list Badge :=
  [mkBadge "Primer Curso" "#43e97b" "fas fa-trophy"; mkBadge "100% Nota" "#4facfe" "fas fa-medal";
   mkBadge ("R" ++ ch 225 ++ "pido") "#fa709a" "fas fa-bolt"; mkBadge "Constante" "#ff7e5f" "fas fa-fire"].

Definition upcoming : list Upcoming :=
  [mkUpcoming ("Evaluaci" ++ ch 243 ++ "n de Vida") "15 Feb 2026" "Pendiente";
   mkUpcoming "Examen Final" "28 Feb 2026" "Pendiente"].

(** ** The tree *)

(** [getStatusBadge(status)] (lines 293-302) as the element it returns. *)
Definition render_status_badge (status : string) : vnode :=
  let '(cls, icon) :=
    if String.eqb status "completed" then ("status-completed", "fas fa-check-circle")
    else if String.eqb status "in-progress" then ("status-in-progress", "fas fa-spinner")
    else ("status-pending", "fas fa-clock") in
  el "span" ("status-indicator " ++ cls) [el "i" icon []; VText (" " ++ getStatusBadge status)].

(** [module.score ? `${module.score}/10` : 'Sin evaluar'] *)
Definition score_label (score : option Q) : string :=
  match score with
  | Some q => if score_evaluated score then js_number_string q ++ "/10" else "Sin evaluar"
  | None => "Sin evaluar"
  end.

(** A module row (lines 367-381). *)
Definition render_module (s : ProgresoState) (index : nat) (m : ModuleProgress) : vnode :=
  el "div" ("progress-item " ++ if module_hidden s index then "hidden" else "") [
    el "div" "progress-header" [
      el "div" "progress-title" [VText (mp_name m)];
      el "div" "progress-percentage" [VText (toString 10 (mp_progress m)); VText "%"]];
    el "div" "progress-bar" [
      VElem "div" "progress-fill" [("data-progress", toString 10 (mp_progress m)); ("width", "0%")] []];
    el "div" "" [
      el "div" "" [render_status_badge (status m)];
      el "div" "" [VText ("Puntuaci" ++ ch 243 ++ "n: "); VText (score_label (score m))]]].

Fixpoint render_modules (s : ProgresoState) (index : nat) (l : list ModuleProgress) : list vnode :=
  match l with
  | [] => []
  | m :: l' => render_module s index m :: render_modules s (S index) l'
  end.

Definition tab_button (s : ProgresoState) (t label : string) : vnode :=
  el "button" ("tab " ++ if String.eqb (activeTab s) t then "active" else "") [VText label].

Definition canvas_node (c : Canvas) : vnode :=
  VElem "canvas" "" [("width", toString 10 (cwidth c)); ("height", toString 10 (cheight c))] [].

Definition card (title : string) (body : list vnode) : vnode :=
  el "div" "card" (el "div" "card-header" [el "h2" "card-title" [VText title]] :: body).

Definition render_activity (a : Activity) : vnode :=
  el "div" "activity-item" [
    VElem "div" "activity-icon" [("background", act_color a ++ "20"); ("color", act_color a)]
      [el "i" (act_icon a) []];
    el "div" "activity-content" [
      el "h4" "" [VText (act_title a)]; el "p" "" [VText (act_description a)];
      el "div" "activity-time" [VText (act_time a)]]].

Definition render_badge (b : Badge) : vnode :=
  el "div" "badge" [
    VElem "div" "badge-icon"
      [("background", "linear-gradient(135deg, " ++ badge_color b ++ ", " ++ adjustColor (badge_color b) (-20) ++ ")")]
      [el "i" (badge_icon b) []];
    el "div" "badge-name" [VText (badge_name b)]].

Definition render_upcoming (u : Upcoming) : vnode :=
  el "div" "progress-item" [
    el "div" "progress-header" [
      el "div" "progress-title" [VText (up_name u)];
      el "span" "status-indicator status-pending" [el "i" "fas fa-clock" []; VText " "; VText (up_status u)]];
    el "div" "" [el "i" "far fa-calendar-alt" []; VText " "; VText (up_date u)];
    el "div" "progress-bar" [VElem "div" "progress-fill" [("data-progress", "0"); ("width", "0%")] []]].

(** The header with the user's figures (lines 307-333). *)
Definition progreso_header (d : ProgressData) : vnode :=
  el "header" "dashboard-header" [
    el "div" "header-content" [
      el "div" "user-info" [
        VElem "div" "user-avatar" [("id", "user-avatar")] [VText (avatarInitials d)];
        el "div" "user-details" [
          VElem "h1" "" [("id", "user-name")] [VText (pd_name d)];
          VElem "p" "" [("id", "user-role")] [VText (role d)];
          VElem "p" "" [("id", "user-department")] [VText (department d)]]];
      el "div" "user-stats" [
        el "div" "user-stat" [
          VElem "div" "value" [("id", "overall-progress")] [VText (toString 10 (overallProgress d)); VText "%"];
          el "div" "label" [VText "Progreso Total"]];
        el "div" "user-stat" [
          VElem "div" "value" [("id", "completed-modules")]
            [VText (toString 10 (completedModules d)); VText "/"; VText (toString 10 (totalModules d))];
          el "div" "label" [VText ("M" ++ ch 243 ++ "dulos Completados")]];
        el "div" "user-stat" [
          VElem "div" "value" [("id", "average-score")] [VText (js_number_string (averageScore d))];
          el "div" "label" [VText ("Puntuaci" ++ ch 243 ++ "n Promedio")]]]]].

(** The four tabs (lines 336-349). *)
Definition progreso_tabs (s : ProgresoState) : vnode :=
  el "div" "tabs" [tab_button s "progress" "Progreso"; tab_button s "performance" "Rendimiento";
                   tab_button s "achievements" "Logros"; tab_button s "comparison" "Comparativa"].

(** The two columns (lines 352-469). *)
Definition progreso_main (s : ProgresoState) (d : ProgressData) : vnode :=
  el "div" "dashboard-main" [
    el "div" "main-column" [
      el "div" "card" [
        el "div" "card-header" [
          el "h2" "card-title" [VText ("Progreso de Capacitaci" ++ ch 243 ++ "n")];
          el "div" "card-actions" [
            el "button" "btn btn-outline" [el "i" "fas fa-exchange-alt" []; VText " Cambiar Vista"]]];
        VElem "div" "progress-list" [("id", "progress-list")] (render_modules s 0 (pd_modules d));
        el "div" "chart-container" [canvas_node progressCanvas]];
      card "Comparativa de Rendimiento" [el "div" "chart-container" [canvas_node performanceCanvas]]];
    el "div" "sidebar-column" [
      card "Actividad Reciente" [VElem "div" "activity-feed" [("id", "activity-feed")] (map render_activity activities)];
      card "Logros Obtenidos" [VElem "div" "badges-container" [("id", "badges-container")] (map render_badge badges)];
      card ("Pr" ++ ch 243 ++ "ximas Evaluaciones")
        [VElem "div" "upcoming-list" [("id", "upcoming-list")] (map render_upcoming upcoming)]]].

(** The footer with the two small charts (lines 472-486). *)
Definition progreso_footer : vnode :=
  el "div" "dashboard-footer" [
    el "div" "card" [el "h3" "card-title" [VText ("Tiempo de Capacitaci" ++ ch 243 ++ "n")];
                     el "div" "chart-container" [canvas_node timeCanvas]];
    el "div" "card" [el "h3" "card-title" [VText ("Progreso por Categor" ++ ch 237 ++ "a")];
                     el "div" "chart-container" [canvas_node categoryCanvas]]].

(** The page (lines 304-488). *)
Definition render_progreso (s : ProgresoState) : vnode :=
  el "div" "container" [progreso_header datosProgreso; progreso_tabs s; progreso_main s datosProgreso; progreso_footer].

(** [animateProgressBars]: the widths it sets, in document order, on the
    [.progress-fill] elements whose [data-progress] is truthy. *)
Definition animateProgressBars (s : ProgresoState) : list string :=
  omap (fun e => match attr "data-progress" e with
                 | Some p => if String.eqb p "" then None else Some (p ++ "%")
                 | None => None
                 end) (by_class "progress-fill" (render_progreso s)).

(** What a user reads off the page: the label of the active tab, and the
    titles of the progress rows not hidden by the compact view. *)
Definition tab_labels : list (string * string) :=
  [("progress", "Progreso"); ("performance", "Rendimiento");
   ("achievements", "Logros"); ("comparison", "Comparativa")].

Definition active_tabs (s : ProgresoState) : list string :=
  text_of <$> filter (fun e => has_class "active" e = true) (by_class "tab" (render_progreso s)).

Definition visible_titles (s : ProgresoState) : list string :=
  text_of <$> (filter (fun e => has_class "hidden" e = false) (by_class "progress-item" (render_progreso s))
                 ≫= by_class "progress-title").

Definition score_labels (s : ProgresoState) : list string :=
  (fun e => match e with VElem _ _ _ [_; VText x] => x | _ => "" end) <$>
  filter (fun e => match e with VElem _ _ _ [VText l; _] => String.eqb l ("Puntuaci" ++ ch 243 ++ "n: ")
                              | _ => false end = true)
         (elements (render_progreso s)).

(** The states the tab and view buttons can produce. *)
Definition progreso_state_ok (s : ProgresoState) : Prop :=
  activeTab s ∈ tabs /\ currentView s ∈ ["detailed"; "compact"].

(** * Lemmas *)

Lemma progreso_state_ok_step p q :
  progreso_step p q -> progreso_state_ok (pstate p) -> progreso_state_ok (pstate q).
Proof.
  intros [t p' Ht|p'|t p' _] [Ht' Hv]; simpl; split; try done.
  destruct p' as [[a v] ts c]; simpl in *.
  repeat (apply elem_of_cons in Hv as [->|Hv]; [compute_done|]). set_solver.
Qed.

Lemma progreso_state_ok_reachable now p :
  rtc progreso_step (initialProgresoPage now) p -> progreso_state_ok (pstate p).
Proof.
  intros Hr. assert (progreso_state_ok (pstate (initialProgresoPage now))) as H0 by (split; compute_done).
  induction Hr as [|x y z Hxy _ IH]; [done|]. eauto using progreso_state_ok_step.
Qed.

Lemma progreso_state_cases s :
  progreso_state_ok s ->
  exists t v, s = mkProgresoState t v /\ t ∈ tabs /\ (v = "detailed" \/ v = "compact").
Proof. destruct s as [t v]. intros [Ht Hv]. exists t, v. set_solver. Qed.

Lemma js_number_string_examples :
  js_number_string (17 # 2) = "8.5" /\ js_number_string 9 = "9" /\ js_number_string (-3 # 4) = "-0.75".
Proof. split_and!; reflexivity. Qed.

(** C36. On every page state the tab and view buttons reach, exactly one tab
    is marked active, the one of [activeTab]; the compact view hides the
    module rows from the fourth on and nothing else, the upcoming
    evaluations included; the scores read [9/10], [8.5/10] and three times
    [Sin evaluar]; and [animateProgressBars] sets the width of all seven
    [.progress-fill] bars, the two upcoming evaluations' bars to [0%]. *)
Theorem progreso_render now p :
  rtc progreso_step (initialProgresoPage now) p ->
  (exists l, (activeTab (pstate p), l) ∈ tab_labels /\ active_tabs (pstate p) = [l]) /\
  visible_titles (pstate p) =
    ((mp_name <$> (if String.eqb (currentView (pstate p)) "compact" then take 3 else id)
                    (pd_modules datosProgreso)) ++ (up_name <$> upcoming))%list /\
  score_labels (pstate p) = ["9/10"; "8.5/10"; "Sin evaluar"; "Sin evaluar"; "Sin evaluar"] /\
  animateProgressBars (pstate p) = ["100%"; "100%"; "75%"; "60%"; "40%"; "0%"; "0%"].
Proof.
  intros Hr. destruct (progreso_state_cases _ (progreso_state_ok_reachable _ _ Hr)) as (t & v & -> & Ht & Hv).
  simpl. repeat (apply elem_of_cons in Ht as [->|Ht]; [destruct Hv as [->| ->];
    (split; [eexists; split; [compute_done|vm_compute; reflexivity]|split_and!; vm_compute; reflexivity])|]).
  set_solver.
Qed.

(** The page after the view button: the compact view. *)
Lemma progreso_render_witness :
  rtc progreso_step (initialProgresoPage 0) (progreso_dispatch PToggle (initialProgresoPage 0)) /\
  visible_titles (pstate (progreso_dispatch PToggle (initialProgresoPage 0))) =
    ["Aspectos Jur" ++ ch 237 ++ "dicos"; "Aspectos T" ++ ch 233 ++ "cnicos"; "Bases T" ++ ch 233 ++ "cnicas";
     "Evaluaci" ++ ch 243 ++ "n de Vida"; "Examen Final"].
Proof.
  assert (Hr : rtc progreso_step (initialProgresoPage 0) (progreso_dispatch PToggle (initialProgresoPage 0)))
    by (apply rtc_once; constructor).
  split; [exact Hr|]. destruct (progreso_render 0 _ Hr) as (_ & -> & _). reflexivity.
Defined.

End ProgresoView.
