(* ===== verification/LoginPage.v ===== *)
(** * LoginPage: the login form of [pages/Login.tsx]

    The page keeps the form's [credentials] (lines 35-39) and reads the
    session store, whose event loop is [AuthStore.sys_dispatch]. Its
    handlers: [handleChange] (lines 48-52) updates one field and clears a
    shown error; [handleSubmit] (lines 54-57) calls [login], which here is
    the [ELogin] event, its continuation arriving later as an [ETimer]
    event; [handleDemoAccess] and [handleQuickDemo] (lines 59-80) fill the
    email and company and empty the password; the effect of lines 42-46
    navigates to [/dashboard] once the store is authenticated. The browser
    submits the form only when the [required] fields are filled and the
    [type="email"] field is valid, and not while the submit button is
    [disabled] (line 156); the browser's email check is the section
    variable [html_email]. *)

From stdpp Require Import base list relations.
From Stdlib Require Import String Bool Lia.
From S2P Require Import Prelude View Logo ExamTypes Validation AuthStore.

Import View Validation AuthStore.

Module LoginPage.

#[local] Open Scope string_scope.

(** [aseguradoras] (lines 9-18): the [id] and the [name] of each insurer. *)
Definition aseguradoras : list (string * string) :=
  [("GNP", "GNP (Grupo Nacional Provincial)"); ("AXA", "AXA México");
   ("Banorte", "Banorte Seguros"); ("BBVA", "BBVA Seguros"); ("Chubb", "Chubb México");
   ("HSBC", "HSBC Seguros"); ("MetLife", "MetLife México"); ("Primero", "Primero Seguros")].

(** The [id]s, the values of the company [select] besides the empty
    placeholder. *)
Definition aseguradora_ids : list string := fst <$> aseguradoras.

(** [PASSWORD_REQUIREMENTS] (line 29). *)
Definition PASSWORD_REQUIREMENTS : string :=
  "Mínimo 12 caracteres: 1 mayúscula, 1 minúscula, 1 número y 1 carácter especial".

(** [demoUsers] (lines 22-26). *)
Record DemoEntry := mkDemoEntry { demo_email : string; demo_company : string }.

Definition demoUsers : list DemoEntry :=
  [mkDemoEntry "demo@gnp.com" "GNP"; mkDemoEntry "demo@axa.com" "AXA";
   mkDemoEntry "demo@banorte.com" "Banorte"].

(** The [name] attribute of the three inputs. *)
Inductive Field := FCompany | FEmail | FPassword.

Record LoginPage := mkLoginPage {
  credentials : LoginCredentials;
  system : System;
  location : option string
}.

Definition emptyCredentials : LoginCredentials := mkCredentials "" "" "".

Definition initialLoginPage (sy : System) : LoginPage := mkLoginPage emptyCredentials sy None.

(** [setCredentials(prev => ({ ...prev, [name]: value }))] *)
Definition set_field (f : Field) (value : string) (c : LoginCredentials) : LoginCredentials :=
  match f with
  | FCompany => mkCredentials (cred_email c) (cred_password c) value
  | FEmail => mkCredentials value (cred_password c) (cred_company c)
  | FPassword => mkCredentials (cred_email c) value (cred_company c)
  end.

(** [if (error)]: a string is truthy when it is not empty. *)
Definition error_truthy (e : option string) : bool :=
  match e with Some m => negb (String.eqb m "") | None => false end.

Section Form.

Context (html_email : string -> bool).

(** The browser's constraint validation: [required] on the three fields
    and [type="email"]. *)
Definition form_valid (c : LoginCredentials) : bool :=
  negb (String.eqb (cred_company c) "") && negb (String.eqb (cred_email c) "") &&
  negb (String.eqb (cred_password c) "") && html_email (cred_email c).

(** [handleChange]: the field, then [clearError()] when an error shows. *)
Definition handleChange (f : Field) (value : string) (p : LoginPage) : LoginPage :=
  let sy := system p in
  mkLoginPage (set_field f value (credentials p))
    (if error_truthy (error (auth sy)) then sys_dispatch EClearError sy else sy)
    (location p).

(** A submission: nothing while the button is disabled or the browser
    refuses the form, otherwise [login(credentials)]. *)
Definition handleSubmit (p : LoginPage) : LoginPage :=
  let sy := system p in
  if isLoading (auth sy) || negb (form_valid (credentials p)) then p
  else mkLoginPage (credentials p) (sys_dispatch (ELogin (credentials p)) sy) (location p).

Definition handleDemoAccess (d : DemoEntry) (p : LoginPage) : LoginPage :=
  mkLoginPage (mkCredentials (demo_email d) "" (demo_company d)) (system p) (location p).

Definition handleQuickDemo (p : LoginPage) : LoginPage :=
  mkLoginPage (mkCredentials "demo@gnp.com" "" "GNP") (system p) (location p).

(** The effect of lines 42-46. *)
Definition navigate_effect (p : LoginPage) : LoginPage :=
  if isAuthenticated (auth (system p)) then mkLoginPage (credentials p) (system p) (Some "/dashboard")
  else p.

Inductive LoginEvent :=
| LChange (f : Field) (value : string)
| LSubmit
| LDemo (d : DemoEntry)
| LQuickDemo
| LTimer (freshId : string).

(** The handler of an event; a timer firing is the continuation of a
    pending [login]. *)
Definition page_handler (ev : LoginEvent) (p : LoginPage) : LoginPage :=
  match ev with
  | LChange f v => handleChange f v p
  | LSubmit => handleSubmit p
  | LDemo d => handleDemoAccess d p
  | LQuickDemo => handleQuickDemo p
  | LTimer freshId => mkLoginPage (credentials p) (sys_dispatch (ETimer freshId) (system p)) (location p)
  end.

(** The handler, then the effect after the render. *)
Definition login_dispatch (ev : LoginEvent) (p : LoginPage) : LoginPage :=
  navigate_effect (page_handler ev p).

Definition login_run (evs : list LoginEvent) (p : LoginPage) : LoginPage :=
  foldl (fun q ev => login_dispatch ev q) p evs.

(** The demo buttons are the entries of [demoUsers]; the company [select]
    offers the placeholder and the insurers. *)
Definition login_enabled (ev : LoginEvent) : Prop :=
  match ev with
  | LDemo d => d ∈ demoUsers
  | LChange FCompany v => v ∈ "" :: aseguradora_ids
  | _ => True
  end.

Inductive login_step : LoginPage -> LoginPage -> Prop :=
| login_step_event ev p : login_enabled ev -> login_step p (login_dispatch ev p).

End Form.

(** ** What the page renders (lines 82-201) *)

(** The submit button (lines 153-163): disabled while loading, with the
    loading label inside a span. *)
Definition submit_button (loading : bool) : vnode :=
  VElem "button" "login-button" (("type", "submit") :: if loading then [("disabled", "")] else [])
    [if loading then el "span" "button-loading" [VText "Iniciando sesión..."] else VText "Iniciar Sesión"].

(** The form (lines 95-164): the error banner [{error && ...}], the three
    fields with their values, the requirements, the submit button. *)
Definition render_form (s : AuthState) (c : LoginCredentials) : vnode :=
  VElem "form" "login-form" []
    ((match error s with Some e => when (error_truthy (Some e)) (el "div" "login-error" [VText e]) | None => [] end) ++
     [el "div" "form-group" [
        VElem "label" "" [("htmlFor", "company")] [VText "Aseguradora"];
        VElem "select" "form-input" [("id", "company"); ("name", "company"); ("value", cred_company c); ("required", "")]
          (VElem "option" "" [("value", "")] [VText "Selecciona tu aseguradora"] ::
           map (fun a => VElem "option" "" [("value", a.1)] [VText a.2]) aseguradoras)];
      el "div" "form-group" [
        VElem "label" "" [("htmlFor", "email")] [VText "Correo Electrónico"];
        VElem "input" "form-input" [("type", "email"); ("id", "email"); ("name", "email"); ("value", cred_email c);
                                    ("placeholder", "correo@empresa.com"); ("required", "")] []];
      el "div" "form-group" [
        VElem "label" "" [("htmlFor", "password")] [VText "Contraseña"];
        VElem "input" "form-input" [("type", "password"); ("id", "password"); ("name", "password");
                                    ("value", cred_password c); ("placeholder", "••••••••"); ("required", "");
                                    ("aria-describedby", "password-requirements")] [];
        VElem "span" "password-requirements" [("id", "password-requirements")] [VText PASSWORD_REQUIREMENTS]];
      submit_button (isLoading s)])%list.

(** The page: background, card with header, form and demo buttons, and the
    footer. *)
Definition render_login (p : LoginPage) : vnode :=
  el "div" "login-container" [
    VElem "img" "login-background" [("src", "login1.png"); ("alt", "Login Background")] [];
    el "div" "login-overlay" [];
    el "div" "login-card" [
      el "div" "login-header" [
        el "div" "login-logo" [Logo.Logo (Logo.mkLogoProps (Some Logo.Medium) None)];
        el "h1" "login-title" [VText "GProA"];
        el "p" "login-subtitle" [VText "Capacitación Bancos y Aseguradoras"]];
      render_form (auth (system p)) (credentials p);
      el "div" "login-demo-section" [
        el "div" "demo-divider" [el "span" "" [VText "o"]];
        VElem "button" "demo-button" [("type", "button")] [VText "🚀 Acceso Demo Rápido"];
        el "div" "demo-users" [
          el "p" "demo-users-title" [VText "Demo por aseguradora:"];
          el "div" "demo-users-list"
            (map (fun d => VElem "button" "demo-user-button" [("type", "button")] [VText (demo_company d)]) demoUsers)]]];
    el "div" "login-footer" [el "p" "" [VText "© 2024 GProA - CNSF. Todos los derechos reservados."]]].

(** The texts of the error banners the page shows. *)
Definition error_banners (p : LoginPage) : list string := text_of <$> by_class "login-error" (render_login p).

(** The messages the session store records: the email check, the password
    checks of [validatePasswordStrength], and the credential check. *)
Definition login_messages : list string :=
  ["Formato de email inválido"; "Credenciales inválidas";
   "La contraseña debe tener al menos 12 caracteres";
   "La contraseña debe contener al menos una mayúscula";
   "La contraseña debe contener al menos una minúscula";
   "La contraseña debe contener al menos un número";
   "La contraseña debe contener al menos un carácter especial"].

(** The store's error, when set, is one of its messages as written. *)
Definition error_ok (sy : System) : Prop :=
  forall e, error (auth sy) = Some e -> e ∈ login_messages.

(** Sessions opened through the page carry one of the insurers: queued
    logins and the current user. *)
Definition companies_ok (sy : System) : Prop :=
  Forall (fun c => cred_company c ∈ aseguradora_ids) (pending sy) /\
  (forall u, user (auth sy) = Some u -> company u ∈ aseguradora_ids).

(** The page invariant: the store's identity invariant, the company field
    holds a value of the [select], sessions carry an insurer, and the page
    has navigated exactly when the store is authenticated. *)
Definition page_ok (p : LoginPage) : Prop :=
  sys_ok (system p) /\ cred_company (credentials p) ∈ "" :: aseguradora_ids /\
  companies_ok (system p) /\
  location p = (if isAuthenticated (auth (system p)) then Some "/dashboard" else None).

(** * Lemmas *)

Lemma aseguradora_ids_eq :
  aseguradora_ids = ["GNP"; "AXA"; "Banorte"; "BBVA"; "Chubb"; "HSBC"; "MetLife"; "Primero"].
Proof. reflexivity. Qed.

Lemma ids_sanitize i : i ∈ aseguradora_ids -> sanitizeInput i = i.
Proof. rewrite aseguradora_ids_eq. intros Hi. repeat (apply elem_of_cons in Hi as [->|Hi]; [reflexivity|]). set_solver. Qed.

Lemma demo_user_company k d : assoc_lookup k DEMO_USERS = Some d -> d_company d ∈ aseguradora_ids.
Proof. rewrite aseguradora_ids_eq. simpl. repeat case_match; intros; simplify_eq; set_solver. Qed.

Lemma login_begin_user c s : user (login_begin c s).1 = user s.
Proof. unfold login_begin. by repeat case_match. Qed.

Lemma login_finish_company c freshId s :
  cred_company c ∈ aseguradora_ids ->
  (forall u, user s = Some u -> company u ∈ aseguradora_ids) ->
  forall u, user (login_finish c freshId s) = Some u -> company u ∈ aseguradora_ids.
Proof.
  intros Hc Hs u. unfold login_finish.
  destruct (assoc_lookup _ _) as [d|] eqn:Hd; [|case_match]; simpl; [| |apply Hs];
    intros; simplify_eq/=; [apply (demo_user_company _ _ Hd)|by rewrite ids_sanitize].
Qed.

Lemma companies_ok_dispatch ev sy :
  companies_ok sy -> (forall c, ev = ELogin c -> cred_company c ∈ aseguradora_ids) ->
  companies_ok (sys_dispatch ev sy).
Proof.
  intros [Hp Hu] Hev. destruct ev as [c|freshId| | | |]; simpl.
  - destruct (login_begin c (auth sy)) as [s' cont] eqn:E.
    pose proof (login_begin_user c (auth sy)) as Hb. rewrite E in Hb. simpl in Hb.
    split; [case_match; [apply Forall_app; split; [done|constructor; [by apply Hev|done]]|done]|].
    simpl. rewrite Hb. done.
  - destruct (pending sy) as [|c rest] eqn:Hq; [split; [by rewrite Hq|exact Hu]|]. apply Forall_cons in Hp as [Hc Hp].
    split; [done|]. by apply login_finish_company.
  - split; [done|]. by intros u.
  - done.
  - done.
  - split; [constructor|done].
Qed.

(** Only a logout ends a session. *)
Lemma dispatch_keeps_auth ev sy :
  ev <> ELogout -> isAuthenticated (auth sy) = true -> isAuthenticated (auth (sys_dispatch ev sy)) = true.
Proof.
  intros Hne Ha. destruct ev as [c|freshId| | | |]; simpl; try done.
  - destruct (login_begin c (auth sy)) as [s' cont] eqn:E. simpl.
    unfold login_begin in E. by repeat case_match; simplify_eq.
  - destruct (pending sy) as [|c rest]; [done|]. unfold login_finish. by repeat case_match.
Qed.

Section PageLemmas.

Context (html_email : string -> bool).

Lemma page_handler_location ev p : location (page_handler html_email ev p) = location p.
Proof. destruct ev; unfold page_handler, handleSubmit; by repeat case_match. Qed.

(** A handler changes the store by at most one event, never a logout, and
    submits the form's credentials only when the browser accepts them. *)
Lemma page_handler_system ev p :
  system (page_handler html_email ev p) = system p \/
  exists e, e <> ELogout /\
    (forall c, e = ELogin c -> c = credentials p /\ form_valid html_email c = true) /\
    system (page_handler html_email ev p) = sys_dispatch e (system p).
Proof.
  destruct ev as [f v| |d| |freshId]; simpl; try (left; reflexivity).
  - case_match; [right; exists EClearError; naive_solver|by left].
  - unfold handleSubmit. destruct (isLoading _ || _) eqn:Hb; [by left|right].
    apply orb_false_iff in Hb as [_ Hv]. apply negb_false_iff in Hv.
    exists (ELogin (credentials p)). naive_solver.
  - right. exists (ETimer freshId). naive_solver.
Qed.

Lemma page_handler_company ev p :
  login_enabled ev -> cred_company (credentials p) ∈ "" :: aseguradora_ids ->
  cred_company (credentials (page_handler html_email ev p)) ∈ "" :: aseguradora_ids.
Proof.
  intros Hen Hc. destruct ev as [[] v| |d| |freshId]; simpl in *; [exact Hen|exact Hc|exact Hc| | |compute_done|exact Hc].
  - unfold handleSubmit. by case_match.
  - repeat (apply elem_of_cons in Hen as [->|Hen]; [compute_done|]). set_solver.
Qed.

Lemma form_valid_company c :
  form_valid html_email c = true -> cred_company c ∈ "" :: aseguradora_ids ->
  cred_company c ∈ aseguradora_ids.
Proof.
  unfold form_valid. intros Hv [Hc|Hc]%elem_of_cons; [rewrite Hc in Hv; simpl in Hv; discriminate|done].
Qed.

Lemma navigate_effect_idem p : navigate_effect (navigate_effect p) = navigate_effect p.
Proof. unfold navigate_effect. destruct (isAuthenticated (auth (system p))) eqn:E; simpl; rewrite ?E; reflexivity. Qed.

Lemma page_ok_initial : page_ok (initialLoginPage initialSystem).
Proof.
  split_and!; [apply sys_ok_initial|set_solver|split; [constructor|done]|reflexivity].
Qed.

Lemma page_ok_dispatch ev p :
  login_enabled ev -> page_ok p -> page_ok (login_dispatch html_email ev p).
Proof.
  intros Hen (Hsys & Hc & Hcomp & Hloc).
  pose proof (page_handler_location ev p) as Hl.
  pose proof (page_handler_company ev p Hen Hc) as Hc'.
  pose proof (page_handler_system ev p) as Hs.
  set (q := page_handler html_email ev p) in *.
  assert (Hq : sys_ok (system q) /\ companies_ok (system q) /\
    (isAuthenticated (auth (system p)) = true -> isAuthenticated (auth (system q)) = true)).
  { destruct Hs as [->|(e & Hne & He & ->)]; [done|].
    split_and!; [by apply sys_ok_dispatch|apply companies_ok_dispatch; [done|]|by apply dispatch_keeps_auth].
    intros c ->. destruct (He c eq_refl) as [-> Hv]. by apply form_valid_company. }
  destruct Hq as (Hsys' & Hcomp' & Hmono).
  unfold login_dispatch, navigate_effect. fold q.
  destruct (isAuthenticated (auth (system q))) eqn:Ha; split_and!; try done; simpl; rewrite Ha; [done|].
  rewrite Hl, Hloc. destruct (isAuthenticated (auth (system p))) eqn:Hp; [|done].
  pose proof (Hmono ltac:(done)). congruence.
Qed.

Lemma credentials_navigate p : credentials (navigate_effect p) = credentials p.
Proof. unfold navigate_effect. by case_match. Qed.

(** The [required] password: an empty one never passes the browser. *)
Lemma handleSubmit_no_password p :
  cred_password (credentials p) = "" -> handleSubmit html_email p = p.
Proof.
  intros Hpw. unfold handleSubmit, form_valid. rewrite Hpw. simpl.
  by rewrite andb_false_r, orb_true_r.
Qed.

Lemma handleSubmit_valid p :
  isLoading (auth (system p)) = false -> form_valid html_email (credentials p) = true ->
  handleSubmit html_email p = mkLoginPage (credentials p) (sys_dispatch (ELogin (credentials p)) (system p)) (location p).
Proof. unfold handleSubmit. by intros -> ->. Qed.

Lemma valid_password_nonempty pw : valid (validatePasswordStrength pw) = true -> pw <> "".
Proof. by intros Hv ->. Qed.

(** ** The store's messages and the rendered page *)

Lemma login_messages_plain m : m ∈ login_messages -> sanitizeInput m = m.
Proof. intros Hm. repeat (apply elem_of_cons in Hm as [->|Hm]; [reflexivity|]). set_solver. Qed.

Lemma password_message_in p :
  valid (validatePasswordStrength p) = false -> message (validatePasswordStrength p) ∈ login_messages.
Proof. unfold validatePasswordStrength. repeat case_match; simpl; intros; try discriminate; compute_done. Qed.

Lemma sanitize_message_in m : m ∈ login_messages -> sanitizeInput m ∈ login_messages.
Proof. intros Hm. by rewrite login_messages_plain. Qed.

Lemma error_ok_dispatch ev sy : error_ok sy -> error_ok (sys_dispatch ev sy).
Proof.
  unfold error_ok. intros Hok. destruct ev as [c|freshId| | | |]; simpl; try done.
  - destruct (login_begin c (auth sy)) as [s' cont] eqn:E. simpl.
    unfold login_begin in E. repeat case_match; simplify_eq; simpl; try done;
      intros e [= <-]; apply sanitize_message_in; [compute_done|].
    by apply password_message_in, negb_true_iff.
  - destruct (pending sy) as [|c rest]; [done|]. simpl. unfold login_finish.
    repeat case_match; simpl; try done. intros e [= <-]. apply sanitize_message_in. compute_done.
Qed.

Lemma rtc_login_run evs p :
  Forall login_enabled evs -> rtc (login_step html_email) p (login_run html_email evs p).
Proof.
  revert p. induction evs as [|ev evs IH]; intros p Hall; [apply rtc_refl|].
  apply Forall_cons in Hall as [Hen Hall]. eapply rtc_l; [by constructor|]. by apply IH.
Qed.

Lemma system_navigate q : system (navigate_effect q) = system q.
Proof. unfold navigate_effect. by case_match. Qed.

Lemma error_ok_login_dispatch ev p : error_ok (system p) -> error_ok (system (login_dispatch html_email ev p)).
Proof.
  intros Hok. unfold login_dispatch. rewrite system_navigate.
  destruct (page_handler_system ev p) as [->|(e & _ & _ & ->)]; [done|]. by apply error_ok_dispatch.
Qed.

Lemma render_form_banner s c :
  text_of <$> by_class "login-error" (render_form s c) =
    match error s with Some e => if error_truthy (Some e) then [e] else [] | None => [] end.
Proof.
  destruct s as [u a l [e|]]; unfold render_form; cbn [error isLoading];
    [destruct (error_truthy (Some e))|]; destruct l; simpl; rewrite ?str_app_nil_r; reflexivity.
Qed.

Lemma render_login_banner p :
  error_banners p = match error (auth (system p)) with
                    | Some e => if error_truthy (Some e) then [e] else [] | None => [] end.
Proof.
  destruct p as [c [[u a l [e|]] q] loc]; unfold error_banners, render_login, render_form;
    cbn [auth system error isLoading]; [destruct (error_truthy (Some e))|]; destruct l;
    simpl; rewrite ?str_app_nil_r; reflexivity.
Qed.

Lemma render_login_button p :
  attr "disabled" <$> by_class "login-button" (render_login p) =
    [if isLoading (auth (system p)) then Some "" else None].
Proof.
  destruct p as [c [[u a l [e|]] q] loc]; unfold render_login, render_form;
    cbn [auth system error isLoading]; [destruct (error_truthy (Some e))|]; destruct l; reflexivity.
Qed.

End PageLemmas.

Lemma invalid_email_message_plain :
  sanitizeInput "Formato de email inválido" = "Formato de email inválido".
Proof. reflexivity. Qed.

(** * Theorems *)

Section PageTheorems.

Context (html_email : string -> bool).

(** C27. The login page's invariant holds in every state reachable from the
    empty form on a fresh store: the store keeps its identity invariant,
    the company field holds a value of the [select], every queued login
    and every logged-in user carries one of the eight insurers, and the
    page has navigated to [/dashboard] exactly when the store is
    authenticated. *)
Theorem login_page_ok p :
  rtc (login_step html_email) (initialLoginPage initialSystem) p -> page_ok p.
Proof.
  intros Hr. remember (initialLoginPage initialSystem) as p0 eqn:E.
  assert (H0 : page_ok p0) by (subst; apply page_ok_initial). clear E.
  induction Hr as [|x y z [ev q Hen] _ IH]; [done|]. by apply IH, page_ok_dispatch.
Qed.

(** C31. What the login page shows of the session store, in every state
    reachable from the empty form: either no error banner, or exactly one,
    whose text is one of the store's messages as written in the source
    (the escaping of [sanitizeInput] leaves them unchanged, so no entity is
    ever displayed); and the submit button is disabled exactly while the
    store is loading. *)
Theorem login_render_messages p :
  rtc (login_step html_email) (initialLoginPage initialSystem) p ->
  (error_banners p = [] \/
   exists m, m ∈ login_messages /\ error (auth (system p)) = Some m /\ error_banners p = [m]) /\
  attr "disabled" <$> by_class "login-button" (render_login p) =
    [if isLoading (auth (system p)) then Some "" else None].
Proof.
  intros Hr. split; [|apply render_login_button].
  assert (Hok : error_ok (system p)).
  { remember (initialLoginPage initialSystem) as p0 eqn:E.
    assert (H0 : error_ok (system p0)) by (subst; by intros e He). clear E.
    induction Hr as [|x y z [ev q _] _ IH]; [done|]. by apply IH, error_ok_login_dispatch. }
  rewrite render_login_banner. destruct (error (auth (system p))) as [e|] eqn:He; [|by left].
  right. exists e. pose proof (Hok e He) as Hin. split_and!; [done|done|].
  destruct (error_truthy (Some e)) eqn:Ht; [done|].
  unfold error_truthy in Ht. apply negb_false_iff, String.eqb_eq in Ht. subst. compute in Hin.
  repeat (apply elem_of_cons in Hin as [Hin|Hin]; [discriminate|]). set_solver.
Qed.

(** C28. The demo buttons never log in by themselves: they fill the email
    and company and empty the password, so a submission right after one
    of them is refused by the browser and changes nothing. *)
Theorem demo_buttons_need_password d p :
  login_dispatch html_email LSubmit (login_dispatch html_email (LDemo d) p) =
    login_dispatch html_email (LDemo d) p /\
  login_dispatch html_email LSubmit (login_dispatch html_email LQuickDemo p) =
    login_dispatch html_email LQuickDemo p.
Proof.
  unfold login_dispatch. simpl page_handler.
  rewrite !handleSubmit_no_password by (by rewrite credentials_navigate).
  by rewrite !navigate_effect_idem.
Qed.

(** C29. The demo sign-in path works: after the quick demo button, typing a
    strong password and submitting, the login's timer lands the page on
    [/dashboard] with the GNP demo profile, provided the browser accepts
    [demo@gnp.com]. *)
Theorem quick_demo_login pw freshId :
  html_email "demo@gnp.com" = true -> valid (validatePasswordStrength pw) = true ->
  let p := login_run html_email [LQuickDemo; LChange FPassword pw; LSubmit; LTimer freshId]
             (initialLoginPage initialSystem) in
  location p = Some "/dashboard" /\
  user (auth (system p)) = Some (mkUser freshId "Juan Pérez" "demo@gnp.com" "GNP" Agent None).
Proof.
  intros Hh Hv. set (c := mkCredentials "demo@gnp.com" pw "GNP").
  assert (Hf : form_valid html_email c = true).
  { unfold form_valid, c. cbn [cred_company cred_email cred_password]. rewrite Hh.
    destruct (String.eqb pw "") eqn:E; [|reflexivity].
    by apply String.eqb_eq, valid_password_nonempty in E. }
  assert (Hb : login_begin c initialAuth = (mkAuthState None false true None, true)).
  { unfold login_begin, c. cbn [cred_email cred_password].
    replace (email_test "demo@gnp.com") with true by (vm_compute; reflexivity). by rewrite Hv. }
  assert (E2 : login_dispatch html_email (LChange FPassword pw)
                 (login_dispatch html_email LQuickDemo (initialLoginPage initialSystem)) =
               mkLoginPage c initialSystem None) by reflexivity.
  assert (E3 : login_dispatch html_email LSubmit (mkLoginPage c initialSystem None) =
               mkLoginPage c (mkSystem (mkAuthState None false true None) [c]) None).
  { unfold login_dispatch, page_handler. rewrite handleSubmit_valid by done.
    cbn [system credentials location]. unfold sys_dispatch. cbn [auth]. unfold initialSystem.
    cbn [auth]. rewrite Hb. reflexivity. }
  unfold login_run. cbn [foldl]. rewrite E2, E3. split; reflexivity.
Qed.

(** C30. A form the browser accepts but [EMAIL_REGEX] rejects shows the
    store's [Formato de email inválido] message, queues no login, and the
    next keystroke in any field clears the message. *)
Theorem rejected_email_error_cleared p f v :
  isLoading (auth (system p)) = false -> form_valid html_email (credentials p) = true ->
  email_test (cred_email (credentials p)) = false ->
  let p1 := login_dispatch html_email LSubmit p in
  error (auth (system p1)) = Some "Formato de email inválido" /\
  pending (system p1) = pending (system p) /\
  error (auth (system (login_dispatch html_email (LChange f v) p1))) = None.
Proof.
  intros Hl Hv He. cbv [login_dispatch page_handler handleSubmit handleChange].
  rewrite Hl, Hv. simpl. unfold login_begin. simpl. rewrite He. simpl.
  unfold fail_with, navigate_effect. rewrite invalid_email_message_plain. simpl.
  by repeat (case_match; simpl).
Qed.

End PageTheorems.

Lemma login_render_messages_witness :
  let p := login_run (fun _ => true) [LChange FCompany "GNP"; LChange FEmail "ana@aseguradora";
                                      LChange FPassword "x"; LSubmit] (initialLoginPage initialSystem) in
  rtc (login_step (fun _ => true)) (initialLoginPage initialSystem) p /\
  error_banners p = ["Formato de email inválido"].
Proof.
  assert (Hr : rtc (login_step (fun _ => true)) (initialLoginPage initialSystem)
    (login_run (fun _ => true) [LChange FCompany "GNP"; LChange FEmail "ana@aseguradora";
                                LChange FPassword "x"; LSubmit] (initialLoginPage initialSystem))).
  { apply rtc_login_run. repeat constructor. }
  split; [exact Hr|].
  destruct (login_render_messages (fun _ => true) _ Hr) as [[H|(m & _ & Hm & ->)] _].
  - vm_compute in H. discriminate.
  - vm_compute in Hm. by injection Hm as <-.
Defined.

Lemma login_page_ok_witness :
  rtc (login_step (fun _ => true)) (initialLoginPage initialSystem)
    (login_dispatch (fun _ => true) LQuickDemo (initialLoginPage initialSystem)) /\
  page_ok (login_dispatch (fun _ => true) LQuickDemo (initialLoginPage initialSystem)).
Proof.
  assert (H : rtc (login_step (fun _ => true)) (initialLoginPage initialSystem)
                (login_dispatch (fun _ => true) LQuickDemo (initialLoginPage initialSystem))).
  { apply rtc_once. by constructor. }
  split; [exact H|]. apply (login_page_ok _ _ H).
Defined.

Lemma quick_demo_login_witness :
  (fun _ : string => true) "demo@gnp.com" = true /\
  valid (validatePasswordStrength "Capacita2025!") = true /\
  location (login_run (fun _ => true) [LQuickDemo; LChange FPassword "Capacita2025!"; LSubmit; LTimer "u1"]
    (initialLoginPage initialSystem)) = Some "/dashboard".
Proof.
  split_and!; [reflexivity|reflexivity|].
  apply (quick_demo_login (fun _ => true) "Capacita2025!" "u1"); reflexivity.
Defined.

Lemma rejected_email_error_cleared_witness :
  let p := mkLoginPage (mkCredentials "ana@aseguradora" "x" "GNP") initialSystem None in
  isLoading (auth (system p)) = false /\ form_valid (fun _ => true) (credentials p) = true /\
  email_test (cred_email (credentials p)) = false /\
  error (auth (system (login_dispatch (fun _ => true) LSubmit p))) = Some "Formato de email inválido".
Proof.
  simpl. split_and!; [reflexivity|reflexivity|reflexivity|].
  apply (rejected_email_error_cleared (fun _ => true)
           (mkLoginPage (mkCredentials "ana@aseguradora" "x" "GNP") initialSystem None) FEmail "");
    reflexivity.
Defined.

End LoginPage.
