(* ===== verification/Dashboard.v ===== *)
(** * Dashboard: the home page of [pages/Dashboard.tsx]

    The page reads [user] and [logout] from the session store. Its
    constants are the four statistic cards [STATS_DATA] (lines 31-64) and
    the four quick actions [QUICK_ACTIONS] (lines 66-95). [handleLogout]
    (lines 105-112) runs [logout] and navigates to [/login]; a quick action
    navigates to its route on a click or on the Enter key (lines 213-214);
    the welcome line shows [getUserFirstName] (lines 118-120). The path
    the page navigates to is then rendered by [App], whose table is
    [Routing.resolve]. *)

From stdpp Require Import base list.
From Stdlib Require Import String Ascii Bool.
From S2P Require Import Prelude View ExamTypes Validation AuthStore Routing.

Import View AuthStore Routing.

Module Dashboard.

#[local] Open Scope string_scope.

Inductive Variant := Primary | Success | Info | Warning.

Record StatItem := mkStatItem {
  stat_id : string; stat_icon : string; label : string; value : string;
  variant : Variant; trend : string
}.

Record QuickAction := mkQuickAction {
  action_id : string; action_icon : string; action_title : string;
  description : string; route : string
}.

Definition STATS_DATA : list StatItem := [
  mkStatItem "courses" "fa-book" "Cursos Activos" "12" Primary "+2 este mes";
  mkStatItem "exams" "fa-check-circle" "Exámenes Aprobados" "8" Success "Meta: 10";
  mkStatItem "hours" "fa-clock" "Horas Totales" "45h" Info "+5h hoy";
  mkStatItem "average" "fa-trophy" "Promedio General" "90%" Warning "Top 5%"
].

Definition QUICK_ACTIONS : list QuickAction := [
  mkQuickAction "simulator" "fa-graduation-cap" "Simulador CNSF"
    "Evalúa tus conocimientos con preguntas oficiales." "/simulator";
  mkQuickAction "courses" "fa-layer-group" "Mis Cursos" "Accede a tu material de estudio." "/courses";
  mkQuickAction "reports" "fa-chart-line" "Reportes" "Consulta tu avance y constancias." "/progress";
  mkQuickAction "assistant" "fa-robot" "Asistente Virtual" "Soporte inteligente 24/7." "/help"
].

Definition variant_name (v : Variant) : string :=
  match v with Primary => "primary" | Success => "success" | Info => "info" | Warning => "warning" end.

(** [`stat-card ${variant}`] *)
Definition getVariantClass (v : Variant) : string := "stat-card " ++ variant_name v.

(** [s.split(' ')[0]]: the characters before the first space. *)
Fixpoint first_word (s : string) : string :=
  match s with
  | EmptyString => EmptyString
  | String c s' => if Ascii.eqb c " "%char then EmptyString else String c (first_word s')
  end.

(** [user?.name?.split(' ')[0] || 'Usuario'] *)
Definition getUserFirstName (u : option User) : string :=
  match u with
  | Some x => let w := first_word (name x) in if String.eqb w "" then "Usuario" else w
  | None => "Usuario"
  end.

(** [user?.name || 'Usuario'] and [user?.email || 'usuario@ejemplo.com'] *)
Definition user_name_label (u : option User) : string :=
  match u with Some x => if String.eqb (name x) "" then "Usuario" else name x | None => "Usuario" end.

Definition user_email_label (u : option User) : string :=
  match u with
  | Some x => if String.eqb (email x) "" then "usuario@ejemplo.com" else email x
  | None => "usuario@ejemplo.com"
  end.

(** The page: the session store and the path of the last [navigate]. *)
Record DashState := mkDashState { dsys : System; dpath : string }.

(** [handleLogout]: [logout()], whose [await] on a value only defers the
    rest, then [navigate('/login')]; [logout] does not throw. *)
Definition handleLogout (d : DashState) : DashState :=
  mkDashState (sys_dispatch ELogout (dsys d)) "/login".

Definition handleQuickActionClick (r : string) (d : DashState) : DashState :=
  mkDashState (dsys d) r.

Inductive DashEvent :=
| DLogout
| DClick (a : QuickAction)
| DKey (key : string) (a : QuickAction).

(** [onKeyDown={(e) => e.key === 'Enter' && handleQuickActionClick(...)}] *)
Definition dash_dispatch (ev : DashEvent) (d : DashState) : DashState :=
  match ev with
  | DLogout => handleLogout d
  | DClick a => handleQuickActionClick (route a) d
  | DKey k a => if String.eqb k "Enter" then handleQuickActionClick (route a) d else d
  end.

(** The page [App] shows after the navigation. *)
Definition shown_page (d : DashState) : option PageName :=
  resolve 3 (isAuthenticated (auth (dsys d))) (dpath d).

(** ** What the page renders (lines 126-247) *)

(** The JSX text [""] of line 134, written before the overlay: two double
    quote characters. *)
Definition stray_text : string := String Validation.dquote (String Validation.dquote EmptyString).

(** A statistic card (lines 190-201). *)
Definition render_stat (st : StatItem) : vnode :=
  el "div" (getVariantClass (variant st)) [
    el "div" "stat-icon" [el "i" ("fas " ++ stat_icon st) []];
    el "div" "stat-content" [
      el "span" "stat-value" [VText (value st)];
      el "span" "stat-label" [VText (label st)];
      el "span" "stat-trend" [VText (trend st)]]].

(** A quick action card (lines 209-226). *)
Definition render_action (a : QuickAction) : vnode :=
  VElem "div" "quick-action-card" [("tabIndex", "0"); ("role", "button")] [
    el "div" "quick-action-icon" [el "i" ("fas " ++ action_icon a) []];
    el "div" "quick-action-content" [
      el "h4" "quick-action-title" [VText (action_title a)];
      el "p" "quick-action-description" [VText (description a)]]].

(** The page for the store's user; [today] is
    [new Date().toLocaleDateString()]. *)
Definition render_dashboard (u : option User) (today : string) : vnode :=
  el "div" "dashboard-container" [
    VElem "img" "dashboard-background" [("src", "dashboard.png"); ("alt", "Dashboard Background"); ("loading", "eager")] [];
    VText stray_text;
    el "div" "dashboard-overlay" [];
    el "header" "dashboard-header" [
      el "div" "header-left" [
        el "div" "brand-section" [
          el "h1" "dashboard-title" [VText "Panel CNSF"];
          el "span" "dashboard-subtitle" [VText "Plataforma Premium"]]];
      el "div" "header-right" [
        el "div" "user-info-section" [
          el "div" "user-details" [
            VElem "span" "user-name" [("title", match u with Some x => name x | None => "" end)]
              [VText (user_name_label u)];
            VElem "span" "user-email" [("title", match u with Some x => email x | None => "" end)]
              [VText (user_email_label u)]];
          VElem "button" "logout-button" [("aria-label", "Cerrar sesión"); ("title", "Cerrar sesión")] [
            el "i" "fas fa-sign-out-alt" [];
            el "span" "logout-text" [VText "Salir"]]]]];
    el "main" "dashboard-main" [
      el "section" "welcome-section" [
        el "div" "welcome-card" [
          el "h2" "welcome-title" [VText "Bienvenido, "; el "span" "user-highlight" [VText (getUserFirstName u)]];
          el "p" "welcome-message" [VText "Monitorea tu progreso hacia la certificación CNSF"];
          el "p" "last-login" [VText "Último acceso: "; VText today]]];
      el "section" "statistics-section" [
        el "h3" "section-title" [VText "Resumen de Progreso"];
        el "div" "statistics-grid" (map render_stat STATS_DATA)];
      el "section" "quick-actions-section" [
        el "h3" "section-title" [VText "Acciones Rápidas"];
        el "div" "quick-actions-grid" (map render_action QUICK_ACTIONS)];
      el "section" "additional-info-section" [
        el "h3" "section-title" [VText "Información Adicional"];
        el "div" "additional-info-grid" [
          el "div" "info-card" [el "h4" "" [VText "Próximos Exámenes"]; el "p" "" [VText "No tienes exámenes programados"]];
          el "div" "info-card" [el "h4" "" [VText "Certificaciones"]; el "p" "" [VText "Tienes 2 certificados disponibles"]]]]]].

(** * Lemmas *)

Lemma logout_unauthenticated sy : isAuthenticated (auth (sys_dispatch ELogout sy)) = false.
Proof. reflexivity. Qed.

Lemma getUserFirstName_nonempty u : getUserFirstName u <> "".
Proof.
  destruct u as [x|]; simpl; [|discriminate].
  destruct (String.eqb_spec (first_word (name x)) ""); [discriminate|done].
Qed.

(** * Theorems *)

(** What the dashboard shows: the first two characters of its text
    are the stray [""] of line 134, written before the overlay whatever
    the user; the welcome line greets the first word of the user's name,
    or [Usuario] when there is none, never an empty name; the statistic
    cards show the constants of [STATS_DATA]. *)
Theorem dashboard_render u today :
  String.prefix stray_text (text_of (render_dashboard u today)) = true /\
  text_of <$> by_class "user-highlight" (render_dashboard u today) = [getUserFirstName u] /\
  getUserFirstName u <> "" /\
  text_of <$> by_class "stat-value" (render_dashboard u today) = ["12"; "8"; "45h"; "90%"].
Proof.
  split_and!; [reflexivity| |apply getUserFirstName_nonempty|reflexivity].
  simpl. by rewrite str_app_nil_r.
Qed.


(** C32. The dashboard's navigation composed with the route table: a logout
    always shows the login page; with a session, the four quick actions,
    by click or by Enter, show the simulator, the courses, the progress
    and the help pages, and any other key does nothing. *)
Theorem dashboard_navigation d :
  shown_page (dash_dispatch DLogout d) = Some PLogin /\
  (isAuthenticated (auth (dsys d)) = true ->
   map (fun a => shown_page (dash_dispatch (DClick a) d)) QUICK_ACTIONS =
     [Some PSimulator; Some PCourses; Some PProgress; Some PHelp] /\
   map (fun a => shown_page (dash_dispatch (DKey "Enter" a) d)) QUICK_ACTIONS =
     [Some PSimulator; Some PCourses; Some PProgress; Some PHelp] /\
   forall k a, k <> "Enter" -> dash_dispatch (DKey k a) d = d).
Proof.
  split; [unfold shown_page, dash_dispatch, handleLogout; cbn [dsys dpath];
          by rewrite logout_unauthenticated|].
  intros Ha. unfold shown_page, dash_dispatch, handleQuickActionClick. cbn [map dsys dpath route].
  rewrite String.eqb_refl. cbn [dsys dpath]. rewrite Ha. split_and!; [reflexivity|reflexivity|].
  intros k a Hk. by rewrite (proj2 (String.eqb_neq k "Enter") Hk).
Qed.

Lemma dashboard_navigation_witness :
  isAuthenticated (auth (sys_dispatch (ETimer "u1") (sys_dispatch (ELogin demo_credentials) initialSystem))) = true /\
  shown_page (dash_dispatch (DClick (mkQuickAction "simulator" "fa-graduation-cap" "Simulador CNSF"
    "Evalúa tus conocimientos con preguntas oficiales." "/simulator"))
    (mkDashState (sys_dispatch (ETimer "u1") (sys_dispatch (ELogin demo_credentials) initialSystem)) "/dashboard"))
    = Some PSimulator.
Proof.
  assert (Ha : isAuthenticated (auth (sys_dispatch (ETimer "u1") (sys_dispatch (ELogin demo_credentials) initialSystem))) = true)
    by (vm_compute; reflexivity).
  split; [exact Ha|].
  destruct (dashboard_navigation (mkDashState (sys_dispatch (ETimer "u1") (sys_dispatch (ELogin demo_credentials) initialSystem)) "/dashboard")) as [_ H].
  destruct (H Ha) as [Hc _]. exact (f_equal (List.hd None) Hc).
Defined.

End Dashboard.
