(* ===== verification/Splash.v ===== *)
(** * Splash: the timing of [components/SplashScreen.tsx]

    The splash screen wraps the whole application ([App.tsx], line 18) and
    shows its own screen until [showSplash] turns false. Its effect (lines
    25-48) takes the start time from a ref that survives re-runs of the
    effect, and either hides the screen at once, when [SPLASH_DURATION]
    (4000 ms) has passed, or sets a timer for the remaining time, which its
    cleanup clears. [hideSplash] (lines 18-23) hides at most once through
    the [isHidden] ref. React may run the effect, its cleanup and the effect
    again (development [StrictMode]), at any time: the events of the model
    are a run of the effect, a run of its cleanup, and time passing. The
    model counts the calls of [setShowSplash(false)] in [hides]. *)

From stdpp Require Import base list relations.
From Stdlib Require Import ZArith Lia String.
From S2P Require Import Prelude View Logo.

Import View.

Module Splash.

#[local] Open Scope string_scope.
#[local] Open Scope Z_scope.

Definition SPLASH_DURATION : Z := 4000.

Record SplashState := mkSplashState {
  showSplash : bool;
  splashStartTime : option Z;
  isHidden : bool;
  timer : option Z;         (** the deadline of the pending [setTimeout] *)
  effect_on : bool;         (** the effect has run and not been cleaned up *)
  clock : Z;                (** [Date.now()] *)
  hides : nat
}.

Definition initialSplash (now : Z) : SplashState := mkSplashState true None false None false now 0.

(** [hideSplash] *)
Definition hideSplash (st : SplashState) : SplashState :=
  if isHidden st then st
  else mkSplashState false (splashStartTime st) true (timer st) (effect_on st) (clock st) (S (hides st)).

(** The effect's body at [now = clock]. *)
Definition run_effect (st : SplashState) : SplashState :=
  let now := clock st in
  let start := default now (splashStartTime st) in
  let remaining := SPLASH_DURATION - (now - start) in
  if remaining <=? 0 then
    hideSplash (mkSplashState (showSplash st) (Some start) (isHidden st) None true now (hides st))
  else mkSplashState (showSplash st) (Some start) (isHidden st) (Some (now + remaining)) true now (hides st).

(** The cleanup: [clearTimeout(timer)]. *)
Definition cleanup (st : SplashState) : SplashState :=
  mkSplashState (showSplash st) (splashStartTime st) (isHidden st) None false (clock st) (hides st).

(** Time passes to [t]; a timer due by then fires. *)
Definition advance (t : Z) (st : SplashState) : SplashState :=
  match timer st with
  | Some dl =>
      if dl <=? t then
        let st' := hideSplash (mkSplashState (showSplash st) (splashStartTime st) (isHidden st) None
                                 (effect_on st) dl (hides st)) in
        mkSplashState (showSplash st') (splashStartTime st') (isHidden st') (timer st')
          (effect_on st') t (hides st')
      else mkSplashState (showSplash st) (splashStartTime st) (isHidden st) (timer st) (effect_on st) t (hides st)
  | None => mkSplashState (showSplash st) (splashStartTime st) (isHidden st) (timer st) (effect_on st) t (hides st)
  end.

Inductive splash_step : SplashState -> SplashState -> Prop :=
| step_effect st : effect_on st = false -> splash_step st (run_effect st)
| step_cleanup st : effect_on st = true -> splash_step st (cleanup st)
| step_advance st t : clock st <= t -> splash_step st (advance t st).

(** What the component renders (lines 50-74): the application's content
    once the splash is hidden, the splash screen before. *)
Definition splash_screen : vnode :=
  el "div" "splash-screen" [
    VElem "img" "splash-background" [("src", "splashscreen.png"); ("alt", "Splash Background")] [];
    el "div" "splash-overlay" [];
    el "div" "splash-content" [
      el "div" "splash-logo" [Logo.Logo (Logo.mkLogoProps (Some Logo.Large) None)];
      el "h1" "splash-title" [VText "GProA"];
      el "p" "splash-subtitle" [VText "Capacitación Bancos y Aseguradoras"];
      el "div" "splash-spinner" [el "div" "spinner-ring" []; el "div" "spinner-ring" []; el "div" "spinner-ring" []];
      el "p" "splash-loading-text" [VText "Cargando contenidos CNSF..."]]].

Definition render_splash (st : SplashState) (children : list vnode) : list vnode :=
  if negb (showSplash st) then children else [splash_screen].

(** The invariant: the screen shows exactly until the single hide; a
    pending timer is due at the start time plus the duration, in the
    future; the screen is hidden only once the duration has passed; and a
    running effect that has not hidden the screen has a timer pending. *)
Definition splash_ok (st : SplashState) : Prop :=
  showSplash st = negb (isHidden st) /\
  hides st = (if isHidden st then 1 else 0)%nat /\
  (forall dl, timer st = Some dl ->
     exists s, splashStartTime st = Some s /\ dl = s + SPLASH_DURATION /\ clock st < dl /\
       effect_on st = true /\ isHidden st = false) /\
  (forall s, splashStartTime st = Some s -> s <= clock st) /\
  (isHidden st = true -> exists s, splashStartTime st = Some s /\ s + SPLASH_DURATION <= clock st) /\
  (effect_on st = true -> isHidden st = false -> timer st <> None) /\
  (splashStartTime st = None -> effect_on st = false /\ isHidden st = false).

(** * Lemmas *)

Ltac splash_unfold := unfold splash_ok, run_effect, cleanup, advance, hideSplash, SPLASH_DURATION in *.

(** Closes the arithmetic and the existential goals of the invariant. *)
Ltac splash_close :=
  intros; simplify_eq/=;
  repeat match goal with
  | H : ?P -> _, HP : ?P |- _ => specialize (H HP)
  | H : exists _, _ |- _ => destruct H
  | H : _ /\ _ |- _ => destruct H
  end; simplify_eq/=;
  first [done | lia | match goal with |- exists s0, Some ?x = Some s0 /\ _ => exists x; split_and!; (done || lia) end
        | eexists; split_and!; [eassumption|..]; (done || lia)].

Lemma splash_ok_initial now : splash_ok (initialSplash now).
Proof. splash_unfold. simpl. split_and!; splash_close. Qed.

Lemma splash_ok_effect st : effect_on st = false -> splash_ok st -> splash_ok (run_effect st).
Proof.
  intros Hoff (Hshow & Hh & Ht & Hs & Hhid & Hon & Hnone). splash_unfold.
  destruct (splashStartTime st) as [s|] eqn:Hst; simpl.
  - specialize (Hs s eq_refl).
    destruct (4000 - (clock st - s) <=? 0) eqn:Hr; [apply Z.leb_le in Hr|apply Z.leb_gt in Hr].
    + destruct (isHidden st) eqn:Hi; simpl; split_and!; splash_close.
    + simpl. split_and!; try splash_close.
      intros dl [= <-]. exists s. split_and!; try done; try lia.
      destruct (isHidden st) eqn:Hi; [|done]. destruct (Hhid eq_refl) as (s' & [= <-] & Hle). lia.
  - destruct (Hnone eq_refl) as [_ Hi]. rewrite Hi in *.
    replace (4000 - (clock st - clock st) <=? 0) with false by (symmetry; apply Z.leb_gt; lia).
    simpl. split_and!; splash_close.
Qed.

Lemma splash_ok_cleanup st : splash_ok st -> splash_ok (cleanup st).
Proof.
  intros (Hshow & Hh & Ht & Hs & Hhid & Hon & Hnone). splash_unfold. simpl.
  split_and!; splash_close.
Qed.

Lemma splash_ok_advance st t : clock st <= t -> splash_ok st -> splash_ok (advance t st).
Proof.
  intros Hle (Hshow & Hh & Ht & Hs & Hhid & Hon & Hnone). splash_unfold.
  destruct (timer st) as [dl|] eqn:Htm; [destruct (Ht dl eq_refl) as (s & Hst & -> & Hlt & Heon & Hi);
    destruct (s + 4000 <=? t) eqn:Hd; [apply Z.leb_le in Hd|apply Z.leb_gt in Hd]; rewrite Hi in *|];
    simpl; split_and!; splash_close.
Qed.

Lemma splash_ok_step st st' : splash_step st st' -> splash_ok st -> splash_ok st'.
Proof.
  destruct 1; [by apply splash_ok_effect|apply splash_ok_cleanup|by apply splash_ok_advance].
Qed.

Lemma splash_ok_rtc now st : rtc splash_step (initialSplash now) st -> splash_ok st.
Proof.
  intros Hr. remember (initialSplash now) as st0 eqn:E.
  assert (H0 : splash_ok st0) by (subst; apply splash_ok_initial). clear E.
  induction Hr as [|x y z Hs _ IH]; [done|]. by apply IH, (splash_ok_step x).
Qed.

(** In a reachable state the application's content is rendered exactly
    when the splash is hidden, which is only once the duration has passed. *)
Lemma render_splash_reachable now st children :
  rtc splash_step (initialSplash now) st ->
  render_splash st children = (if isHidden st then children else [splash_screen]) /\
  (isHidden st = true -> exists s, splashStartTime st = Some s /\ s + SPLASH_DURATION <= clock st).
Proof.
  intros Hr. destruct (splash_ok_rtc now st Hr) as (Hshow & _ & _ & _ & Hhid & _).
  unfold render_splash. rewrite Hshow, negb_involutive. split; [done|exact Hhid].
Qed.

(** * Theorems *)

(** C33. The splash screen hides exactly on time, whatever the runs of the
    effect and its cleanup before: while the effect is mounted, time
    reaching [t] hides the screen exactly when [t] is at least the first
    start time plus 4000 ms, and [setShowSplash(false)] is called at most
    once. *)
Theorem splash_hides_on_time now st s t :
  rtc splash_step (initialSplash now) st -> effect_on st = true -> splashStartTime st = Some s ->
  clock st <= t ->
  (showSplash (advance t st) = false <-> s + SPLASH_DURATION <= t) /\ (hides (advance t st) <= 1)%nat.
Proof.
  intros Hr Hon Hst Hle. pose proof (splash_ok_rtc now st Hr) as Hok.
  pose proof (splash_ok_advance st t Hle Hok) as (Hshow' & Hh' & _).
  split; [|rewrite Hh'; case_match; lia].
  destruct Hok as (Hshow & Hh & Ht & Hs & Hhid & Hon' & Hnone).
  destruct (isHidden st) eqn:Hi.
  - destruct (Hhid eq_refl) as (s' & Hs' & Hd). rewrite Hst in Hs'. injection Hs' as <-.
    destruct (timer st) as [dl|] eqn:Htm; [by destruct (Ht dl eq_refl) as (? & ? & ? & ? & ? & ?)|].
    unfold advance. rewrite Htm. simpl. rewrite Hshow. unfold SPLASH_DURATION in *. split; [lia|done].
  - destruct (timer st) as [dl|] eqn:Htm; [|by destruct (Hon' Hon)].
    destruct (Ht dl eq_refl) as (s' & Hs' & -> & _). rewrite Hst in Hs'. injection Hs' as <-.
    unfold advance, hideSplash. rewrite Htm, Hi.
    destruct (s + SPLASH_DURATION <=? t) eqn:Hd; [apply Z.leb_le in Hd|apply Z.leb_gt in Hd];
      simpl; rewrite ?Hshow, ?Hi; simpl; split; intros; (done || lia).
Qed.

Lemma splash_hides_on_time_witness :
  rtc splash_step (initialSplash 0) (run_effect (initialSplash 0)) /\
  showSplash (advance 4000 (run_effect (initialSplash 0))) = false.
Proof.
  assert (Hr : rtc splash_step (initialSplash 0) (run_effect (initialSplash 0))).
  { apply rtc_once. by constructor. }
  split; [exact Hr|].
  apply (splash_hides_on_time 0 (run_effect (initialSplash 0)) 0 4000 Hr); [reflexivity|reflexivity|simpl; lia|].
  unfold SPLASH_DURATION. lia.
Defined.

End Splash.
