(* ===== verification/Json.v ===== *)
(** * Json: the JSON form of the stored results

    [completeExam] writes the result history with
    [localStorage.setItem('examResults', JSON.stringify(limitedResults))]
    and reads it back with [JSON.parse] ([store/examStore.ts], lines
    131-134); the persist middleware of the store writes [results] the same
    way ([createJSONStorage], lines 160-163). The reader treats the parsed
    value as [ExamResult[]] ([types/exam.ts], lines 10-27). This file gives
    the JSON values, the encoding [JSON.stringify] performs on the values of
    these types (objects with the keys of the object literals, in their
    order; [NaN] and the infinities become [null]), and the decoding the
    reader's type assumes. Encoders and decoders are type classes, with the
    round-trip law as a class of its own, instantiated for the types whose
    encoding loses nothing. *)

From stdpp Require Import base list option sets.
From Stdlib Require Import ZArith String Bool.
From S2P Require Import Prelude ExamTypes.

Module Json.

#[local] Open Scope string_scope.

Inductive json :=
| JSNull
| JSBool (b : bool)
| JSNumber (z : Z)
| JSString (s : string)
| JSArray (l : list json)
| JSObject (fields : list (string * json)).

Class Encode (A : Type) := encode : A -> json.
Class Decode (A : Type) := decode : json -> option A.

(** The round trip: what is written reads back as the same value. *)
Class Codec (A : Type) `{!Encode A, !Decode A} :=
  decode_encode : forall a : A, decode (encode a) = Some a.

(** The value of a key of an object. *)
Fixpoint field (k : string) (fs : list (string * json)) : option json :=
  match fs with
  | [] => None
  | (k', v) :: fs' => if String.eqb k k' then Some v else field k fs'
  end.

Definition get_field {A} `{!Decode A} (k : string) (fs : list (string * json)) : option A :=
  field k fs ≫= decode.

#[export] Instance encode_string : Encode string := JSString.
#[export] Instance decode_string : Decode string :=
  fun j => match j with JSString s => Some s | _ => None end.

#[export] Instance encode_bool : Encode bool := JSBool.
#[export] Instance decode_bool : Decode bool :=
  fun j => match j with JSBool b => Some b | _ => None end.

(** Integer numbers. *)
#[export] Instance encode_Z : Encode Z := JSNumber.
#[export] Instance decode_Z : Decode Z :=
  fun j => match j with JSNumber z => Some z | _ => None end.

(** [JSON.stringify] writes [NaN] and the infinities as [null]; a [number]
    is read only from a number. *)
#[export] Instance encode_jsnum : Encode jsnum :=
  fun n => match n with JNum z => JSNumber z | _ => JSNull end.
#[export] Instance decode_jsnum : Decode jsnum :=
  fun j => match j with JSNumber z => Some (JNum z) | _ => None end.

Fixpoint decode_list {A} (d : json -> option A) (l : list json) : option (list A) :=
  match l with
  | [] => Some []
  | j :: l' => x ← d j; xs ← decode_list d l'; Some (x :: xs)
  end.

#[export] Instance encode_list {A} `{!Encode A} : Encode (list A) :=
  fun l => JSArray (map encode l).
#[export] Instance decode_list_inst {A} `{!Decode A} : Decode (list A) :=
  fun j => match j with JSArray l => decode_list decode l | _ => None end.

(** [{ questionId, selectedAnswer, isCorrect }] *)
#[export] Instance encode_answer : Encode UserAnswer :=
  fun a => JSObject [("questionId", encode (questionId a)); ("selectedAnswer", encode (selectedAnswer a));
                     ("isCorrect", encode (isCorrect a))].
#[export] Instance decode_answer : Decode UserAnswer :=
  fun j => match j with
           | JSObject fs =>
               q ← get_field "questionId" fs; s ← get_field "selectedAnswer" fs;
               c ← get_field "isCorrect" fs; Some (mkUserAnswer q s c)
           | _ => None
           end.

(** The object literal of [completeExam] (lines 111-122). *)
#[export] Instance encode_result : Encode ExamResult :=
  fun r => JSObject [
    ("id", encode (result_id r)); ("examId", encode (examId r)); ("userId", encode (userId r));
    ("score", encode (score r)); ("totalQuestions", encode (totalQuestions r));
    ("correctAnswers", encode (correctAnswers r)); ("wrongAnswers", encode (wrongAnswers r));
    ("timeSpent", encode (timeSpent r)); ("answers", encode (result_answers r));
    ("completedAt", encode (completedAt r))].
#[export] Instance decode_result : Decode ExamResult :=
  fun j => match j with
           | JSObject fs =>
               i ← get_field "id" fs; e ← get_field "examId" fs; u ← get_field "userId" fs;
               sc ← get_field "score" fs; t ← get_field "totalQuestions" fs;
               c ← get_field "correctAnswers" fs; w ← get_field "wrongAnswers" fs;
               ts ← get_field "timeSpent" fs; a ← get_field "answers" fs;
               ca ← get_field "completedAt" fs;
               Some (mkExamResult i e u sc t c w ts a ca)
           | _ => None
           end.

(** A finite number. *)
Definition finite (n : jsnum) : bool := match n with JNum _ => true | _ => false end.

(** * Lemmas *)

#[export] Instance codec_string : Codec string.
Proof. done. Qed.
#[export] Instance codec_bool : Codec bool.
Proof. done. Qed.
#[export] Instance codec_Z : Codec Z.
Proof. done. Qed.

#[export] Instance codec_list {A} `{Codec A} : Codec (list A).
Proof.
  intros l. unfold decode, decode_list_inst, encode, encode_list.
  induction l as [|x l IH]; [done|]. simpl. by rewrite decode_encode, IH.
Qed.

#[export] Instance codec_answer : Codec UserAnswer.
Proof. by intros []. Qed.

Lemma decode_encode_jsnum n : decode (encode n) = if finite n then Some n else None.
Proof. by destruct n. Qed.

Lemma decode_encode_result r :
  decode (encode r) = if finite (score r) then Some r else None.
Proof.
  destruct r as [i e u sc t c w ts a ca]. unfold decode, decode_result, encode at 1, encode_result.
  cbn [field String.eqb Ascii.eqb Bool.eqb get_field mbind option_bind].
  unfold get_field. simpl. rewrite decode_encode_jsnum.
  destruct (finite sc); [|done]. simpl. by rewrite (decode_encode a).
Qed.

Lemma decode_list_encode_results (l : list ExamResult) :
  decode_list decode (map encode l) = if forallb (fun r => finite (score r)) l then Some l else None.
Proof.
  induction l as [|r l IH]; [done|]. simpl. rewrite decode_encode_result, IH.
  by destruct (finite (score r)), (forallb _ l).
Qed.

(** * Theorems *)

(** The stored result history keeps its type exactly when every score
    is a finite number: [JSON.parse] of the [JSON.stringify] of a list of
    results reads as the same list of [ExamResult]s if and only if no score
    is [NaN] or infinite; a [NaN] score is written as [null], which is not
    the [number] the type promises. *)
Theorem results_json_type (l : list ExamResult) :
  (decode (encode l) = Some l <-> Forall (fun r => finite (score r) = true) l) /\
  (forall r, r ∈ l -> finite (score r) = false ->
     exists fs, encode r = JSObject fs /\ field "score" fs = Some JSNull).
Proof.
  split.
  - unfold decode at 1, decode_list_inst, encode at 1, encode_list.
    rewrite decode_list_encode_results, List.Forall_forall, <-forallb_forall.
    destruct (forallb _ l); split; congruence.
  - intros r _ Hf. eexists. split; [reflexivity|]. simpl.
    by destruct (score r).
Qed.

Lemma results_json_type_witness :
  exists fs, encode (mkExamResult "r1" "exam-1" "anonymous" JNaN 0 0 0 0 [] "t") = JSObject fs /\
             field "score" fs = Some JSNull.
Proof.
  destruct (results_json_type [mkExamResult "r1" "exam-1" "anonymous" JNaN 0 0 0 0 [] "t"]) as [_ H].
  apply H; [set_solver|reflexivity].
Defined.

End Json.
