(* ===== verification/AppView.v ===== *)
(** * AppView: the document of the whole application ([App.tsx])

    [App] wraps its [Routes] in the [SplashScreen] (lines 16-84): while the
    splash shows, the document is the splash screen; afterwards it is the
    element the route table selects for the current path and the session
    flag, after the [<Navigate>] redirections. Every page reads the one
    session store. The state of the application here is the state of each
    mounted part: the splash screen, the login page with the session store
    it drives, the exam page, the course page's expanded set, the progress
    page and the help chat, with the current path and date. The two locale
    formats ([toLocaleTimeString] of the chat, [toLocaleDateString] of the
    results card) are parameters. *)

From stdpp Require Import base list relations gmap.
From Stdlib Require Import ZArith String.
From S2P Require Import Prelude View ExamTypes History ExamStore ExamPage ExamView AuthStore Routing Cursos Charts ProgresoView Ayuda LoginPage Dashboard Splash.

Import View AuthStore Routing.

Module AppView.

#[local] Open Scope string_scope.

Record AppState := mkAppState {
  app_splash : Splash.SplashState;
  app_login : LoginPage.LoginPage;
  app_exam : ExamPage.Page;
  app_cursos : gset Z;
  app_progreso : Charts.ProgresoState;
  app_chat : Ayuda.Chat;
  app_path : string;
  app_today : string
}.

(** The session store every page reads ([useAuthStore]). *)
Definition app_session (st : AppState) : System := LoginPage.system (app_login st).

Section Render.
Variable fmt_time : Z -> string.
Variable fmt_date : string -> string.

(** The element of each route (lines 21-80), once the guard lets it through. *)
Definition page_nodes (st : AppState) (page : PageName) : list vnode :=
  let u := user (auth (app_session st)) in
  match page with
  | PLogin => [LoginPage.render_login (app_login st)]
  | PDashboard => [Dashboard.render_dashboard u (app_today st)]
  | PSimulator => ExamView.render_exam_page fmt_date u (app_exam st)
  | PCourses => [Cursos.render_cursos (Cursos.has_expandido (app_cursos st))]
  | PProgress => [ProgresoView.render_progreso (app_progreso st)]
  | PHelp => [Ayuda.render_chat fmt_time (app_chat st)]
  end.

(** [App] (lines 13-85): the splash screen around the routed page. *)
Definition render_app (st : AppState) : list vnode :=
  Splash.render_splash (app_splash st)
    (match resolve 3 (isAuthenticated (auth (app_session st))) (app_path st) with
     | Some page => page_nodes st page
     | None => []
     end).

End Render.

(** * Theorems *)

(** C26. The document of the application, for a reachable splash screen and
    a reachable session store: the splash screen until it has hidden, and
    then the login page exactly when no user is logged in, and otherwise
    the page of the path, matched as React Router matches it (the
    dashboard for [/login] and unknown paths).
    In particular the exam, course, progress and help pages are only ever
    shown to a logged-in user. *)
Theorem app_document fmt_time fmt_date now st :
  rtc Splash.splash_step (Splash.initialSplash now) (app_splash st) ->
  rtc sys_step initialSystem (app_session st) ->
  render_app fmt_time fmt_date st =
    if Splash.isHidden (app_splash st) then
      page_nodes fmt_time fmt_date st
        (match user (auth (app_session st)) with
         | None => PLogin
         | Some _ => default PDashboard (lookup_route (app_path st) protected_routes)
         end)
    else [Splash.splash_screen].
Proof.
  intros Hsp Hsy. unfold render_app.
  rewrite (proj1 (Splash.render_splash_reachable now _ _ Hsp)).
  destruct (Splash.isHidden _); [|done].
  destruct (sys_ok_rtc _ _ sys_ok_initial Hsy) as [[Hauth _] _].
  rewrite resolve_App. destruct (user (auth (app_session st))) as [u|].
  - by rewrite (proj2 Hauth) by by eexists.
  - destruct (isAuthenticated _) eqn:Ha; [|done].
    by destruct (proj1 Hauth eq_refl).
Qed.

(** The application at start: the splash screen. *)
Lemma app_document_witness :
  let st := mkAppState (Splash.initialSplash 0) (LoginPage.initialLoginPage initialSystem)
              (ExamPage.initialPage History.Absent) Cursos.initialExpandidos Charts.initialProgreso
              (Ayuda.initialChat 0) "/courses" "lunes" in
  rtc Splash.splash_step (Splash.initialSplash 0) (app_splash st) /\
  rtc sys_step initialSystem (app_session st) /\
  render_app (fun _ => "") (fun d => d) st = [Splash.splash_screen].
Proof.
  intros st. assert (H1 : rtc Splash.splash_step (Splash.initialSplash 0) (app_splash st)) by reflexivity.
  assert (H2 : rtc sys_step initialSystem (app_session st)) by reflexivity.
  split_and!; [exact H1|exact H2|]. rewrite (app_document (fun _ => "") (fun d => d) 0 st H1 H2). reflexivity.
Defined.

End AppView.
